(** * run_market_ohlcv.py: a shallow embedding and its verified properties

    The script fetches three tables from a market-data provider (daily
    prices, short-sale volume, short-sale balance), normalises them with
    pandas, left-joins them on the date column [일자], fills the four
    short-sale columns with 0, sorts by date descending and writes a CSV.

    The embedding follows the script line by line.  What pandas, the Python
    builtins and the operating system do is written out as small functions
    over an explicit table type; the provider is a fixture (three functions)
    and the file system is an explicit state. *)

From Stdlib Require Import ZArith QArith Ascii String List Bool Lia Sorted Permutation.
From stdpp Require Import base option list strings pretty gmap.

Open Scope string_scope.
Open Scope list_scope.
Open Scope Z_scope.

(** ** Exceptions and the result monad *)

Module Py.

(** The exception classes the pipeline can meet.  All of them derive from
    [Exception], so the handler at the bottom of the script catches each. *)
Inductive exn : Type :=
| KeyError (key : string)
| ValueError (msg : string)
| TypeError (msg : string)
| OverflowError (msg : string)
| AttributeError (msg : string)
| OSError (msg : string)
| OtherError (cls msg : string).

(** [str(e)]: a [KeyError] prints the repr of its key. *)
Definition exn_str (e : exn) : string :=
  match e with
  | KeyError k => "'" +:+ k +:+ "'"
  | ValueError m | TypeError m | OverflowError m
  | AttributeError m | OSError m | OtherError _ m => m
  end.

Inductive result (A : Type) : Type :=
| Ok (a : A)
| Raise (e : exn).
Arguments Ok {A} a.
Arguments Raise {A} e.

#[export] Instance result_ret : MRet result := fun A a => Ok a.
#[export] Instance result_bind : MBind result := fun A B f m =>
  match m with
  | Ok a => f a
  | Raise e => Raise e
  end.

Definition is_ok {A} (r : result A) : bool :=
  match r with Ok _ => true | Raise _ => false end.

(** [mapM] for [result]: the first exception wins, as in a Python loop. *)
Fixpoint mapM {A B} (f : A -> result B) (l : list A) : result (list B) :=
  match l with
  | [] => Ok []
  | x :: t => y ← f x; ys ← mapM f t; Ok (y :: ys)
  end.

(** ** Python strings

    A [str] is held as the bytes of its UTF-8 encoding: an ASCII character
    is one byte, any other character a sequence of two to four bytes. *)

Definition chars (s : string) : list ascii := list_ascii_of_string s.
Definition text (l : list ascii) : string := string_of_list_ascii l.

Definition byte (c : ascii) : Z := Z.of_nat (nat_of_ascii c).

(** The length of the sequence a byte begins. *)
Definition seq_len (c : ascii) : nat :=
  let n := byte c in
  if n <? 192 then 1 else if n <? 224 then 2 else if n <? 240 then 3 else 4.

(** The characters of a text, each as its bytes. *)
Fixpoint utf8_chars (l : list ascii) : list (list ascii) :=
  match l with
  | [] => []
  | a :: t =>
      match seq_len a, t with
      | 2%nat, b :: t' => [a; b] :: utf8_chars t'
      | 3%nat, b :: c :: t' => [a; b; c] :: utf8_chars t'
      | 4%nat, b :: c :: d :: t' => [a; b; c; d] :: utf8_chars t'
      | _, _ => [a] :: utf8_chars t
      end
  end.

(** The code point of a character; U+FFFD for bytes that are no character. *)
Definition codepoint (s : list ascii) : Z :=
  match s with
  | [a] => if byte a <? 128 then byte a else 65533
  | [a; b] => (byte a - 192) * 64 + (byte b - 128)
  | [a; b; c] => (byte a - 224) * 4096 + (byte b - 128) * 64 + (byte c - 128)
  | [a; b; c; d] =>
      (byte a - 240) * 262144 + (byte b - 128) * 4096 + (byte c - 128) * 64
      + (byte d - 128)
  | _ => 65533
  end.

(** [str.isspace] for one character: TAB..CR, FS..US and the space, and
    beyond ASCII U+0085, U+00A0, U+1680, U+2000..U+200A, U+2028, U+2029,
    U+202F, U+205F and U+3000. *)
Definition is_space (cp : Z) : bool :=
  ((9 <=? cp) && (cp <=? 13)) || ((28 <=? cp) && (cp <=? 32))
  || (cp =? 133) || (cp =? 160) || (cp =? 5760)
  || ((8192 <=? cp) && (cp <=? 8202))
  || (cp =? 8232) || (cp =? 8233) || (cp =? 8239) || (cp =? 8287)
  || (cp =? 12288).

Fixpoint lstrip (l : list (list ascii)) : list (list ascii) :=
  match l with
  | c :: t => if is_space (codepoint c) then lstrip t else l
  | [] => []
  end.

Definition strip_chars (l : list ascii) : list ascii :=
  List.concat (rev (lstrip (rev (lstrip (utf8_chars l))))).

(** [s.strip()] *)
Definition strip (s : string) : string := text (strip_chars (chars s)).

(** [s.replace(",", "")] *)
Definition remove_commas (s : string) : string :=
  text (List.filter (fun c => negb (Ascii.eqb c ",")) (chars s)).

(** ** Numbers from text *)

(** The code points of the digit zero of every script (Unicode 14; the
    digits one to nine follow their zero). *)
Definition decimal_zeros : list Z :=
  [48; 1632; 1776; 1984; 2406; 2534; 2662; 2790; 2918; 3046; 3174; 3302;
   3430; 3558; 3664; 3792; 3872; 4160; 4240; 6112; 6160; 6470; 6608;
   6784; 6800; 6992; 7088; 7232; 7248; 42528; 43216; 43264; 43472;
   43504; 43600; 44016; 65296; 66720; 68912; 69734; 69872; 69942; 70096;
   70384; 70736; 70864; 71248; 71360; 71472; 71904; 72016; 72784; 73040;
   73120; 92768; 92864; 93008; 120782; 120792; 120802; 120812; 120822;
   123200; 123632; 125264; 130032].

(** [Py_UNICODE_TODECIMAL] *)
Definition unicode_decimal (cp : Z) : option Z :=
  match List.find (fun z => (z <=? cp) && (cp <? z + 10)) decimal_zeros with
  | Some z => Some (cp - z)
  | None => None
  end.

(** What [float] and [int] make of a [str] before they read it
    ([_PyUnicode_TransformDecimalAndSpaceToASCII]): a white space character
    becomes a space, a decimal digit of any script its ASCII digit, and the
    text ends with a question mark at the first other character beyond
    ASCII. *)
Fixpoint to_ascii (l : list (list ascii)) : list ascii :=
  match l with
  | [] => []
  | c :: t =>
      let cp := codepoint c in
      if cp <? 128 then c ++ to_ascii t
      else if is_space cp then " "%char :: to_ascii t
      else match unicode_decimal cp with
           | Some d => ascii_of_nat (48 + Z.to_nat d) :: to_ascii t
           | None => ["?"%char]
           end
  end.

(** [Py_ISSPACE]: the white space of the C locale. *)
Definition is_c_space (c : ascii) : bool :=
  let n := byte c in ((9 <=? n) && (n <=? 13)) || (n =? 32).

Fixpoint c_lstrip (l : list ascii) : list ascii :=
  match l with
  | c :: t => if is_c_space c then c_lstrip t else l
  | [] => []
  end.

Definition c_strip (l : list ascii) : list ascii :=
  rev (c_lstrip (rev (c_lstrip l))).

Definition is_digit (c : ascii) : bool :=
  let n := nat_of_ascii c in (48 <=? n)%nat && (n <=? 57)%nat.

Definition digit_val (c : ascii) : Z := Z.of_nat (nat_of_ascii c) - 48.

(** ASCII lower-casing, for the case-insensitive [inf] and [nan]. *)
Definition lower (c : ascii) : ascii :=
  let n := nat_of_ascii c in
  if (65 <=? n)%nat && (n <=? 90)%nat then ascii_of_nat (n + 32) else c.

(** Underscores in numeric literals: each one must stand between two
    digits; the accepted ones are removed
    ([_Py_string_to_number_with_underscores]). *)
Fixpoint drop_underscores (prev : option ascii) (l : list ascii)
  : option (list ascii) :=
  match l with
  | [] => match prev with
          | Some c => if Ascii.eqb c "_" then None else Some []
          | None => Some []
          end
  | c :: t =>
      if Ascii.eqb c "_" then
        match prev with
        | Some p => if is_digit p then drop_underscores (Some c) t else None
        | None => None
        end
      else
        match prev with
        | Some p =>
            if Ascii.eqb p "_" && negb (is_digit c) then None
            else option_map (cons c) (drop_underscores (Some c) t)
        | None => option_map (cons c) (drop_underscores (Some c) t)
        end
  end.

(** A maximal run of digits: its value, its length and the rest. *)
Fixpoint span_digits (acc : Z) (n : nat) (l : list ascii)
  : Z * nat * list ascii :=
  match l with
  | c :: t => if is_digit c then span_digits (10 * acc + digit_val c) (S n) t
              else (acc, n, l)
  | [] => (acc, n, [])
  end.

(** An optional sign: [true] for a minus. *)
Definition take_sign (l : list ascii) : bool * list ascii :=
  match l with
  | c :: t => if Ascii.eqb c "-" then (true, t)
              else if Ascii.eqb c "+" then (false, t) else (false, l)
  | [] => (false, [])
  end.

(** The text of a number as [float] and [int] read it: ASCII, without the
    underscores between digits and without the white space around. *)
Definition numeral (s : string) : option (list ascii) :=
  option_map c_strip (drop_underscores None (to_ascii (utf8_chars (chars s)))).

(** The longest numeral [int] converts by default
    ([sys.get_int_max_str_digits()]). *)
Definition max_str_digits : Z := 4300.

(** [int(s)] for a string in base 10. *)
Definition py_int (s : string) : result Z :=
  let invalid :=
    ValueError ("invalid literal for int() with base 10: '" +:+ s +:+ "'") in
  match numeral s with
  | None => Raise invalid
  | Some l =>
      let '(neg, l1) := take_sign l in
      match span_digits 0 0 l1 with
      | (v, S n, []) =>
          if max_str_digits <? Z.of_nat (S n)
          then Raise (ValueError
                 ("Exceeds the limit (4300 digits) for integer string conversion: value has "
                  +:+ pretty (S n)
                  +:+ " digits; use sys.set_int_max_str_digits() to increase the limit"))
          else Ok (if neg then - v else v)
      | _ => Raise invalid
      end
  end.

(** ** Cell values *)

(** A calendar date (year, month, day).  A pandas [Timestamp] also has a time
    of day, which [strftime("%Y-%m-%d")] drops; only the date is kept. *)
Record date : Type := Date { year : Z; month : Z; day : Z }.

(** A cell of a table: one of the scalars the provider's tables hold.
    [VNaN] stands for every pandas missing-value marker that is not [None]
    (float [nan], [NaT], [pd.NA]).  A finite float is held as the rational
    it is, in lowest terms (the two zeros are one value); [VInf] is an
    infinity.  A cell that is itself a list or an array is outside this
    type. *)
Inductive value : Type :=
| VNone
| VNaN
| VInf (neg : bool)
| VFloat (q : Q)
| VInt (z : Z)
| VStr (s : string)
| VTimestamp (d : date).

(** [pd.isna(x)] on a scalar. *)
Definition isna (v : value) : bool :=
  match v with VNone | VNaN => true | _ => false end.

(** [isinstance(x, (int, float, np.integer, np.floating))] *)
Definition is_number (v : value) : bool :=
  match v with VNaN | VInf _ | VFloat _ | VInt _ => true | _ => false end.

(** ** Floats

    A float is a binary64 number.  A finite one is held as the rational it
    is, in lowest terms. *)

(** The integer nearest to [n / d], the even one of two that are equally
    near ([0 <= n], [0 < d]). *)
Definition round_half_even (n d : Z) : Z :=
  let q := n / d in
  let r := n mod d in
  if 2 * r <? d then q
  else if d <? 2 * r then q + 1
  else if Z.even q then q else q + 1.

(** The float nearest to [n / d] ([0 <= n], [0 < d]): [m * 2^k] with
    [m <= 2^53] and [-1074 <= k], where [2^52 <= m] unless [k = -1074]; none
    when that is [2^1024] or more. *)
Definition binary64 (n d : Z) : option Q :=
  if n =? 0 then Some (0 # 1)
  else
    let e0 := Z.log2 n - Z.log2 d in
    let e := if n * 2 ^ Z.max 0 (- e0) <? d * 2 ^ Z.max 0 e0
             then e0 - 1 else e0 in
    let k := Z.max (e - 52) (- 1074) in
    let m := round_half_even (n * 2 ^ Z.max 0 (- k)) (d * 2 ^ Z.max 0 k) in
    if 2 ^ 1024 <=? m * 2 ^ Z.max 0 k then None
    else Some (Qred ((m * 2 ^ Z.max 0 k) # Z.to_pos (2 ^ Z.max 0 (- k)))).

(** The first magnitude that no longer rounds to a finite double:
    [2^1024 - 2^970]. *)
Definition float_overflow : Z := 2 ^ 1024 - 2 ^ 970.

(** The value [m * 10^e] as a float ([0 <= m]). *)
Definition decimal_float (neg : bool) (m e : Z) : value :=
  match (if 0 <=? e then binary64 (m * 10 ^ e) 1
         else binary64 m (10 ^ (- e))) with
  | Some q => VFloat (if neg then Qred (- q) else q)
  | None => VInf neg
  end.

(** [float(x)] for a number.  A Python [int] that is too large raises. *)
Definition float_of_number (v : value) : result value :=
  match v with
  | VInt z =>
      if Z.abs z <? float_overflow
      then Ok (decimal_float (z <? 0) (Z.abs z) 0)
      else Raise (OverflowError "int too large to convert to float")
  | _ => Ok v
  end.

(** The exponent part of a float literal: nothing, or [e], an optional sign
    and at least one digit, up to the end of the string. *)
Definition parse_exponent (l : list ascii) : option Z :=
  match l with
  | [] => Some 0
  | c :: t =>
      if Ascii.eqb (lower c) "e" then
        let '(neg, t1) := take_sign t in
        match span_digits 0 0 t1 with
        | (v, S _, []) => Some (if neg then - v else v)
        | _ => None
        end
      else None
  end.

(** Digits, an optional point and digits, an optional exponent; at least one
    digit before the exponent. *)
Definition parse_decimal (neg : bool) (l : list ascii) : option value :=
  let '(ip, n1, l1) := span_digits 0 0 l in
  let '(m, n2, l2) :=
    match l1 with
    | c :: t => if Ascii.eqb c "." then span_digits ip 0 t else (ip, 0%nat, l1)
    | [] => (ip, 0%nat, [])
    end in
  match (n1 + n2)%nat with
  | O => None
  | S _ =>
      match parse_exponent l2 with
      | Some e => Some (decimal_float neg m (e - Z.of_nat n2))
      | None => None
      end
  end.

(** [float(s)] for a string: [None] stands for the [ValueError]. *)
Definition py_float (s : string) : option value :=
  match numeral s with
  | None => None
  | Some l =>
      let '(neg, l1) := take_sign l in
      let w := text (List.map lower l1) in
      if String.eqb w "inf" || String.eqb w "infinity" then Some (VInf neg)
      else if String.eqb w "nan" then Some VNaN
      else parse_decimal neg l1
  end.

(** Fixed-width decimal rendering, as [%02d] and [%04d] do for a number
    that fits. *)
Fixpoint digits (w : nat) (n : Z) : list ascii :=
  match w with
  | O => []
  | S w' => ascii_of_nat (48 + Z.to_nat ((n / 10 ^ Z.of_nat w') mod 10))
            :: digits w' n
  end.

(** [.dt.strftime("%Y-%m-%d")] of pandas, whose timestamps have a year of
    four digits. *)
Definition strftime_dash (d : date) : string :=
  text (digits 4 (year d) ++ chars "-" ++ digits 2 (month d)
        ++ chars "-" ++ digits 2 (day d)).

(** [d.strftime("%Y%m%d")] of [datetime], which hands the format to the C
    library: that of Linux writes the year without padding, so a year before
    1000 has fewer than four digits. *)
Definition strftime_compact (d : date) : string :=
  text (chars (pretty (year d)) ++ digits 2 (month d) ++ digits 2 (day d)).

(** [str(x)] for a cell.  The script takes it of strings and timestamps (in
    [_to_num]) and of the smallest and largest date (in the summary); the
    text of a finite float, which depends on its binary rounding, is not
    needed and left empty. *)
Definition py_str (v : value) : string :=
  match v with
  | VStr s => s
  | VTimestamp d => strftime_dash d +:+ " 00:00:00"
  | VNone => "None"
  | VNaN => "nan"
  | VInf neg => if neg then "-inf" else "inf"
  | VInt z => pretty z
  | VFloat _ => ""
  end.

End Py.

(** ** The part of pandas the script uses *)

Module Pandas.
Import Py.

(** A table whose index no longer matters: labelled columns and rows of
    cells, row-major.  Every operation below builds rectangular tables. *)
Record Frame : Type := MkFrame { columns : list string; rows : list (list value) }.

(** A table as the provider hands it over: the index may be named, and each
    row carries its index label. *)
Record DataFrame : Type := MkDataFrame {
  index_name : option string;
  df_columns : list string;
  df_rows : list (value * list value)
}.

(** What a provider call may return. *)
Inductive pyobj : Type :=
| PyNone
| PyOther
| PyFrame (df : DataFrame).

(** [df.empty]: some axis has length 0. *)
Definition empty (df : DataFrame) : bool :=
  match df_columns df, df_rows df with
  | [], _ | _, [] => true
  | _, _ => false
  end.

(** [pd.DataFrame(columns=cols)] *)
Definition empty_frame (cols : list string) : Frame := MkFrame cols [].

Definition has_col (c : string) (cols : list string) : bool :=
  bool_decide (c ∈ cols).

(** Every place at which the label occurs. *)
Fixpoint positions (c : string) (i : nat) (cols : list string) : list nat :=
  match cols with
  | [] => []
  | x :: t => if String.eqb x c then i :: positions c (S i) t
              else positions c (S i) t
  end.

(** The place of a column that is used as one series: [df[c]] raises a
    [KeyError] for an unknown label and yields a table, not a series, for a
    repeated one; every caller here ([to_datetime], [apply], the key of
    [drop_duplicates], [sort_values] and [merge]) then raises a
    [ValueError]. *)
Definition position (c : string) (cols : list string) : result nat :=
  match positions c 0 cols with
  | [] => Raise (KeyError c)
  | [i] => Ok i
  | _ => Raise (ValueError ("the label " +:+ c +:+ " is not unique"))
  end.

Definition cell (i : nat) (r : list value) : value := nth i r VNaN.

(** The cells of column number [i], top to bottom. *)
Definition keys (i : nat) (rs : list (list value)) : list value :=
  List.map (cell i) rs.

(** [df.reset_index()] on a named index: the index becomes the first
    column; a column of that name must not exist yet. *)
Definition reset_index (name : string) (df : DataFrame) : result Frame :=
  if has_col name (df_columns df)
  then Raise (ValueError ("cannot insert " +:+ name +:+ ", already exists"))
  else Ok (MkFrame (name :: df_columns df)
                   (List.map (fun '(i, r) => i :: r) (df_rows df))).

(** [if df.index.name is not None: df = df.reset_index()] *)
Definition reset_named_index (df : DataFrame) : result Frame :=
  match index_name df with
  | Some name => reset_index name df
  | None => Ok (MkFrame (df_columns df) (List.map snd (df_rows df)))
  end.

(** [df.rename(columns=f)] *)
Definition rename (f : string -> string) (df : Frame) : Frame :=
  MkFrame (List.map f (columns df)) (rows df).

(** [df[c] = g(df[c])] for a cell-wise [g] that may raise. *)
Definition apply_col (c : string) (g : value -> result value) (df : Frame)
  : result Frame :=
  i ← position c (columns df);
  rs ← mapM (fun r => v ← g (cell i r); Ok (<[i := v]> r)) (rows df);
  Ok (MkFrame (columns df) rs).

(** [df[labels]]: each label selects every column that carries it. *)
Definition select (labels : list string) (df : Frame) : result Frame :=
  sel ← mapM (fun c => match positions c 0 (columns df) with
                       | [] => Raise (KeyError c)
                       | ps => Ok (List.map (fun i => (c, i)) ps)
                       end) labels;
  let picks := concat sel in
  Ok (MkFrame (List.map fst picks)
              (List.map (fun r => List.map (fun p => cell (snd p) r) picks)
                        (rows df))).

(** [df.columns = names] *)
Definition set_columns (names : list string) (df : Frame) : result Frame :=
  if (length names =? length (columns df))%nat
  then Ok (MkFrame names (rows df))
  else Raise (ValueError "Length mismatch").

(** [df.dropna(subset=[c])] *)
Definition dropna (c : string) (df : Frame) : result Frame :=
  i ← position c (columns df);
  Ok (MkFrame (columns df)
              (List.filter (fun r => negb (isna (cell i r))) (rows df))).

(** Equality of join and duplicate keys.  pandas takes two missing keys for
    equal. *)
Global Instance date_eq_dec : EqDecision date.
Proof. solve_decision. Defined.
Global Instance Q_eq_dec : EqDecision Q.
Proof. solve_decision. Defined.
Global Instance value_eq_dec : EqDecision value.
Proof. solve_decision. Defined.

Definition key_eqb (a b : value) : bool := bool_decide (a = b).

(** [df.drop_duplicates(c)] keeps the first row of every key. *)
Fixpoint drop_dup_rows (i : nat) (seen : list value) (rs : list (list value))
  : list (list value) :=
  match rs with
  | [] => []
  | r :: t =>
      if existsb (key_eqb (cell i r)) seen then drop_dup_rows i seen t
      else r :: drop_dup_rows i (cell i r :: seen) t
  end.

Definition drop_duplicates (c : string) (df : Frame) : result Frame :=
  i ← position c (columns df);
  Ok (MkFrame (columns df) (drop_dup_rows i [] (rows df))).

(** The order of two keys that are not missing.  The script sorts by [일자]
    only, after [strftime], so the keys are strings (Python compares them
    by code point, which for UTF-8 text is the byte order). *)
Definition value_leb (a b : value) : bool :=
  match a, b with
  | VStr x, VStr y => String.leb x y
  | _, _ => true
  end.

(** May a row with key [a] stand before one with key [b]?  Missing keys go
    last in either direction ([na_position="last"]). *)
Definition key_before (ascending : bool) (a b : value) : bool :=
  if isna b then true
  else if isna a then false
  else if ascending then value_leb a b else value_leb b a.

Fixpoint insert_row (i : nat) (ascending : bool) (r : list value)
  (rs : list (list value)) : list (list value) :=
  match rs with
  | [] => [r]
  | r' :: t =>
      if key_before ascending (cell i r) (cell i r') then r :: rs
      else r' :: insert_row i ascending r t
  end.

(** Insertion sort.  pandas sorts with quicksort, which fixes the place of
    a row only up to the order of rows with equal keys. *)
Definition sort_rows (i : nat) (ascending : bool) (rs : list (list value))
  : list (list value) :=
  foldr (insert_row i ascending) [] rs.

(** [df.sort_values(c, ascending=...)] *)
Definition sort_values (c : string) (ascending : bool) (df : Frame)
  : result Frame :=
  i ← position c (columns df);
  Ok (MkFrame (columns df) (sort_rows i ascending (rows df))).

(** A row without its cell number [i]. *)
Definition remove_at {A} (i : nat) (l : list A) : list A :=
  take i l ++ drop (S i) l.

(** The rows a left row contributes to a left join: one per matching right
    row, in the right table's order, or one padded with missing values. *)
Definition join_row (kl kr width : nat) (right : list (list value))
  (lr : list value) : list (list value) :=
  match List.filter (fun rr => key_eqb (cell kl lr) (cell kr rr)) right with
  | [] => [lr ++ repeat VNaN width]
  | ms => List.map (fun rr => lr ++ remove_at kr rr) ms
  end.

(** [left.merge(right, on=c, how="left")].  A label other than the key that
    both sides carry gets the suffixes [_x] and [_y]. *)
Definition merge_left (c : string) (left right : Frame) : result Frame :=
  kl ← position c (columns left);
  kr ← position c (columns right);
  let rcols := remove_at kr (columns right) in
  let both x := negb (String.eqb x c) && has_col x (columns left)
                && has_col x rcols in
  Ok (MkFrame
        (List.map (fun x => if both x then x +:+ "_x" else x) (columns left)
         ++ List.map (fun x => if both x then x +:+ "_y" else x) rcols)
        (flat_map (join_row kl kr (length rcols) (rows right)) (rows left))).

(** [df[c] = df[c].fillna(v)] *)
Definition fillna (c : string) (v : value) (df : Frame) : result Frame :=
  apply_col c (fun x => Ok (if isna x then v else x)) df.

(** *** Library behaviour taken as a parameter

    Three things pandas does depend on code that is not part of this
    repository and are not fixed here: how a scalar that is neither missing
    nor a timestamp converts to a timestamp, how a float prints, and the
    minimum and maximum of a column of objects. *)

(** The outcome of converting one scalar with [pd.to_datetime]. *)
Inductive parsed : Type :=
| Stamp (d : date)
| NaT
| Unparseable.

Record Library : Type := MkLibrary {
  scalar_to_datetime : value -> parsed;
  float_repr : Q -> string;
  series_min : list value -> result value;
  series_max : list value -> result value
}.

(** [pd.to_datetime] on one cell, with the default [errors="raise"]:
    a missing value becomes [NaT], a timestamp stays, anything else is
    parsed, and what cannot be parsed raises. *)
Definition to_datetime (lib : Library) (v : value) : result (option date) :=
  match v with
  | VNone | VNaN => Ok None
  | VTimestamp d => Ok (Some d)
  | _ => match scalar_to_datetime lib v with
         | Stamp d => Ok (Some d)
         | NaT => Ok None
         | Unparseable =>
             Raise (ValueError ("Unknown datetime string format, unable to parse: "
                                +:+ py_str v))
         end
  end.

(** [.dt.strftime("%Y-%m-%d")] on one cell: [NaT] gives [NaN]. *)
Definition dt_strftime (d : option date) : value :=
  match d with
  | Some d => VStr (strftime_dash d)
  | None => VNaN
  end.

(** [pd.to_datetime(col).dt.strftime("%Y-%m-%d")], cell by cell. *)
Definition date_text (lib : Library) (v : value) : result value :=
  d ← to_datetime lib v; Ok (dt_strftime d).

(** *** Writing CSV *)

Definition LF : string := String (ascii_of_nat 10) EmptyString.
Definition DQUOTE : ascii := ascii_of_nat 34.

(** [QUOTE_MINIMAL]: a field with a delimiter, a quote or a line break is
    quoted, its quotes doubled. *)
Definition needs_quote (s : string) : bool :=
  existsb (fun c => Ascii.eqb c "," || Ascii.eqb c DQUOTE
                    || Ascii.eqb c (ascii_of_nat 10)
                    || Ascii.eqb c (ascii_of_nat 13)) (chars s).

Definition quoted (s : string) : string :=
  text (DQUOTE :: flat_map (fun c => if Ascii.eqb c DQUOTE then [c; c] else [c])
                           (chars s) ++ [DQUOTE]).

Definition csv_field (s : string) : string :=
  if needs_quote s then quoted s else s.

(** How a cell prints; a missing value prints as nothing ([na_rep=""]). *)
Definition csv_cell (lib : Library) (v : value) : string :=
  match v with
  | VNone | VNaN => ""
  | VInf neg => if neg then "-inf" else "inf"
  | VFloat q => float_repr lib q
  | VInt z => pretty z
  | VStr s => csv_field s
  | VTimestamp d => strftime_dash d
  end.

Fixpoint join (sep : string) (l : list string) : string :=
  match l with
  | [] => ""
  | [x] => x
  | x :: t => x +:+ sep +:+ join sep t
  end.

(** One line of the file, with its terminator. *)
Definition csv_line (fields : list string) : string :=
  join "," fields +:+ LF.

(** [df.to_csv(index=False, encoding="utf-8", lineterminator="\n")] as the
    bytes written: the header line, then one line per row.  The strings of
    this development are byte strings holding UTF-8, so the text is the file
    content; nothing is put before the header. *)
Definition to_csv_text (lib : Library) (df : Frame) : string :=
  csv_line (List.map csv_field (columns df))
  +:+ String.concat "" (List.map (fun r => csv_line (List.map (csv_cell lib) r))
                                 (rows df)).

End Pandas.

(** ** The part of [datetime] the script uses *)

Module Datetime.
Import Py.

Definition is_leap (y : Z) : bool :=
  (y mod 4 =? 0) && (negb (y mod 100 =? 0) || (y mod 400 =? 0)).

(** Days before the first of each month in a common year ([month] from 1). *)
Definition days_before_month_table : list Z :=
  [0; 31; 59; 90; 120; 151; 181; 212; 243; 273; 304; 334].

Definition days_in_month_table : list Z :=
  [31; 28; 31; 30; 31; 30; 31; 31; 30; 31; 30; 31].

Definition days_before_year (y : Z) : Z :=
  let p := y - 1 in p * 365 + p / 4 - p / 100 + p / 400.

Definition days_before_month (leap : bool) (m : Z) : Z :=
  nth (Z.to_nat (m - 1)) days_before_month_table 0
  + (if (2 <? m) && leap then 1 else 0).

(** [date.toordinal()]: 0001-01-01 is day 1. *)
Definition ymd2ord (d : date) : Z :=
  days_before_year (year d) + days_before_month (is_leap (year d)) (month d)
  + day d.

Definition max_ordinal : Z := 3652059.

(** [date.fromordinal(n)], after CPython's [_ord2ymd]. *)
Definition ord2ymd (n : Z) : date :=
  let n := n - 1 in
  let n400 := n / 146097 in let n := n mod 146097 in
  let n100 := n / 36524 in let n := n mod 36524 in
  let n4 := n / 1461 in let n := n mod 1461 in
  let n1 := n / 365 in let n := n mod 365 in
  let y := n400 * 400 + 1 + n100 * 100 + n4 * 4 + n1 in
  if (n1 =? 4) || (n100 =? 4) then Date (y - 1) 12 31
  else
    let leap := (n1 =? 3) && (negb (n4 =? 24) || (n100 =? 3)) in
    let m := Z.shiftr (n + 50) 5 in
    let preceding := days_before_month leap m in
    if n <? preceding then
      let m' := m - 1 in
      let preceding' :=
        preceding - (nth (Z.to_nat (m' - 1)) days_in_month_table 0
                     + (if (m' =? 2) && leap then 1 else 0)) in
      Date y m' (n - preceding' + 1)
    else Date y m (n - preceding + 1).

(** [d - timedelta(days=k)]; the time of day is untouched.  A [timedelta]
    holds at most 999999999 days, and the result must be a date of the years
    1 to 9999. *)
Definition minus_days (d : date) (k : Z) : result date :=
  if 999999999 <? Z.abs k
  then Raise (OverflowError "days out of range for timedelta")
  else
    let n := ymd2ord d - k in
    if (1 <=? n) && (n <=? max_ordinal) then Ok (ord2ymd n)
    else Raise (OverflowError "date value out of range").

End Datetime.

(** ** The operating system *)

Module OS.
Import Py.

(** The files and directories, what was printed, and what the system will
    answer when it refuses a request: [mkdir_refused] is raised by
    [os.makedirs]; [write_refused] is raised while the output file is
    written, with the bytes that had reached the file by then ([None] when
    the file could not even be opened). *)
Record World : Type := MkWorld {
  files : gmap string string;
  dirs : gset string;
  stdout : list string;
  stderr : list string;
  mkdir_refused : option exn;
  write_refused : option (exn * option string)
}.

(** Computations that change the world and may raise. *)
Definition io (A : Type) : Type := World -> World * result A.

#[export] Instance io_ret : MRet io := fun A a w => (w, Ok a).
#[export] Instance io_bind : MBind io := fun A B f m w =>
  match m w with
  | (w', Ok a) => f a w'
  | (w', Raise e) => (w', Raise e)
  end.

(** A pure computation inside [io]. *)
Definition lift {A} (r : result A) : io A := fun w => (w, r).

(** The names between the slashes of a path. *)
Fixpoint split_path (cur l : list ascii) : list string :=
  match l with
  | [] => match cur with [] => [] | _ => [text (rev cur)] end
  | c :: t =>
      if Ascii.eqb c "/" then
        match cur with
        | [] => split_path [] t
        | _ => text (rev cur) :: split_path [] t
        end
      else split_path (c :: cur) t
  end.

Fixpoint dirs_below (above : string) (names : list string) : list string :=
  match names with
  | [] => []
  | n :: t => (above +:+ n) :: dirs_below (above +:+ n +:+ "/") t
  end.

(** The directories on the way to [d], [d] itself last, each written with
    single slashes: [a], [a/b] for [a/b]. *)
Definition path_dirs (d : string) : list string :=
  dirs_below (if String.prefix "/" d then "/" else "")
             (split_path [] (chars d)).

(** [os.makedirs(d, exist_ok=True)]: the missing directories on the way to
    [d] are made, [d] last; one that exists is kept.  The call raises when
    the system refuses, when [d] is the empty path, and when a file stands
    where a directory is needed.  Paths are taken as written: links, [.] and
    [..] are not resolved. *)
Definition makedirs (d : string) : io unit := fun w =>
  match mkdir_refused w with
  | Some e => (w, Raise e)
  | None =>
      if String.eqb d ""
      then (w, Raise (OSError "[Errno 2] No such file or directory: ''"))
      else
        match List.find (fun p => bool_decide (is_Some (files w !! p)))
                        (path_dirs d) with
        | Some p =>
            (w, Raise (OSError ("[Errno 17] File exists: '" +:+ p +:+ "'")))
        | None =>
            (MkWorld (files w) (list_to_set (path_dirs d) ∪ dirs w)
                     (stdout w) (stderr w)
                     (mkdir_refused w) (write_refused w), Ok tt)
        end
  end.

(** Opening [path] for writing and writing [content]. *)
Definition write_file (path content : string) : io unit := fun w =>
  let put c := MkWorld (<[path := c]> (files w)) (dirs w) (stdout w) (stderr w)
                       (mkdir_refused w) (write_refused w) in
  match write_refused w with
  | Some (e, None) => (w, Raise e)
  | Some (e, Some part) => (put part, Raise e)
  | None => (put content, Ok tt)
  end.

(** [print(line)] and [print(line, file=sys.stderr)] *)
Definition print (line : string) : io unit := fun w =>
  (MkWorld (files w) (dirs w) (stdout w ++ [line]) (stderr w)
           (mkdir_refused w) (write_refused w), Ok tt).

Definition eprint (line : string) (w : World) : World :=
  MkWorld (files w) (dirs w) (stdout w) (stderr w ++ [line])
          (mkdir_refused w) (write_refused w).

(** [os.path.join(a, b)] on POSIX. *)
Definition path_join (a b : string) : string :=
  if String.prefix "/" b then b
  else if String.eqb a "" || String.eqb (String.substring (String.length a - 1) 1 a) "/"
       then a +:+ b
       else a +:+ "/" +:+ b.

End OS.

(** ** The script *)

Module Script.
Import Py Datetime Pandas OS.

(** *** Configuration (lines 25-28) *)

Record Config : Type := MkConfig {
  TICKER : string;
  OUTPUT_DIR : string;
  OUTFILE : string;
  LOOKBACK_DAYS : Z
}.

(** [os.getenv(k, d)] *)
Definition getenv (env : gmap string string) (k d : string) : string :=
  default d (env !! k).

(** The four module-level assignments.  They run before the handler at the
    bottom of the file is entered. *)
Definition load_config (env : gmap string string) : result Config :=
  days ← py_int (getenv env "LOOKBACK_DAYS" "400");
  Ok (MkConfig (getenv env "TICKER" "092040")
               (getenv env "OUTPUT_DIR" "data")
               (getenv env "OUTFILE" "latest_market_ohlcv.csv")
               days).

(** *** Utilities (lines 31-50) *)

Definition _to_num (x : value) : result value :=
  if isna x then Ok VNaN
  else if is_number x then float_of_number x
  else
    let s := strip (remove_commas (py_str x)) in
    match py_float s with
    | Some f => Ok f
    | None => Ok VNaN
    end.

Fixpoint _normalize_numeric (df : Frame) (cols : list string) : result Frame :=
  match cols with
  | [] => Ok df
  | c :: rest =>
      df' ← (if has_col c (columns df) then apply_col c _to_num df else Ok df);
      _normalize_numeric df' rest
  end.

(** [today] is what [datetime.today()] answers. *)
Definition _yyyymmdd_range (today : date) (days : Z) : result (string * string) :=
  let end_ := today in
  start ← minus_days end_ days;
  Ok (strftime_compact start, strftime_compact end_).

(** *** The provider ([pykrx.stock]) *)

Record Provider : Type := MkProvider {
  get_market_ohlcv : string -> string -> string -> result pyobj;
  get_shorting_volume_by_date : string -> string -> string -> result pyobj;
  get_shorting_balance_by_date : string -> string -> string -> result pyobj
}.

Section WithLibrary.
Variable lib : Library.

(** *** Lines 60-67: the price table *)

(** Lines 61-63: the index becomes a column, [날짜] is renamed. *)
Definition prepare_ohlcv (df : DataFrame) : result Frame :=
  ohlcv ← reset_named_index df;
  Ok (rename (fun c => if String.eqb c "날짜" then "일자" else c) ohlcv).

Definition numeric_cols : list string :=
  ["시가"; "고가"; "저가"; "종가"; "거래량"; "거래대금"; "등락률"].

Definition wanted_cols : list string :=
  ["일자"; "시가"; "고가"; "저가"; "종가"; "거래량"; "등락률"].

Definition normalize_ohlcv (obj : pyobj) : result Frame :=
  match obj with
  | PyFrame df =>
      ohlcv ← prepare_ohlcv df;
      ohlcv ← apply_col "일자" (date_text lib) ohlcv;
      ohlcv ← _normalize_numeric ohlcv numeric_cols;
      let base_cols :=
        List.filter (fun c => has_col c (columns ohlcv)) wanted_cols in
      ohlcv ← select base_cols ohlcv;
      ohlcv ← drop_duplicates "일자" ohlcv;
      sort_values "일자" true ohlcv
  | _ => Raise (AttributeError "object has no attribute 'index'")
  end.

(** *** Lines 72-82 and 87-97: a short-sale table

    The two blocks differ in the names only: [qty] is [공매도] or [공매도잔고],
    [ratio] the name the ratio column [비중] gets. *)

(** Lines 73-78 (and 88-93): the three columns that are kept. *)
Definition select_short (qty ratio : string) (df : DataFrame) : result Frame :=
  sv ← reset_named_index df;
  let sv := rename strip sv in
  date_col ← (if has_col "날짜" (columns sv) then Ok "날짜"
              else match columns sv with
                   | c :: _ => Ok c
                   | [] => Raise (OtherError "IndexError" "index 0 is out of bounds")
                   end);
  sv ← select [date_col; qty; "비중"] sv;
  set_columns ["일자"; qty; ratio] sv.

Definition normalize_short (qty ratio : string) (obj : pyobj) : result Frame :=
  match obj with
  | PyFrame df =>
      if empty df then Ok (empty_frame ["일자"; qty; ratio])
      else
        sv ← select_short qty ratio df;
        sv ← apply_col "일자" (date_text lib) sv;
        sv ← _normalize_numeric sv [qty; ratio];
        dropna "일자" sv
  | _ => Ok (empty_frame ["일자"; qty; ratio])
  end.

(** *** Lines 103-105: zero for the missing short-sale values *)
Fixpoint fill_zero (out : Frame) (cols : list string) : result Frame :=
  match cols with
  | [] => Ok out
  | c :: rest =>
      out' ← (if has_col c (columns out) then fillna c (VInt 0) out else Ok out);
      fill_zero out' rest
  end.

(** *** Lines 100-108: join, fill, sort *)
Definition merge_fill_sort (ohlcv sv sb : Frame) : result Frame :=
  out ← merge_left "일자" ohlcv sv;
  out ← merge_left "일자" out sb;
  out ← fill_zero out ["공매도"; "공매도비중"; "공매도잔고"; "공매도잔고비중"];
  sort_values "일자" false out.

(** *** Lines 56-108: everything of [main] between [makedirs] and the write *)
Definition build_table (cfg : Config) (today : date) (stock : Provider)
  : result Frame :=
  '(s, e) ← _yyyymmdd_range today (LOOKBACK_DAYS cfg);
  raw ← get_market_ohlcv stock s e (TICKER cfg);
  ohlcv ← normalize_ohlcv raw;
  raw ← get_shorting_volume_by_date stock s e (TICKER cfg);
  sv ← normalize_short "공매도" "공매도비중" raw;
  raw ← get_shorting_balance_by_date stock s e (TICKER cfg);
  sb ← normalize_short "공매도잔고" "공매도잔고비중" raw;
  merge_fill_sort ohlcv sv sb.

(** [list(out.columns)] inside an f-string *)
Definition list_repr (l : list string) : string :=
  "[" +:+ join ", " (List.map (fun c => "'" +:+ c +:+ "'") l) +:+ "]".

(** *** Lines 53-113 *)
Definition main (cfg : Config) (today : date) (stock : Provider) : io unit :=
  _ ← makedirs (OUTPUT_DIR cfg);
  out ← lift (build_table cfg today stock);
  let outfile := path_join (OUTPUT_DIR cfg) (OUTFILE cfg) in
  _ ← write_file outfile (to_csv_text lib out);
  _ ← print ("[OK] saved: " +:+ outfile);
  _ ← print ("cols = " +:+ list_repr (columns out));
  i ← lift (position "일자" (columns out));
  lo ← lift (series_min lib (keys i (rows out)));
  hi ← lift (series_max lib (keys i (rows out)));
  print ("rows = " +:+ pretty (length (rows out)) +:+ " (from " +:+ py_str lo
         +:+ " to " +:+ py_str hi +:+ ")").

(** *** Lines 115-120: the handler; the result is the exit code *)
Definition script (cfg : Config) (today : date) (stock : Provider) (w : World)
  : World * Z :=
  match main cfg today stock w with
  | (w', Ok _) => (w', 0)
  | (w', Raise e) => (eprint ("[ERROR] " +:+ exn_str e) w', 1)
  end.

(** *** The module from top to bottom

    The assignments of lines 25-28 run before the [try] of line 116 is
    entered, so an exception they raise is not caught by the handler: the
    interpreter prints a traceback on standard error, not a line that begins
    with [[ERROR]], and the process ends with status 1. *)
Inductive outcome : Type :=
| Exited (w : World) (code : Z)
| Uncaught (w : World) (e : exn).

Definition program (env : gmap string string) (today : date)
  (stock : Provider) (w : World) : outcome :=
  match load_config env with
  | Ok cfg => let '(w', code) := script cfg today stock w in Exited w' code
  | Raise e => Uncaught w e
  end.

(** The exit status of the process. *)
Definition exit_status (o : outcome) : Z :=
  match o with
  | Exited _ code => code
  | Uncaught _ _ => 1
  end.

End WithLibrary.

End Script.

(** ** A concrete library and concrete inputs, for the examples *)

Module Fixtures.
Import Py Datetime Pandas OS Script.

(** A date written as eight digits, with or without dashes. *)
Definition iso_date (s : string) : option date :=
  let l := List.filter (fun c => negb (Ascii.eqb c "-")) (chars s) in
  match span_digits 0 0 l with
  | (v, 8%nat, []) => Some (Date (v / 10000) (v / 100 mod 100) (v mod 100))
  | _ => None
  end.

(** Strings only: the empty string is [NaT], an ISO date is a timestamp,
    anything else cannot be parsed. *)
Definition iso_to_datetime (v : value) : parsed :=
  match v with
  | VStr s => if String.eqb s "" then NaT
              else match iso_date s with
                   | Some d => Stamp d
                   | None => Unparseable
                   end
  | _ => Unparseable
  end.

(** The digits after the point of [n / d], while there are some. *)
Fixpoint fraction_digits (fuel : nat) (n d : Z) : list ascii :=
  match fuel with
  | O => []
  | S f => if n =? 0 then []
           else ascii_of_nat (48 + Z.to_nat (n * 10 / d))
                :: fraction_digits f (n * 10 mod d) d
  end.

(** Floats with a short decimal expansion, printed as Python prints them. *)
Definition decimal_repr (q : Q) : string :=
  let n := Z.abs (Qnum q) in
  let d := Zpos (Qden q) in
  (if Qnum q <? 0 then "-" else "") +:+ pretty (n / d) +:+ "."
  +:+ (if n mod d =? 0 then "0" else text (fraction_digits 17 (n mod d) d)).

Definition string_keys (l : list value) : list string :=
  omap (fun v => match v with VStr s => Some s | _ => None end) l.

(** The smallest and the largest string of a column without missing values
    ([nan] for an empty one); a column that mixes strings and missing values
    cannot be compared. *)
Definition extreme (pick : string -> string -> string) (l : list value)
  : result value :=
  match string_keys l with
  | [] => Ok VNaN
  | s :: t => if existsb isna l
              then Raise (TypeError "'<=' not supported between instances of 'str' and 'float'")
              else Ok (VStr (foldl pick s t))
  end.

Definition lib : Library :=
  MkLibrary iso_to_datetime decimal_repr
    (extreme (fun a b => if String.leb a b then a else b))
    (extreme (fun a b => if String.leb a b then b else a)).

(** Two white space characters beyond ASCII: U+00A0, the no-break space,
    and U+3000, the ideographic space. *)
Definition NBSP : string := text [ascii_of_nat 194; ascii_of_nat 160].
Definition IDEOGRAPHIC_SPACE : string :=
  text [ascii_of_nat 227; ascii_of_nat 128; ascii_of_nat 128].

Definition cfg : Config := MkConfig "092040" "data" "latest_market_ohlcv.csv" 400.
Definition today : date := Date 2026 11 4.

Definition world0 : World := MkWorld ∅ ∅ [] [] None None.

(** A price table as the provider documents it: the index is named [날짜]. *)
Definition price_columns : list string :=
  ["시가"; "고가"; "저가"; "종가"; "거래량"; "거래대금"; "등락률"].

Definition price_row (d : date) (close : Z) : value * list value :=
  (VTimestamp d,
   [VInt close; VInt (close + 10); VInt (close - 10); VInt close;
    VStr "1,234"; VInt (close * 1234); VStr "-"]).

Definition D1 : date := Date 2026 11 2.
Definition D2 : date := Date 2026 11 3.
Definition D3 : date := Date 2026 11 4.

Definition prices3 : DataFrame :=
  MkDataFrame (Some "날짜") price_columns
    [price_row D1 100; price_row D2 110; price_row D3 120].

Definition short_volume (rs : list (value * list value)) : DataFrame :=
  MkDataFrame (Some "날짜") ["공매도"; "매수"; "비중"] rs.

Definition short_balance (rs : list (value * list value)) : DataFrame :=
  MkDataFrame (Some "날짜")
    ["공매도잔고"; "상장주식수"; "공매도금액"; "시가총액"; "비중"] rs.

(** A provider that answers every request with the same three objects. *)
Definition fixed (p v b : result pyobj) : Provider :=
  MkProvider (fun _ _ _ => p) (fun _ _ _ => v) (fun _ _ _ => b).

(** The frame a successful [build_table] returns (an empty one otherwise). *)
Definition table_of (r : result Frame) : Frame :=
  match r with Ok f => f | Raise _ => MkFrame [] [] end.

(** Three price rows and no short-sale data at all. *)
Definition stock_plain : Provider :=
  fixed (Ok (PyFrame prices3)) (Ok PyNone) (Ok (PyFrame (short_balance []))).

Definition out_plain : Frame :=
  Eval vm_compute in table_of (build_table lib cfg today stock_plain).

(** Short-sale data for some of the dates, and for one date without
    prices. *)
Definition volume_rows : list (value * list value) :=
  [(VTimestamp D2, [VInt 5; VInt 7; VStr "0.25"]);
   (VTimestamp (Date 2026 10 30), [VInt 8; VInt 1; VStr "0.5"])].

Definition balance_rows : list (value * list value) :=
  [(VTimestamp D3, [VStr "1,000"; VInt 50000; VInt 3; VInt 9; VStr "2.0"])].

Definition stock_full : Provider :=
  fixed (Ok (PyFrame prices3)) (Ok (PyFrame (short_volume volume_rows)))
        (Ok (PyFrame (short_balance balance_rows))).

Definition out_full : Frame :=
  Eval vm_compute in table_of (build_table lib cfg today stock_full).

(** The short-volume table has two rows for [D2]. *)
Definition stock_twice : Provider :=
  fixed (Ok (PyFrame prices3))
        (Ok (PyFrame (short_volume
           [(VTimestamp D2, [VInt 5; VInt 7; VStr "0.25"]);
            (VTimestamp D2, [VInt 9; VInt 7; VStr "0.5"])])))
        (Ok PyNone).

Definition out_twice : Frame :=
  Eval vm_compute in table_of (build_table lib cfg today stock_twice).

(** The short-volume table has a date that is no date, and one that is
    missing. *)
Definition bad_volume : DataFrame :=
  short_volume [(VStr "abc", [VInt 5; VInt 7; VStr "0.25"])].

Definition stock_bad_date : Provider :=
  fixed (Ok (PyFrame prices3)) (Ok (PyFrame bad_volume)) (Ok PyNone).

Definition gap_volume : DataFrame :=
  short_volume [(VNaN, [VInt 5; VInt 7; VStr "0.25"]);
                (VStr "2026-11-03", [VInt 6; VInt 7; VStr "0.5"])].

Definition gap_selected : Frame :=
  Eval vm_compute in table_of (select_short "공매도" "공매도비중" gap_volume).

Definition prices3_normalized : Frame :=
  Eval vm_compute in table_of (normalize_ohlcv lib (PyFrame prices3)).

(** A price table without the change-rate column. *)
Definition prices_no_rate : DataFrame :=
  MkDataFrame (Some "날짜") ["시가"; "고가"; "저가"; "종가"; "거래량"; "거래대금"]
    [(VTimestamp D1, [VInt 100; VInt 110; VInt 90; VInt 100; VInt 1234; VInt 5]);
     (VTimestamp D2, [VInt 110; VInt 120; VInt 100; VInt 110; VInt 1234; VInt 5])].

Definition stock_no_rate : Provider :=
  fixed (Ok (PyFrame prices_no_rate)) (Ok PyNone) (Ok PyNone).

Definition out_no_rate : Frame :=
  Eval vm_compute in table_of (build_table lib cfg today stock_no_rate).

(** The price request fails. *)
Definition stock_down : Provider :=
  fixed (Raise (OtherError "ConnectionError" "connection refused"))
        (Ok PyNone) (Ok PyNone).

(** A short-volume table without the quantity column. *)
Definition volume_no_qty : DataFrame :=
  MkDataFrame (Some "날짜") ["매수"; "비중"] [(VTimestamp D2, [VInt 7; VStr "0.25"])].

Definition volume_no_qty_reset : Frame :=
  Eval vm_compute in table_of (reset_named_index volume_no_qty).

Definition stock_no_qty : Provider :=
  fixed (Ok (PyFrame prices3)) (Ok (PyFrame volume_no_qty)) (Ok PyNone).

(** A short-volume table whose labels carry white space, some of it beyond
    ASCII; the index has no name. *)
Definition volume_padded : DataFrame :=
  MkDataFrame None
    ["날짜" +:+ IDEOGRAPHIC_SPACE; " 공매도"; "매수"; NBSP +:+ "비중 "]
    [(VInt 0, [VStr "2026-11-03"; VInt 5; VInt 7; VStr "0.25"])].

(** A world in which an output file of an earlier run exists. *)
Definition world1 : World :=
  MkWorld {["data/latest_market_ohlcv.csv" := "old"]} {["data"]} [] [] None None.

(** A world in which the disk is full. *)
Definition world_full_disk : World :=
  MkWorld ∅ ∅ [] [] None (Some (OSError "No space left on device", Some "일자")).

(** A small table with numbers written as text. *)
Definition text_table : Frame :=
  MkFrame ["일자"; "시가"; "메모"]
    [[VStr "2026-11-02"; VStr "1,234"; VStr "7"];
     [VStr "2026-11-03"; VStr "-"; VStr "8"]].

Definition text_table_normalized : Frame :=
  Eval vm_compute in table_of (_normalize_numeric text_table ["시가"; "거래량"]).

(** A table that has one label twice. *)
Definition twin_table : Frame :=
  MkFrame ["시가"; "시가"] [[VInt 1; VInt 2]].

(** A price table one of whose rows has no date. *)
Definition prices_gap : DataFrame :=
  MkDataFrame (Some "날짜") price_columns
    [(VNaN, [VInt 100; VInt 110; VInt 90; VInt 100; VStr "1,234"; VInt 5; VStr "-"]);
     price_row D2 110].

Definition stock_gap : Provider :=
  fixed (Ok (PyFrame prices_gap)) (Ok PyNone) (Ok PyNone).

Definition out_gap : Frame :=
  Eval vm_compute in table_of (build_table lib cfg today stock_gap).

(** The provider has no prices: it answers with an empty table. *)
Definition stock_empty : Provider :=
  fixed (Ok (PyFrame (MkDataFrame None [] []))) (Ok PyNone) (Ok PyNone).

(** The provider has two price rows for one date. *)
Definition stock_repeat : Provider :=
  fixed (Ok (PyFrame (MkDataFrame (Some "날짜") price_columns
                        [price_row D1 100; price_row D1 999; price_row D2 110])))
        (Ok PyNone) (Ok PyNone).

Definition out_repeat : Frame :=
  Eval vm_compute in table_of (build_table lib cfg today stock_repeat).

Definition volume_selected : Frame :=
  Eval vm_compute in
    table_of (select_short "공매도" "공매도비중" (short_volume volume_rows)).

Definition volume_normalized : Frame :=
  Eval vm_compute in
    table_of (normalize_short lib "공매도" "공매도비중"
                (PyFrame (short_volume volume_rows))).

End Fixtures.

(** ** Notions the properties are stated with *)

Module Spec.
Import Py Pandas.

(** The dates of a normalised table: [일자] is its first column. *)
Definition dates (F : Frame) : list value := keys 0 (rows F).

(** The two kinds of cell [strftime] leaves in a date column. *)
Definition date_cell (v : value) : bool :=
  match v with VNaN | VStr _ => true | _ => false end.

(** [a] may stand above [b] in a table sorted by date descending: [b] has
    no date, or [a] is not earlier than [b]. *)
Definition date_ge (a b : value) : Prop :=
  match a, b with
  | _, VNaN => True
  | VStr x, VStr y => String.leb y x = true
  | _, _ => False
  end.

(** [a] stands strictly above [b]: [a] is a date and [b] is an earlier one
    or none. *)
Definition date_gt (a b : value) : Prop :=
  match a, b with
  | VStr _, VNaN => True
  | VStr x, VStr y => String.ltb y x = true
  | _, _ => False
  end.

(** The dates whose [strftime] text has the usual width: a year of at most
    four digits (every pandas timestamp has one), a month and a day. *)
Definition valid_date (d : date) : Prop :=
  0 <= year d < 10000 /\ 1 <= month d <= 12 /\ 1 <= day d <= 31.

(** [a] is an earlier day than [b]. *)
Definition date_lt (a b : date) : Prop :=
  year a < year b
  \/ (year a = year b
      /\ (month a < month b \/ (month a = month b /\ day a < day b))).

(** What [fillna(0)] makes of a cell. *)
Definition fill0 (v : value) : value := if isna v then VInt 0 else v.

(** The short-sale cells a date gets from a normalised short-sale table
    (rows of date, quantity, ratio): those of every row of that date, or
    two missing values. *)
Definition short_cells (S : list (list value)) (k : value)
  : list (list value) :=
  match List.filter (fun rr => key_eqb k (cell 0 rr)) S with
  | [] => [[VNaN; VNaN]]
  | ms => List.map (drop 1) ms
  end.

(** The rows of the two left joins, after the fill. *)
Definition joined (P SV SB : list (list value)) : list (list value) :=
  flat_map (fun lr =>
    flat_map (fun x =>
      List.map (fun y => lr ++ List.map fill0 x ++ List.map fill0 y)
               (short_cells SB (cell 0 lr)))
      (short_cells SV (cell 0 lr))) P.

(** How many rows a date gets in the output. *)
Definition copies (SV SB : list (list value)) (k : value) : nat :=
  (length (short_cells SV k) * length (short_cells SB k))%nat.

Definition short_names : list string :=
  ["공매도"; "공매도비중"; "공매도잔고"; "공매도잔고비중"].

(** The header the script documents. *)
Definition schema : list string :=
  ["일자"; "시가"; "고가"; "저가"; "종가"; "거래량"; "등락률";
   "공매도"; "공매도비중"; "공매도잔고"; "공매도잔고비중"].

(** The column a short-sale table's dates are read from (lines 76, 91). *)
Definition date_column (cols : list string) : string :=
  if has_col "날짜" cols then "날짜" else hd "" cols.

(** A date string lies in the window given by two [YYYYMMDD] strings. *)
Definition in_window (s e : string) (v : value) : bool :=
  match v with
  | VStr x =>
      let c := text (List.filter (fun a => negb (Ascii.eqb a "-")) (chars x)) in
      String.leb s c && String.leb c e
  | _ => false
  end.

(** The date a row of a short-sale table keeps: the reformatted date, when
    there is one. *)
Definition kept_date (lib : Library) (r : list value) : option value :=
  match to_datetime lib (cell 0 r) with
  | Ok (Some d) => Some (VStr (strftime_dash d))
  | _ => None
  end.

(** A short-sale result that is absent, of another type, or empty. *)
Definition no_data (o : pyobj) : Prop :=
  match o with
  | PyFrame df => empty df = true
  | _ => True
  end.

(** The lexicographic order of texts, on lists of characters. *)
Fixpoint lcompare (l l' : list ascii) : comparison :=
  match l, l' with
  | [], [] => Eq
  | [], _ :: _ => Lt
  | _ :: _, [] => Gt
  | c :: t, c' :: t' =>
      match Ascii.compare c c' with
      | Eq => lcompare t t'
      | ne => ne
      end
  end.

(** A check of [fuel] consecutive day numbers from [n] on: the date of the
    day number has that day number, a month and a day of the month. *)
Fixpoint ordinals_ok (fuel : nat) (n : Z) : bool :=
  match fuel with
  | O => true
  | S f =>
      let d := Datetime.ord2ymd n in
      if (Datetime.ymd2ord d =? n) && (1 <=? month d) && (month d <=? 12)
         && (1 <=? day d) && (day d <=? 31)
      then ordinals_ok f (n + 1) else false
  end.

End Spec.

(** ** Further notions: floats, the calendar, what a run leaves behind *)

Module Notions.
Import Py Datetime Pandas OS Script.

(** A float: [nan], an infinity or a finite number. *)
Definition is_float (v : value) : bool :=
  match v with VNaN | VInf _ | VFloat _ => true | _ => false end.

(** The world after [os.makedirs] made the directories on the way to
    [d]. *)
Definition with_dir (d : string) (w : World) : World :=
  MkWorld (files w) (list_to_set (path_dirs d) ∪ dirs w) (stdout w) (stderr w)
          (mkdir_refused w) (write_refused w).

(** The three lines of the summary (lines 111-113). *)
Definition saved_line (cfg : Config) : string :=
  "[OK] saved: " +:+ path_join (OUTPUT_DIR cfg) (OUTFILE cfg).

Definition cols_line (out : Frame) : string :=
  "cols = " +:+ list_repr (columns out).

Definition rows_line (out : Frame) (lo hi : value) : string :=
  "rows = " +:+ pretty (length (rows out)) +:+ " (from " +:+ py_str lo
  +:+ " to " +:+ py_str hi +:+ ")".

(** The days of a month ([datetime]'s [_days_in_month]). *)
Definition days_in_month (leap : bool) (m : Z) : Z :=
  nth (Z.to_nat (m - 1)) days_in_month_table 0
  + (if (m =? 2) && leap then 1 else 0).

(** A day of the calendar, of the years 1 to 9999: what [datetime.today()]
    answers. *)
Definition calendar_date (d : date) : Prop :=
  1 <= year d <= 9999 /\ 1 <= month d <= 12
  /\ 1 <= day d <= days_in_month (is_leap (year d)) (month d).

(** A check of [fuel] consecutive day numbers from [n] on: the day of the
    month exists in its month. *)
Fixpoint ordinals_calendar (fuel : nat) (n : Z) : bool :=
  match fuel with
  | O => true
  | S f =>
      let d := ord2ymd n in
      if day d <=? days_in_month (is_leap (year d)) (month d)
      then ordinals_calendar f (n + 1) else false
  end.

End Notions.
(** * Properties *)

Import Py Datetime Pandas OS Script Spec Notions Fixtures.

(** ** The result monad *)

Lemma bind_Ok {A B} (m : result A) (f : A -> result B) (b : B) :
  (m ≫= f) = Ok b <-> exists a, m = Ok a /\ f a = Ok b.
Proof.
  destruct m as [a|e]; simpl; split.
  - intros H. exists a. auto.
  - intros (a' & Ha & Hf). congruence.
  - discriminate.
  - intros (a' & Ha & _). discriminate.
Qed.

(** Splitting a successful chain of binds into its steps. *)
Ltac inv_ok :=
  repeat match goal with
  | H : (_ ≫= _) = Ok _ |- _ =>
      let a := fresh "x" in let Ha := fresh "Hx" in
      apply bind_Ok in H; destruct H as (a & Ha & H)
  | H : Ok _ = Ok _ |- _ => injection H as H
  | H : Raise _ = Ok _ |- _ => discriminate H
  end.

Lemma mapM_Ok {A B} (f : A -> result B) (l : list A) (l' : list B) :
  mapM f l = Ok l' <-> Forall2 (fun x y => f x = Ok y) l l'.
Proof.
  revert l'. induction l as [|x l IH]; intros l'; simpl.
  - split.
    + intros H. injection H as <-. constructor.
    + intros H. inversion H. reflexivity.
  - split.
    + intros H. inv_ok. subst l'. constructor; [assumption|]. by apply IH.
    + intros H. inversion H as [|? y ? ys Hy Hys]; subst.
      apply bind_Ok. exists y. split; [assumption|].
      apply bind_Ok. exists ys. split; [by apply IH | reflexivity].
Qed.

Lemma mapM_pure {A B} (g : A -> B) (l : list A) :
  mapM (fun x => Ok (g x)) l = Ok (List.map g l).
Proof. induction l as [|x l IH]; simpl; [reflexivity|]. rewrite IH. reflexivity. Qed.

(** ** Column labels *)

Lemma cell_lookup i (r : list value) : cell i r = default VNaN (r !! i).
Proof. unfold cell. apply nth_lookup. Qed.

Lemma has_col_true c cols : has_col c cols = true <-> c ∈ cols.
Proof. unfold has_col. apply bool_decide_eq_true. Qed.

Lemma has_col_false c cols : has_col c cols = false <-> c ∉ cols.
Proof. unfold has_col. apply bool_decide_eq_false. Qed.

Lemma elem_of_positions c k cols j :
  j ∈ positions c k cols <-> (k <= j)%nat /\ cols !! (j - k)%nat = Some c.
Proof.
  revert k. induction cols as [|x cols IH]; intros k; simpl.
  - split; [intros H; by apply elem_of_nil in H | intros [_ H]; discriminate].
  - destruct (String.eqb_spec x c) as [->|Hne].
    + rewrite elem_of_cons, IH. split.
      * intros [->|[Hk Hj]].
        -- split; [lia|]. by replace (k - k)%nat with 0%nat by lia.
        -- split; [lia|]. by replace (j - k)%nat with (S (j - S k)) by lia.
      * intros [Hk Hj]. destruct (decide (j = k)) as [->|Hjk]; [by left|].
        right. split; [lia|].
        by replace (j - k)%nat with (S (j - S k)) in Hj by lia.
    + rewrite IH. split.
      * intros [Hk Hj]. split; [lia|].
        by replace (j - k)%nat with (S (j - S k)) by lia.
      * intros [Hk Hj]. destruct (decide (j = k)) as [->|Hjk].
        -- replace (k - k)%nat with 0%nat in Hj by lia. simpl in Hj. congruence.
        -- split; [lia|].
           by replace (j - k)%nat with (S (j - S k)) in Hj by lia.
Qed.

Lemma positions_nil c k cols : positions c k cols = [] <-> c ∉ cols.
Proof.
  split.
  - intros H Hin. apply list_elem_of_lookup in Hin as [j Hj].
    assert (Hm : (k + j)%nat ∈ positions c k cols).
    { apply elem_of_positions. split; [lia|].
      by replace (k + j - k)%nat with j by lia. }
    rewrite H in Hm. by apply elem_of_nil in Hm.
  - intros Hn. destruct (positions c k cols) as [|j l] eqn:E; [reflexivity|].
    exfalso. apply Hn.
    assert (Hm : j ∈ positions c k cols) by (rewrite E; left).
    apply elem_of_positions in Hm as [_ Hm].
    eapply list_elem_of_lookup_2, Hm.
Qed.

Lemma position_Ok c cols i :
  position c cols = Ok i ->
  cols !! i = Some c /\ forall j, cols !! j = Some c -> j = i.
Proof.
  unfold position. destruct (positions c 0 cols) as [|a [|b l]] eqn:E;
    intros H; try discriminate. injection H as ->.
  split.
  - assert (Hm : i ∈ positions c 0 cols) by (rewrite E; left).
    apply elem_of_positions in Hm as [_ Hm].
    by replace (i - 0)%nat with i in Hm by lia.
  - intros j Hj.
    assert (Hm : j ∈ positions c 0 cols).
    { apply elem_of_positions. split; [lia|].
      by replace (j - 0)%nat with j by lia. }
    rewrite E in Hm. by apply list_elem_of_singleton in Hm.
Qed.

Lemma position_has_col c cols i : position c cols = Ok i -> c ∈ cols.
Proof. intros H. apply position_Ok in H as [H _]. eapply list_elem_of_lookup_2, H. Qed.

Lemma positions_app c k l1 l2 :
  positions c k (l1 ++ l2) = positions c k l1 ++ positions c (k + length l1) l2.
Proof.
  revert k. induction l1 as [|x l1 IH]; intros k; simpl.
  - by replace (k + 0)%nat with k by lia.
  - rewrite IH. replace (S k + length l1)%nat with (k + S (length l1))%nat by lia.
    by destruct (String.eqb x c).
Qed.

(** A label that occurs once, between two lists that do not have it. *)
Lemma position_middle c l1 l2 :
  c ∉ l1 -> c ∉ l2 -> position c (l1 ++ c :: l2) = Ok (length l1).
Proof.
  intros H1 H2. unfold position. rewrite positions_app. simpl.
  rewrite String.eqb_refl.
  apply (positions_nil c 0) in H1. rewrite H1.
  apply (positions_nil c (S (length l1))) in H2. rewrite H2. reflexivity.
Qed.

Lemma position_head c l : c ∉ l -> position c (c :: l) = Ok 0%nat.
Proof. intros H. apply (position_middle c [] l); [apply not_elem_of_nil | exact H]. Qed.

(** ** Cells and columns under the table operations *)

Lemma cell_insert_ne i j v (r : list value) :
  i <> j -> cell j (<[i := v]> r) = cell j r.
Proof. intros H. rewrite !cell_lookup. by rewrite list_lookup_insert_ne. Qed.

Lemma cell_insert_eq i v (r : list value) :
  (i < length r)%nat -> cell i (<[i := v]> r) = v.
Proof. intros H. rewrite cell_lookup. by rewrite list_lookup_insert_eq. Qed.

Lemma cell_short i (r : list value) : (length r <= i)%nat -> cell i r = VNaN.
Proof. intros H. rewrite cell_lookup. by rewrite lookup_ge_None_2. Qed.

(** A cell-wise function that keeps [NaN] acts on the cells of its column,
    also where a row is too short to have that cell. *)
Lemma cell_insert_apply (g : value -> result value) i v (r : list value) :
  g VNaN = Ok VNaN -> g (cell i r) = Ok v -> cell i (<[i := v]> r) = v.
Proof.
  intros Hnan Hv. destruct (decide (i < length r)%nat) as [Hlt|Hge].
  - by apply cell_insert_eq.
  - rewrite list_insert_ge by lia.
    rewrite cell_short in * by lia. congruence.
Qed.

Lemma apply_col_Ok g c F F' :
  g VNaN = Ok VNaN ->
  apply_col c g F = Ok F' ->
  exists i, position c (columns F) = Ok i
    /\ columns F' = columns F
    /\ mapM g (keys i (rows F)) = Ok (keys i (rows F'))
    /\ (forall j, j <> i -> keys j (rows F') = keys j (rows F))
    /\ List.map length (rows F') = List.map length (rows F).
Proof.
  intros Hnan H. unfold apply_col in H. inv_ok. subst F'. simpl.
  rename x into i. rename x0 into rs. exists i. split; [assumption|].
  split; [reflexivity|].
  apply mapM_Ok in Hx0. clear Hx.
  induction Hx0 as [|r r' l l' Hr _ IH]; simpl.
  - repeat split; auto.
  - inv_ok. subst r'. destruct IH as (IH1 & IH2 & IH3).
    split; [|split].
    + rewrite Hx. simpl. rewrite IH1. simpl.
      by rewrite (cell_insert_apply g i x r).
    + intros j Hj. rewrite (IH2 j Hj). by rewrite cell_insert_ne.
    + rewrite length_insert. by rewrite IH3.
Qed.

Lemma to_num_nan : _to_num VNaN = Ok VNaN.
Proof. reflexivity. Qed.

Lemma date_text_nan lib : date_text lib VNaN = Ok VNaN.
Proof. reflexivity. Qed.

Lemma normalize_numeric_Ok cols : forall F F',
  _normalize_numeric F cols = Ok F' ->
  columns F' = columns F
  /\ List.map length (rows F') = List.map length (rows F)
  /\ (forall j, (forall c, c ∈ cols -> columns F !! j <> Some c) ->
                keys j (rows F') = keys j (rows F))
  /\ (forall c, c ∈ cols -> c ∈ columns F ->
                exists i, position c (columns F) = Ok i).
Proof.
  induction cols as [|c cols IH]; intros F F' H; simpl in H.
  - injection H as <-. repeat split; auto.
    intros c Hc. by apply elem_of_nil in Hc.
  - inv_ok. rename x into F1.
    destruct (IH _ _ H) as (Hc1 & Hl1 & Hk1 & Hp1). clear IH H.
    destruct (has_col c (columns F)) eqn:Hhas.
    + apply apply_col_Ok in Hx as (i & Hi & Hc0 & _ & Hk0 & Hl0);
        [|exact to_num_nan].
      rewrite Hc0 in *.
      split; [congruence|]. split; [congruence|]. split.
      * intros j Hj. rewrite Hk1.
        -- apply Hk0. intros ->. apply position_Ok in Hi as [Hi _].
           apply (Hj c); [left | exact Hi].
        -- intros c' Hc'. apply Hj. by right.
      * intros c' Hc' Hin. apply elem_of_cons in Hc' as [->|Hc']; eauto.
    + injection Hx as <-.
      split; [assumption|]. split; [assumption|]. split.
      * intros j Hj. apply Hk1. intros c' Hc'. apply Hj. by right.
      * intros c' Hc' Hin. apply elem_of_cons in Hc' as [->|Hc']; [|eauto].
        apply has_col_false in Hhas. contradiction.
Qed.

(** Selecting labels that each name one column. *)
Lemma select_unique labels F (pos : string -> nat) :
  (forall c, c ∈ labels -> position c (columns F) = Ok (pos c)) ->
  select labels F
  = Ok (MkFrame labels
          (List.map (fun r => List.map (fun c => cell (pos c) r) labels) (rows F))).
Proof.
  intros Hpos. unfold select.
  match goal with |- (?m ≫= _) = _ =>
    assert (Hsel : m = Ok (List.map (fun c => [(c, pos c)]) labels))
  end.
  { induction labels as [|c labels IH]; [reflexivity|].
    cbn [mapM]. rewrite IH by (intros c' Hc'; apply Hpos; by right).
    assert (Hc := Hpos c ltac:(left)). unfold position in Hc.
    destruct (positions c 0 (columns F)) as [|a [|b l]]; try discriminate.
    injection Hc as ->. reflexivity. }
  rewrite Hsel. simpl.
  assert (Hcat : forall l : list string,
             concat (List.map (fun c => [(c, pos c)]) l)
             = List.map (fun c => (c, pos c)) l).
  { induction l as [|c l IH]; simpl; [reflexivity|]. by rewrite IH. }
  rewrite Hcat. f_equal. f_equal.
  - rewrite List.map_map. simpl. apply List.map_id.
  - apply List.map_ext. intros r. by rewrite List.map_map.
Qed.

(** Three labels that together select three columns name one column each. *)
Lemma select_three a b c F G :
  select [a; b; c] F = Ok G -> length (columns G) = 3%nat ->
  exists ia ib ic,
    position a (columns F) = Ok ia /\ position b (columns F) = Ok ib
    /\ position c (columns F) = Ok ic
    /\ G = MkFrame [a; b; c]
             (List.map (fun r => [cell ia r; cell ib r; cell ic r]) (rows F)).
Proof.
  unfold select, position. simpl.
  destruct (positions a 0 (columns F)) as [|ia [|ia' la]];
    destruct (positions b 0 (columns F)) as [|ib [|ib' lb]];
    destruct (positions c 0 (columns F)) as [|ic [|ic' lc]];
    simpl; intros H; try discriminate H; injection H as <-; simpl;
    intros Hlen; try discriminate Hlen;
    try (exfalso;
         repeat (rewrite List.length_map in Hlen
                 || rewrite List.length_app in Hlen || simpl in Hlen);
         lia).
  exists ia, ib, ic. repeat split.
Qed.

(** ** Keys: equality, duplicates, order *)

Lemma key_eqb_eq a b : key_eqb a b = true <-> a = b.
Proof. unfold key_eqb. apply bool_decide_eq_true. Qed.

Lemma existsb_key_eqb v seen : existsb (key_eqb v) seen = true <-> v ∈ seen.
Proof.
  rewrite existsb_exists. split.
  - intros (x & Hin & Heq). apply key_eqb_eq in Heq. subst x.
    by apply list_elem_of_In.
  - intros Hin. exists v. split; [by apply list_elem_of_In | by apply key_eqb_eq].
Qed.

Lemma drop_dup_rows_spec i rs : forall seen,
  NoDup (keys i (drop_dup_rows i seen rs))
  /\ (forall v, v ∈ keys i (drop_dup_rows i seen rs)
                <-> v ∈ keys i rs /\ v ∉ seen)
  /\ (forall r, r ∈ drop_dup_rows i seen rs -> r ∈ rs).
Proof.
  induction rs as [|r rs IH]; intros seen; simpl.
  - split; [constructor|]. split.
    + intros v. split; [intros H; by apply elem_of_nil in H|].
      intros [H _]. by apply elem_of_nil in H.
    + auto.
  - destruct (existsb (key_eqb (cell i r)) seen) eqn:E.
    + apply existsb_key_eqb in E.
      destruct (IH seen) as (Hnd & Hiff & Hsub). split; [assumption|]. split.
      * intros v. rewrite Hiff, elem_of_cons. split; [tauto|].
        intros [[->|Hv] Hn]; [contradiction | tauto].
      * intros r' Hr'. right. by apply Hsub.
    + assert (Hn : cell i r ∉ seen).
      { intros Hin. apply existsb_key_eqb in Hin. congruence. }
      destruct (IH (cell i r :: seen)) as (Hnd & Hiff & Hsub).
      simpl. split; [|split].
      * constructor; [|assumption]. rewrite Hiff. intros [_ Hc]. apply Hc. left.
      * intros v. rewrite !elem_of_cons, Hiff, elem_of_cons. split.
        -- intros [->|[Hv Hns]]; [tauto|]. split; [tauto|].
           intros Hs. apply Hns. by right.
        -- intros [[->|Hv] Hns]; [by left|].
           destruct (decide (v = cell i r)) as [->|Hne]; [by left|].
           right. split; [assumption|]. intros [?|?]; contradiction.
      * intros r' Hr'. apply elem_of_cons in Hr' as [->|Hr']; [left|].
        right. by apply Hsub.
Qed.

Lemma insert_row_perm i asc r rs : Permutation (insert_row i asc r rs) (r :: rs).
Proof.
  induction rs as [|r' rs IH]; simpl; [reflexivity|].
  destruct (key_before asc (cell i r) (cell i r')); [reflexivity|].
  rewrite IH. apply perm_swap.
Qed.

Lemma sort_rows_perm i asc rs : Permutation (sort_rows i asc rs) rs.
Proof.
  induction rs as [|r rs IH]; simpl; [reflexivity|].
  unfold sort_rows in *. simpl. rewrite insert_row_perm. by constructor.
Qed.

Lemma keys_perm i rs rs' : Permutation rs rs' -> Permutation (keys i rs) (keys i rs').
Proof. intros H. unfold keys. by apply Permutation_map. Qed.

(** The order of strings *)

Lemma ascii_compare_refl a : Ascii.compare a a = Eq.
Proof. unfold Ascii.compare. apply N.compare_refl. Qed.

Lemma ascii_compare_lt_trans a b c :
  Ascii.compare a b = Lt -> Ascii.compare b c = Lt -> Ascii.compare a c = Lt.
Proof. unfold Ascii.compare. rewrite !N.compare_lt_iff. lia. Qed.

Lemma string_compare_refl s : String.compare s s = Eq.
Proof. induction s as [|a s IH]; simpl; [reflexivity|]. by rewrite ascii_compare_refl. Qed.

Lemma string_compare_lt_trans : forall a b c,
  String.compare a b = Lt -> String.compare b c = Lt -> String.compare a c = Lt.
Proof.
  induction a as [|x a IH]; intros [|y b] [|z c]; simpl; try discriminate; auto.
  destruct (Ascii.compare x y) eqn:Exy; try discriminate;
    destruct (Ascii.compare y z) eqn:Eyz; try discriminate; intros H1 H2.
  - apply Ascii.compare_eq_iff in Exy, Eyz. subst.
    rewrite ascii_compare_refl. eauto.
  - apply Ascii.compare_eq_iff in Exy. subst. by rewrite Eyz.
  - apply Ascii.compare_eq_iff in Eyz. subst. by rewrite Exy.
  - by rewrite (ascii_compare_lt_trans x y z).
Qed.

Lemma string_leb_lt a b :
  String.leb a b = true <-> a = b \/ String.ltb a b = true.
Proof.
  unfold String.leb, String.ltb. destruct (String.compare a b) eqn:E.
  - apply String.compare_eq_iff in E. tauto.
  - tauto.
  - split; [discriminate|]. intros [->|H]; [|discriminate].
    by rewrite string_compare_refl in E.
Qed.

Lemma string_ltb_trans a b c :
  String.ltb a b = true -> String.ltb b c = true -> String.ltb a c = true.
Proof.
  unfold String.ltb.
  destruct (String.compare a b) eqn:E1; try discriminate.
  destruct (String.compare b c) eqn:E2; try discriminate.
  by rewrite (string_compare_lt_trans a b c).
Qed.

Lemma string_leb_trans a b c :
  String.leb a b = true -> String.leb b c = true -> String.leb a c = true.
Proof.
  rewrite !string_leb_lt. intros [->|H1] [->|H2]; auto.
  right. by apply (string_ltb_trans a b c).
Qed.

(** Sorting *)

Lemma key_before_total asc a b :
  key_before asc a b = false -> key_before asc b a = true.
Proof.
  unfold key_before.
  destruct (isna b) eqn:Eb; [discriminate|].
  destruct (isna a) eqn:Ea; [reflexivity|].
  destruct a, b; try discriminate; simpl;
    destruct asc; try discriminate; intros H;
    match goal with
    | |- String.leb ?x ?y = true =>
        destruct (String.leb_total x y) as [|]; congruence
    end.
Qed.

Section Sorting.
Variables (i : nat) (asc : bool).

Let before (r r' : list value) : Prop :=
  key_before asc (cell i r) (cell i r') = true.

Lemma insert_row_sorted r rs :
  Sorted before rs -> Sorted before (insert_row i asc r rs).
Proof.
  induction rs as [|r' rs IH]; intros Hs; simpl.
  - repeat constructor.
  - destruct (key_before asc (cell i r) (cell i r')) eqn:E.
    + constructor; [assumption|]. by constructor.
    + apply Sorted_inv in Hs as [Hs Hhd]. constructor; [by apply IH|].
      apply key_before_total in E.
      destruct rs as [|r'' rs]; simpl.
      * by constructor.
      * destruct (key_before asc (cell i r) (cell i r'')).
        -- by constructor.
        -- constructor. by apply HdRel_inv in Hhd.
Qed.

Lemma sort_rows_sorted rs : Sorted before (sort_rows i asc rs).
Proof.
  induction rs as [|r rs IH]; simpl; [constructor|].
  by apply insert_row_sorted.
Qed.

End Sorting.

Lemma date_ge_trans a b c : date_ge a b -> date_ge b c -> date_ge a c.
Proof.
  destruct a, b, c; simpl; try tauto.
  intros H1 H2. eapply string_leb_trans; eassumption.
Qed.

Lemma key_before_date_ge a b :
  date_cell a = true -> date_cell b = true ->
  key_before false a b = true -> date_ge a b.
Proof. destruct a, b; simpl; try discriminate; auto. Qed.

(** A table sorted by [sort_values(ascending=False)] on a date column has
    its dates in descending order, the missing ones last. *)
Lemma sorted_desc_dates rs :
  Forall (fun v => date_cell v = true) (keys 0 rs) ->
  StronglySorted date_ge (keys 0 (sort_rows 0 false rs)).
Proof.
  intros Hd.
  assert (Hd' : Forall (fun v => date_cell v = true) (keys 0 (sort_rows 0 false rs))).
  { eapply Permutation_Forall; [|exact Hd].
    symmetry. apply keys_perm, sort_rows_perm. }
  apply Sorted_StronglySorted; [exact date_ge_trans|].
  pose proof (sort_rows_sorted 0 false rs) as Hs.
  induction Hs as [|r l Hs IH Hhd]; simpl; [constructor|].
  apply Forall_cons in Hd' as [Hr Hl].
  constructor; [by apply IH|].
  destruct Hhd as [|r' l' Hrr']; simpl; constructor.
  apply Forall_cons in Hl as [Hr' _].
  by apply key_before_date_ge.
Qed.

Lemma date_ge_gt a b :
  date_cell a = true -> date_cell b = true -> a <> b -> date_ge a b -> date_gt a b.
Proof.
  destruct a, b; simpl; try discriminate; try tauto.
  intros _ _ Hne H. apply string_leb_lt in H as [->|H]; [congruence | assumption].
Qed.

Lemma strongly_sorted_strict (l : list value) :
  Forall (fun v => date_cell v = true) l -> NoDup l ->
  StronglySorted date_ge l -> StronglySorted date_gt l.
Proof.
  induction l as [|a l IH]; intros Hd Hnd Hs; [constructor|].
  apply Forall_cons in Hd as [Ha Hl].
  apply NoDup_cons in Hnd as [Hna Hnd].
  apply StronglySorted_inv in Hs as [Hs Hall].
  constructor; [by apply IH|].
  apply List.Forall_forall. intros b Hb.
  apply date_ge_gt; auto.
  - rewrite Forall_forall in Hl. apply Hl. by apply list_elem_of_In.
  - intros ->. apply Hna. by apply list_elem_of_In.
  - rewrite List.Forall_forall in Hall. by apply Hall.
Qed.

(** ** The three normalised tables *)

Lemma date_text_Ok lib v w :
  date_text lib v = Ok w <-> exists d, to_datetime lib v = Ok d /\ w = dt_strftime d.
Proof.
  unfold date_text. rewrite bind_Ok. split.
  - intros (d & Hd & Hw). injection Hw as <-. eauto.
  - intros (d & Hd & ->). eauto.
Qed.

Lemma date_text_cell lib v w : date_text lib v = Ok w -> date_cell w = true.
Proof. intros H. apply date_text_Ok in H as ([d|] & _ & ->); reflexivity. Qed.

Lemma mapM_date_cells lib l ks :
  mapM (date_text lib) l = Ok ks -> Forall (fun v => date_cell v = true) ks.
Proof.
  intros H. apply mapM_Ok in H. induction H; constructor; auto.
  eapply date_text_cell; eassumption.
Qed.

Lemma wanted_cols_cases c :
  c ∈ wanted_cols -> c = "일자" \/ (c ∈ numeric_cols /\ c ∈ tail wanted_cols).
Proof.
  unfold wanted_cols, numeric_cols. simpl. intros H.
  repeat (apply elem_of_cons in H as [->|H]); [by left|..];
    right; split; set_solver.
Qed.

Lemma date_not_numeric : "일자" ∉ numeric_cols.
Proof.
  unfold numeric_cols. intros H.
  repeat (apply elem_of_cons in H as [H|H]; [discriminate|]).
  by apply elem_of_nil in H.
Qed.

Lemma date_not_rest : "일자" ∉ tail wanted_cols.
Proof.
  simpl. intros H.
  repeat (apply elem_of_cons in H as [H|H]; [discriminate|]).
  by apply elem_of_nil in H.
Qed.

Lemma elem_of_filter_list {A} (f : A -> bool) (l : list A) x :
  x ∈ List.filter f l <-> x ∈ l /\ f x = true.
Proof. rewrite !list_elem_of_In. apply List.filter_In. Qed.

Lemma keys_filter i (f : value -> bool) rs :
  keys i (List.filter (fun r => f (cell i r)) rs) = List.filter f (keys i rs).
Proof.
  induction rs as [|r rs IH]; simpl; [reflexivity|].
  destruct (f (cell i r)); simpl; by rewrite IH.
Qed.

(** What a successful normalisation of the price table (lines 60-67) gives:
    the columns are the wanted ones the provider delivered, [일자] first;
    the rows are rectangular; the dates are those of the provider's rows,
    reformatted, each once. *)
Lemma normalize_ohlcv_shape lib df P :
  normalize_ohlcv lib (PyFrame df) = Ok P ->
  exists F0 i ks rest,
    prepare_ohlcv df = Ok F0
    /\ position "일자" (columns F0) = Ok i
    /\ mapM (date_text lib) (keys i (rows F0)) = Ok ks
    /\ columns P = List.filter (fun c => has_col c (columns F0)) wanted_cols
    /\ columns P = "일자" :: rest
    /\ (forall c, c ∈ rest -> c ∈ tail wanted_cols)
    /\ Forall (fun r => length r = length (columns P)) (rows P)
    /\ NoDup (dates P)
    /\ (forall v, v ∈ dates P <-> v ∈ ks).
Proof.
  intros H. unfold normalize_ohlcv in H. inv_ok.
  rename x into F0, x0 into F1, x1 into F2, x2 into F3, x3 into F4.
  apply apply_col_Ok in Hx0 as (i & Hi & Hc1 & Hk1 & _ & _);
    [|apply date_text_nan].
  apply normalize_numeric_Ok in Hx1 as (Hc2 & _ & Hk2 & Hp2).
  rewrite Hc1 in Hc2, Hk2, Hp2.
  assert (Hki : keys i (rows F2) = keys i (rows F1)).
  { apply Hk2. intros c Hc Hl. apply position_Ok in Hi as [Hi _].
    rewrite Hi in Hl. injection Hl as <-. by apply date_not_numeric. }
  set (base := List.filter (fun c => has_col c (columns F2)) wanted_cols) in *.
  set (pos := fun c => match position c (columns F2) with
                       | Ok j => j | Raise _ => 0%nat end).
  assert (Hpos : forall c, c ∈ base -> position c (columns F2) = Ok (pos c)).
  { intros c Hc. apply elem_of_filter_list in Hc as [Hw Hh].
    apply has_col_true in Hh. unfold pos.
    apply wanted_cols_cases in Hw as [->|[Hn _]].
    - rewrite Hc2. by rewrite Hi.
    - rewrite Hc2 in *. destruct (Hp2 c Hn Hh) as [j ->]. reflexivity. }
  rewrite (select_unique base F2 pos Hpos) in Hx2. injection Hx2 as <-.
  assert (Hbase : exists rest, base = "일자" :: rest
                               /\ forall c, c ∈ rest -> c ∈ tail wanted_cols).
  { assert (Hh : has_col "일자" (columns F2) = true).
    { apply has_col_true. rewrite Hc2. eapply position_has_col, Hi. }
    unfold base. change wanted_cols with ("일자" :: tail wanted_cols).
    remember (tail wanted_cols) as six eqn:Hsix.
    cbn [List.filter]. rewrite Hh. eexists. split; [reflexivity|].
    intros c Hc. apply elem_of_filter_list in Hc as [Hc _]. exact Hc. }
  destruct Hbase as (rest & Hb & Hrest).
  assert (H0 : position "일자" base = Ok 0%nat).
  { rewrite Hb. apply position_head. intros Hin. apply Hrest in Hin.
    by apply date_not_rest. }
  unfold drop_duplicates in Hx3. simpl in Hx3. rewrite H0 in Hx3.
  simpl in Hx3. injection Hx3 as <-.
  unfold sort_values in H. simpl in H. rewrite H0 in H. simpl in H. injection H as <-.
  simpl. exists F0, i, (keys i (rows F1)), rest.
  split; [assumption|]. split; [assumption|]. split; [assumption|].
  split; [by rewrite <- Hc2|]. split; [assumption|]. split; [assumption|].
  set (sel := List.map (fun r => List.map (fun c => cell (pos c) r) base) (rows F2)).
  assert (Hsel : keys 0 sel = keys i (rows F1)).
  { rewrite <- Hki. unfold sel, keys. rewrite List.map_map.
    apply List.map_ext. intros r. rewrite Hb. simpl.
    unfold pos. rewrite Hc2. by rewrite Hi. }
  destruct (drop_dup_rows_spec 0 sel []) as (Hnd & Hiff & Hsub).
  pose proof (sort_rows_perm 0 true (drop_dup_rows 0 [] sel)) as Hperm.
  split; [|split].
  - eapply Permutation_Forall; [symmetry; exact Hperm|].
    apply Forall_forall. intros r Hr. apply Hsub in Hr.
    unfold sel in Hr. apply list_elem_of_In, List.in_map_iff in Hr as (r0 & <- & _).
    by rewrite List.length_map.
  - unfold dates. simpl. by rewrite (keys_perm 0 _ _ Hperm).
  - intros v. unfold dates. simpl.
    rewrite (keys_perm 0 _ _ Hperm), Hiff, Hsel. split; [tauto|].
    intros Hv. split; [assumption | apply not_elem_of_nil].
Qed.

Lemma same_lengths n (rs rs' : list (list value)) :
  List.map length rs' = List.map length rs ->
  Forall (fun r => length r = n) rs -> Forall (fun r => length r = n) rs'.
Proof.
  revert rs'. induction rs as [|r rs IH]; intros [|r' rs'] H Hf;
    try discriminate; [constructor|].
  simpl in H. injection H as Hr Hrs.
  apply Forall_cons in Hf as [Hn Hf]. constructor; [congruence | by apply IH].
Qed.

(** Lines 73-78: the date column, the quantity and the ratio, each found
    once among the stripped labels, make the three columns. *)
Lemma select_short_Ok qty ratio df G :
  select_short qty ratio df = Ok G ->
  exists F0 id iq ir,
    reset_named_index df = Ok F0
    /\ position (date_column (List.map strip (columns F0)))
                (List.map strip (columns F0)) = Ok id
    /\ position qty (List.map strip (columns F0)) = Ok iq
    /\ position "비중" (List.map strip (columns F0)) = Ok ir
    /\ G = MkFrame ["일자"; qty; ratio]
             (List.map (fun r => [cell id r; cell iq r; cell ir r]) (rows F0)).
Proof.
  intros H. unfold select_short in H. inv_ok.
  rename x into F0, x0 into dc, x1 into G0.
  unfold set_columns in H.
  destruct (length ["일자"; qty; ratio] =? length (columns G0))%nat eqn:El;
    [|discriminate].
  injection H as <-. apply Nat.eqb_eq in El. simpl in El.
  apply select_three in Hx1 as (id & iq & ir & Hd & Hq & Hr & ->); [|by symmetry].
  simpl in *. exists F0, id, iq, ir. repeat split; try assumption.
  unfold date_column.
  destruct (has_col "날짜" (List.map strip (columns F0))).
  - by injection Hx0 as <-.
  - destruct (List.map strip (columns F0)) as [|c cols]; [discriminate|].
    by injection Hx0 as <-.
Qed.

Lemma select_short_shape qty ratio df G :
  select_short qty ratio df = Ok G ->
  columns G = ["일자"; qty; ratio] /\ Forall (fun r => length r = 3%nat) (rows G).
Proof.
  intros H. apply select_short_Ok in H as (F0 & id & iq & ir & _ & _ & _ & _ & ->).
  split; [reflexivity|]. simpl. apply Forall_forall. intros r Hr.
  apply list_elem_of_In, List.in_map_iff in Hr as (r0 & <- & _). reflexivity.
Qed.

Lemma position_date_first qty ratio :
  qty <> "일자" -> ratio <> "일자" -> position "일자" ["일자"; qty; ratio] = Ok 0%nat.
Proof.
  intros Hq Hr. apply position_head. intros H.
  repeat (apply elem_of_cons in H as [H|H]; [congruence|]).
  by apply elem_of_nil in H.
Qed.

(** What a successful normalisation of a short-sale table (lines 72-82 and
    87-97) gives: three columns, rectangular rows, and as dates the
    reformatted dates of the rows that have one.  A result that is absent or
    empty gives the empty table. *)
Lemma normalize_short_shape lib qty ratio obj S :
  qty <> "일자" -> ratio <> "일자" ->
  normalize_short lib qty ratio obj = Ok S ->
  columns S = ["일자"; qty; ratio]
  /\ Forall (fun r => length r = 3%nat) (rows S)
  /\ ((rows S = [] /\ forall df, obj = PyFrame df -> empty df = true)
      \/ exists df G ks,
           obj = PyFrame df /\ empty df = false
           /\ select_short qty ratio df = Ok G
           /\ mapM (date_text lib) (keys 0 (rows G)) = Ok ks
           /\ dates S = List.filter (fun v => negb (isna v)) ks).
Proof.
  intros Hq Hr H. unfold normalize_short in H.
  destruct obj as [| |df];
    try (injection H as <-; simpl; repeat split; auto;
         left; split; [reflexivity | discriminate]).
  destruct (empty df) eqn:Ee.
  { injection H as <-; simpl; repeat split; auto.
    left. split; [reflexivity|]. intros df' Hdf. by injection Hdf as <-. }
  inv_ok. rename x into G, x0 into F1, x1 into F2.
  destruct (select_short_shape _ _ _ _ Hx) as (HcG & HlG).
  pose proof (position_date_first qty ratio Hq Hr) as H0.
  apply apply_col_Ok in Hx0 as (i & Hi & Hc1 & Hk1 & _ & Hl1);
    [|apply date_text_nan].
  rewrite HcG, H0 in Hi. injection Hi as <-.
  apply normalize_numeric_Ok in Hx1 as (Hc2 & Hl2 & Hk2 & _).
  rewrite Hc1, HcG in Hc2, Hk2.
  assert (Hk0 : keys 0 (rows F2) = keys 0 (rows F1)).
  { apply Hk2. intros c Hc. simpl. intros Hl. injection Hl as <-.
    repeat (apply elem_of_cons in Hc as [Hc|Hc]; [congruence|]).
    by apply elem_of_nil in Hc. }
  unfold dropna in H. rewrite Hc2, H0 in H. simpl in H. injection H as <-.
  simpl. split; [reflexivity|]. split.
  - apply Forall_forall. intros r Hr'.
    apply elem_of_filter_list in Hr' as [Hr' _].
    assert (Hf : Forall (fun r => length r = 3%nat) (rows F2)).
    { eapply same_lengths; [exact Hl2|].
      eapply same_lengths; [exact Hl1 | exact HlG]. }
    rewrite Forall_forall in Hf. by apply Hf.
  - right. exists df, G, (keys 0 (rows F1)).
    repeat split; try assumption.
    unfold dates. simpl. rewrite <- Hk0.
    apply (keys_filter 0 (fun v => negb (isna v))).
Qed.

(** ** The joins, the fill and the final sort *)

Lemma short_cells_length S k :
  Forall (fun r => length r = 3%nat) S ->
  Forall (fun x => length x = 2%nat) (short_cells S k).
Proof.
  intros HS. unfold short_cells.
  destruct (List.filter _ S) as [|m ms] eqn:E; [by repeat constructor|].
  rewrite <- E. apply Forall_forall. intros x Hx.
  apply list_elem_of_In, List.in_map_iff in Hx as (r & <- & Hr).
  apply List.filter_In in Hr as [Hr _].
  rewrite Forall_forall in HS. apply list_elem_of_In, HS in Hr.
  rewrite length_drop. lia.
Qed.

Lemma join_row_short R lr :
  join_row 0 0 2 R lr = List.map (app lr) (short_cells R (cell 0 lr)).
Proof.
  unfold join_row, short_cells.
  destruct (List.filter _ R) as [|m ms]; [reflexivity|].
  rewrite List.map_map. reflexivity.
Qed.

Lemma merge_left_short L R rest a b :
  columns L = "일자" :: rest -> "일자" ∉ rest ->
  columns R = ["일자"; a; b] -> a <> "일자" -> b <> "일자" ->
  a ∉ columns L -> b ∉ columns L ->
  merge_left "일자" L R
  = Ok (MkFrame (columns L ++ [a; b])
          (flat_map (fun lr => List.map (app lr) (short_cells (rows R) (cell 0 lr)))
                    (rows L))).
Proof.
  intros HL Hrest HR Ha Hb HaL HbL. unfold merge_left.
  rewrite HL at 1. rewrite (position_head _ _ Hrest).
  rewrite HR. rewrite (position_date_first a b Ha Hb). simpl.
  change (remove_at 0 ["일자"; a; b]) with [a; b]. simpl.
  f_equal. f_equal.
  - f_equal.
    + etransitivity; [|apply List.map_id].
      apply List.map_ext_in. intros x Hx.
      destruct (negb (x =? "일자")%string); [|reflexivity]. simpl.
      replace (has_col x [a; b]) with false; [by rewrite andb_false_r|].
      symmetry. apply has_col_false. intros Hin.
      apply list_elem_of_In in Hx.
      repeat (apply elem_of_cons in Hin as [->|Hin]; [contradiction|]).
      by apply elem_of_nil in Hin.
    + apply has_col_false in HaL, HbL. rewrite HaL, HbL.
      by rewrite !andb_false_r.
  - apply List.flat_map_ext. intros lr. apply join_row_short.
Qed.

Lemma fillna_Ok c v F i :
  position c (columns F) = Ok i ->
  fillna c v F
  = Ok (MkFrame (columns F)
          (List.map (fun r => <[i := if isna (cell i r) then v else cell i r]> r)
                    (rows F))).
Proof.
  intros Hi. unfold fillna, apply_col. rewrite Hi. simpl.
  rewrite (mapM_pure (fun r => <[i := if isna (cell i r) then v else cell i r]> r)).
  reflexivity.
Qed.

Lemma cell_app_r n (l t : list value) k :
  length l = n -> cell (n + k) (l ++ t) = cell k t.
Proof.
  intros <-. rewrite !cell_lookup. rewrite lookup_app_r by lia.
  by replace (length l + k - length l)%nat with k by lia.
Qed.

Lemma cell_app_l (l t : list value) k :
  (k < length l)%nat -> cell k (l ++ t) = cell k l.
Proof. intros H. rewrite !cell_lookup. by rewrite lookup_app_l. Qed.

(** The four fills on a row made of price cells and four short-sale cells. *)
Lemma fill_four n lr x1 x2 y1 y2 :
  length lr = n ->
  let f i (r : list value) := <[i := if isna (cell i r) then VInt 0 else cell i r]> r in
  f (n + 3)%nat (f (n + 2)%nat (f (n + 1)%nat (f (n + 0)%nat (lr ++ [x1; x2; y1; y2]))))
  = lr ++ [fill0 x1; fill0 x2; fill0 y1; fill0 y2].
Proof.
  intros Hn f. unfold f.
  repeat (rewrite (cell_app_r n) by assumption;
          rewrite insert_app_r_alt by lia;
          rewrite Hn;
          match goal with
          | |- context [(n + ?k - n)%nat] =>
              replace (n + k - n)%nat with k by lia
          end; simpl).
  reflexivity.
Qed.

Lemma short_not_price c : c ∈ short_names -> c ∉ wanted_cols.
Proof.
  unfold short_names, wanted_cols. intros H Hw.
  repeat (apply elem_of_cons in H as [->|H];
          [repeat (apply elem_of_cons in Hw as [Hw|Hw]; [discriminate|]);
           by apply elem_of_nil in Hw|]).
  by apply elem_of_nil in H.
Qed.

Lemma position_short B k c :
  (forall c, c ∈ short_names -> c ∉ B) ->
  short_names !! k = Some c ->
  position c (B ++ short_names) = Ok (length B + k)%nat.
Proof.
  intros HB Hk. unfold position. rewrite positions_app.
  assert (Hc : c ∈ short_names) by (eapply list_elem_of_lookup_2, Hk).
  apply HB, (positions_nil c 0) in Hc. rewrite Hc. simpl.
  destruct k as [|[|[|[|k]]]]; simpl in Hk; try discriminate;
    injection Hk as <-; simpl; do 4 f_equal; lia.
Qed.

Lemma fill_zero_short B rs :
  (forall c, c ∈ short_names -> c ∉ B) ->
  let f i (r : list value) := <[i := if isna (cell i r) then VInt 0 else cell i r]> r in
  fill_zero (MkFrame (B ++ short_names) rs) short_names
  = Ok (MkFrame (B ++ short_names)
          (List.map (fun r => f (length B + 3)%nat (f (length B + 2)%nat
                               (f (length B + 1)%nat (f (length B + 0)%nat r)))) rs)).
Proof.
  intros HB f. unfold short_names at 2. cbn [fill_zero].
  assert (Hh : forall c rs', c ∈ short_names ->
             has_col c (columns (MkFrame (B ++ short_names) rs')) = true).
  { intros c rs' Hc. apply has_col_true. simpl. apply elem_of_app. by right. }
  assert (Hfill : forall k c rs', short_names !! k = Some c ->
             fillna c (VInt 0) (MkFrame (B ++ short_names) rs')
             = Ok (MkFrame (B ++ short_names) (List.map (f (length B + k)%nat) rs'))).
  { intros k c rs' Hk.
    apply (fillna_Ok c (VInt 0) (MkFrame (B ++ short_names) rs')).
    by apply position_short. }
  assert (Hs : forall k c, short_names !! k = Some c -> c ∈ short_names).
  { intros k c Hk. eapply list_elem_of_lookup_2, Hk. }
  rewrite (Hh _ _ (Hs 0%nat _ eq_refl)), (Hfill 0%nat _ _ eq_refl).
  cbn [mbind result_bind].
  rewrite (Hh _ _ (Hs 1%nat _ eq_refl)), (Hfill 1%nat _ _ eq_refl).
  cbn [mbind result_bind].
  rewrite (Hh _ _ (Hs 2%nat _ eq_refl)), (Hfill 2%nat _ _ eq_refl).
  cbn [mbind result_bind].
  rewrite (Hh _ _ (Hs 3%nat _ eq_refl)), (Hfill 3%nat _ _ eq_refl).
  cbn [mbind result_bind].
  rewrite !List.map_map. reflexivity.
Qed.

Lemma joined_rows n P SV SB :
  (0 < n)%nat ->
  Forall (fun r => length r = n) P ->
  Forall (fun r => length r = 3%nat) SV ->
  Forall (fun r => length r = 3%nat) SB ->
  let f i (r : list value) := <[i := if isna (cell i r) then VInt 0 else cell i r]> r in
  List.map (fun r => f (n + 3)%nat (f (n + 2)%nat (f (n + 1)%nat (f (n + 0)%nat r))))
    (flat_map (fun lr => List.map (app lr) (short_cells SB (cell 0 lr)))
       (flat_map (fun lr => List.map (app lr) (short_cells SV (cell 0 lr))) P))
  = joined P SV SB.
Proof.
  intros Hn HP HSV HSB f. unfold joined.
  induction HP as [|lr P Hlr _ IH]; [reflexivity|].
  cbn [flat_map]. rewrite List.flat_map_app, List.map_app, IH. f_equal.
  clear IH.
  pose proof (short_cells_length SV (cell 0 lr) HSV) as Hx.
  induction Hx as [|x xs Hxl _ IHx]; [reflexivity|].
  cbn [List.map flat_map]. rewrite List.map_app, IHx. f_equal. clear IHx.
  assert (H0 : cell 0 (lr ++ x) = cell 0 lr) by (apply cell_app_l; lia).
  rewrite H0.
  pose proof (short_cells_length SB (cell 0 lr) HSB) as Hy.
  induction Hy as [|y ys Hyl _ IHy]; [reflexivity|].
  cbn [List.map]. rewrite IHy. f_equal.
  destruct x as [|x1 [|x2 [|]]]; try discriminate Hxl.
  destruct y as [|y1 [|y2 [|]]]; try discriminate Hyl.
  rewrite <- app_assoc. apply (fill_four n lr x1 x2 y1 y2 Hlr).
Qed.

(** Lines 100-108 on three normalised tables. *)
Lemma merge_fill_sort_spec P SV SB rest :
  columns P = "일자" :: rest ->
  (forall c, c ∈ rest -> c ∈ tail wanted_cols) ->
  Forall (fun r => length r = length (columns P)) (rows P) ->
  columns SV = ["일자"; "공매도"; "공매도비중"] ->
  Forall (fun r => length r = 3%nat) (rows SV) ->
  columns SB = ["일자"; "공매도잔고"; "공매도잔고비중"] ->
  Forall (fun r => length r = 3%nat) (rows SB) ->
  merge_fill_sort P SV SB
  = Ok (MkFrame (columns P ++ short_names)
          (sort_rows 0 false (joined (rows P) (rows SV) (rows SB)))).
Proof.
  intros HP Hrest HlP HSV HlSV HSB HlSB.
  assert (Hd : "일자" ∉ rest).
  { intros Hin. by apply Hrest, date_not_rest in Hin. }
  assert (HB : forall c, c ∈ short_names -> c ∉ columns P).
  { intros c Hc Hin. apply (short_not_price c Hc).
    rewrite HP in Hin. apply elem_of_cons in Hin as [->|Hin].
    - unfold wanted_cols. left.
    - apply Hrest in Hin. unfold wanted_cols. by right. }
  unfold merge_fill_sort.
  rewrite (merge_left_short P SV rest "공매도" "공매도비중" HP Hd HSV);
    [|done|done|apply HB; unfold short_names; set_solver
     |apply HB; unfold short_names; set_solver].
  cbn [mbind result_bind].
  rewrite (merge_left_short _ SB (rest ++ ["공매도"; "공매도비중"])
             "공매도잔고" "공매도잔고비중"); cbn [columns rows].
  - cbn [mbind result_bind]. rewrite <- app_assoc.
    change (["공매도"; "공매도비중"] ++ ["공매도잔고"; "공매도잔고비중"]) with short_names.
    rewrite (fill_zero_short (columns P) _ HB). cbn [mbind result_bind].
    unfold sort_values. cbn [columns rows].
    assert (H0 : position "일자" (columns P ++ short_names) = Ok 0%nat).
    { rewrite HP. apply position_head. intros Hin.
      apply elem_of_app in Hin as [Hin|Hin]; [contradiction|].
      unfold short_names in Hin.
      repeat (apply elem_of_cons in Hin as [Hin|Hin]; [discriminate|]).
      by apply elem_of_nil in Hin. }
    rewrite H0. cbn [mbind result_bind]. do 3 f_equal.
    apply joined_rows; try assumption. rewrite HP. simpl. lia.
  - by rewrite HP.
  - intros Hin. apply elem_of_app in Hin as [Hin|Hin]; [contradiction|].
    repeat (apply elem_of_cons in Hin as [Hin|Hin]; [discriminate|]).
    by apply elem_of_nil in Hin.
  - assumption.
  - done.
  - done.
  - intros Hin. apply elem_of_app in Hin as [Hin|Hin].
    + revert Hin. apply HB. unfold short_names. set_solver.
    + repeat (apply elem_of_cons in Hin as [Hin|Hin]; [discriminate|]).
      by apply elem_of_nil in Hin.
  - intros Hin. apply elem_of_app in Hin as [Hin|Hin].
    + revert Hin. apply HB. unfold short_names. set_solver.
    + repeat (apply elem_of_cons in Hin as [Hin|Hin]; [discriminate|]).
      by apply elem_of_nil in Hin.
Qed.

(** ** The rows of the joined table *)

Lemma joined_row_inv P SV SB r :
  r ∈ joined P SV SB ->
  exists lr x y, lr ∈ P /\ x ∈ short_cells SV (cell 0 lr)
    /\ y ∈ short_cells SB (cell 0 lr)
    /\ r = lr ++ List.map fill0 x ++ List.map fill0 y.
Proof.
  unfold joined. rewrite list_elem_of_In, List.in_flat_map.
  intros (lr & Hlr & Hr). apply List.in_flat_map in Hr as (x & Hx & Hr).
  apply List.in_map_iff in Hr as (y & <- & Hy).
  exists lr, x, y. rewrite !list_elem_of_In. auto.
Qed.

Lemma short_cells_unmatched S k :
  k ∉ keys 0 S -> short_cells S k = [[VNaN; VNaN]].
Proof.
  intros Hk. unfold short_cells.
  destruct (List.filter _ S) as [|m ms] eqn:E; [reflexivity|]. exfalso.
  assert (Hm : In m (List.filter (fun rr => key_eqb k (cell 0 rr)) S))
    by (rewrite E; left; reflexivity).
  apply List.filter_In in Hm as [Hm Heq]. apply key_eqb_eq in Heq.
  apply Hk. rewrite Heq. unfold keys. apply list_elem_of_In, List.in_map, Hm.
Qed.

Lemma short_cells_nonempty S k : (0 < length (short_cells S k))%nat.
Proof.
  unfold short_cells. destruct (List.filter _ S); simpl; lia.
Qed.

(** A table without duplicate dates has at most one row for a date. *)
Lemma short_cells_single S k :
  NoDup (keys 0 S) -> length (short_cells S k) = 1%nat.
Proof.
  intros Hnd. unfold short_cells.
  assert (Hle : (length (List.filter (fun rr => key_eqb k (cell 0 rr)) S) <= 1)%nat).
  { induction S as [|r S IH]; simpl; [lia|].
    simpl in Hnd. apply NoDup_cons in Hnd as [Hr Hnd].
    destruct (key_eqb k (cell 0 r)) eqn:E; [|by apply IH].
    apply key_eqb_eq in E. subst k. simpl.
    destruct (List.filter _ S) as [|m ms] eqn:Ef; [simpl; lia|]. exfalso.
    assert (Hm : In m (List.filter (fun rr => key_eqb (cell 0 r) (cell 0 rr)) S))
      by (rewrite Ef; left; reflexivity).
    apply List.filter_In in Hm as [Hm Heq]. apply key_eqb_eq in Heq.
    apply Hr. rewrite Heq. apply list_elem_of_In, List.in_map, Hm. }
  destruct (List.filter _ S) as [|m [|m' ms]]; simpl in *; try lia.
Qed.

Lemma keys_joined P SV SB :
  Forall (fun r => (0 < length r)%nat) P ->
  keys 0 (joined P SV SB)
  = flat_map (fun lr => repeat (cell 0 lr) (copies SV SB (cell 0 lr))) P.
Proof.
  intros HP. unfold joined, keys.
  induction HP as [|lr P Hlr _ IH]; [reflexivity|].
  cbn [flat_map]. rewrite List.map_app, IH. f_equal. clear IH.
  unfold copies. generalize (short_cells SV (cell 0 lr)) as xs.
  generalize (short_cells SB (cell 0 lr)) as ys. intros ys xs.
  induction xs as [|x xs IHx]; [reflexivity|].
  cbn [flat_map length Nat.mul]. rewrite List.map_app, IHx, repeat_app.
  f_equal. clear IHx. rewrite List.map_map.
  induction ys as [|y ys IHy]; [reflexivity|].
  simpl. rewrite IHy. f_equal. apply cell_app_l. exact Hlr.
Qed.

Lemma copies_positive SV SB k : (0 < copies SV SB k)%nat.
Proof.
  unfold copies. pose proof (short_cells_nonempty SV k).
  pose proof (short_cells_nonempty SB k). nia.
Qed.

Lemma elem_of_keys_joined P SV SB v :
  Forall (fun r => (0 < length r)%nat) P ->
  v ∈ keys 0 (joined P SV SB) <-> v ∈ keys 0 P.
Proof.
  intros HP. rewrite keys_joined by assumption. clear HP.
  unfold keys. rewrite !list_elem_of_In, List.in_flat_map, List.in_map_iff.
  split.
  - intros (lr & Hlr & Hv). apply repeat_spec in Hv. eauto.
  - intros (lr & <- & Hlr). exists lr. split; [assumption|].
    pose proof (copies_positive SV SB (cell 0 lr)) as Hc.
    destruct (copies SV SB (cell 0 lr)); [lia|]. by left.
Qed.

Lemma length_joined_ge P SV SB :
  Forall (fun r => (0 < length r)%nat) P ->
  (length P <= length (joined P SV SB))%nat.
Proof.
  intros HP.
  rewrite <- (List.length_map (cell 0) (joined P SV SB)).
  fold (keys 0 (joined P SV SB)). rewrite keys_joined by assumption. clear HP.
  induction P as [|lr P IH]; simpl; [lia|].
  rewrite List.length_app, repeat_length.
  pose proof (copies_positive SV SB (cell 0 lr)). lia.
Qed.

Lemma keys_joined_single P SV SB :
  Forall (fun r => (0 < length r)%nat) P ->
  NoDup (keys 0 SV) -> NoDup (keys 0 SB) ->
  keys 0 (joined P SV SB) = keys 0 P.
Proof.
  intros HP Hv Hb. rewrite keys_joined by assumption. clear HP.
  induction P as [|lr P IH]; simpl; [reflexivity|].
  rewrite IH. unfold copies.
  rewrite (short_cells_single SV _ Hv), (short_cells_single SB _ Hb). reflexivity.
Qed.

(** ** The steps of a successful run of lines 56-108 *)

Lemma build_table_Ok lib cfg today stock out :
  build_table lib cfg today stock = Ok out ->
  exists s e o1 o2 o3 P SV SB,
    _yyyymmdd_range today (LOOKBACK_DAYS cfg) = Ok (s, e)
    /\ get_market_ohlcv stock s e (TICKER cfg) = Ok o1
    /\ normalize_ohlcv lib o1 = Ok P
    /\ get_shorting_volume_by_date stock s e (TICKER cfg) = Ok o2
    /\ normalize_short lib "공매도" "공매도비중" o2 = Ok SV
    /\ get_shorting_balance_by_date stock s e (TICKER cfg) = Ok o3
    /\ normalize_short lib "공매도잔고" "공매도잔고비중" o3 = Ok SB
    /\ merge_fill_sort P SV SB = Ok out.
Proof.
  intros H. unfold build_table in H. inv_ok. destruct x as [s e]. inv_ok.
  exists s, e, x, x1, x3, x0, x2, x4. repeat split; assumption.
Qed.

Lemma normalize_ohlcv_frame lib o P :
  normalize_ohlcv lib o = Ok P -> exists df, o = PyFrame df.
Proof. destruct o; try discriminate. eauto. Qed.

(** A successful run of lines 56-108, in one piece: the three fetches, the
    three normalised tables and the rows of the result. *)
Lemma build_table_shape lib cfg today stock out :
  build_table lib cfg today stock = Ok out ->
  exists s e df o2 o3 P SV SB,
    _yyyymmdd_range today (LOOKBACK_DAYS cfg) = Ok (s, e)
    /\ get_market_ohlcv stock s e (TICKER cfg) = Ok (PyFrame df)
    /\ normalize_ohlcv lib (PyFrame df) = Ok P
    /\ get_shorting_volume_by_date stock s e (TICKER cfg) = Ok o2
    /\ normalize_short lib "공매도" "공매도비중" o2 = Ok SV
    /\ get_shorting_balance_by_date stock s e (TICKER cfg) = Ok o3
    /\ normalize_short lib "공매도잔고" "공매도잔고비중" o3 = Ok SB
    /\ out = MkFrame (columns P ++ short_names)
               (sort_rows 0 false (joined (rows P) (rows SV) (rows SB))).
Proof.
  intros H.
  apply build_table_Ok in H
    as (s & e & o1 & o2 & o3 & P & SV & SB & Hr & H1 & HP & H2 & HSV & H3 & HSB & Hm).
  destruct (normalize_ohlcv_frame _ _ _ HP) as [df ->].
  exists s, e, df, o2, o3, P, SV, SB. repeat (split; [assumption|]).
  destruct (normalize_ohlcv_shape _ _ _ HP)
    as (F0 & i & ks & rest & _ & _ & _ & _ & Hc & Hrest & Hl & _ & _).
  apply normalize_short_shape in HSV as (HcV & HlV & _); [|done|done].
  apply normalize_short_shape in HSB as (HcB & HlB & _); [|done|done].
  rewrite (merge_fill_sort_spec P SV SB rest Hc Hrest Hl HcV HlV HcB HlB) in Hm.
  by injection Hm as <-.
Qed.

Lemma price_rows_nonempty P rest :
  columns P = "일자" :: rest ->
  Forall (fun r => length r = length (columns P)) (rows P) ->
  Forall (fun r => (0 < length r)%nat) (rows P).
Proof.
  intros Hc. rewrite Hc. simpl. intros H. eapply Forall_impl; [exact H|].
  simpl. intros r ->. lia.
Qed.

(** The dates of the result are those of the price table. *)
Lemma dates_sorted_joined P SV SB v :
  Forall (fun r => (0 < length r)%nat) P ->
  v ∈ keys 0 (sort_rows 0 false (joined P SV SB)) <-> v ∈ keys 0 P.
Proof.
  intros HP.
  rewrite (keys_perm 0 _ _ (sort_rows_perm 0 false _)).
  by apply elem_of_keys_joined.
Qed.
(** ** The numeric normaliser *)

Lemma decimal_float_is_float neg m e : is_float (decimal_float neg m e) = true.
Proof. unfold decimal_float. by destruct (if 0 <=? e then _ else _). Qed.

Lemma parse_decimal_is_float neg l v :
  parse_decimal neg l = Some v -> is_float v = true.
Proof.
  unfold parse_decimal. intros H.
  repeat case_match; simplify_eq; apply decimal_float_is_float.
Qed.

Lemma py_float_is_float s v : py_float s = Some v -> is_float v = true.
Proof.
  unfold py_float. destruct (numeral s) as [l|]; [|discriminate].
  destruct (take_sign l) as [neg l1]. cbv zeta.
  destruct (_ || _); [intros H; by injection H as <-|].
  destruct (String.eqb _ _); [intros H; by injection H as <-|].
  apply parse_decimal_is_float.
Qed.

Lemma to_num_float x v : _to_num x = Ok v -> is_float v = true.
Proof.
  destruct x as [| |neg|q|z|s|d]; unfold _to_num;
    cbn [isna is_number float_of_number];
    try (intros H; by injection H as <-).
  - destruct (Z.abs z <? float_overflow); [|discriminate].
    intros H. injection H as <-. apply decimal_float_is_float.
  - destruct (py_float _) as [f|] eqn:E; intros H; injection H as <-;
      [by eapply py_float_is_float | reflexivity].
  - destruct (py_float _) as [f|] eqn:E; intros H; injection H as <-;
      [by eapply py_float_is_float | reflexivity].
Qed.

Lemma to_num_fixed v : is_float v = true -> _to_num v = Ok v.
Proof. by destruct v. Qed.

Lemma to_num_raises x e :
  _to_num x = Raise e ->
  exists z, x = VInt z /\ float_overflow <= Z.abs z
            /\ e = OverflowError "int too large to convert to float".
Proof.
  destruct x as [| |neg|q|z|s|d]; unfold _to_num;
    cbn [isna is_number float_of_number]; try discriminate.
  - destruct (Z.abs z <? float_overflow) eqn:E; [discriminate|].
    intros H. injection H as <-. exists z. apply Z.ltb_ge in E. auto.
  - destruct (py_float _); discriminate.
  - destruct (py_float _); discriminate.
Qed.

(** *** Rounding to a float *)

Lemma round_half_even_exact q d : 0 < d -> round_half_even (q * d) d = q.
Proof.
  intros Hd. unfold round_half_even.
  rewrite Z.div_mul, Z.mod_mul by lia. cbv zeta.
  destruct (Z.ltb_spec (2 * 0) d); [reflexivity | lia].
Qed.

Lemma Qred_int a : Qred (a # 1) = a # 1.
Proof.
  unfold Qred.
  pose proof (Z.ggcd_gcd a 1) as Hg.
  pose proof (Z.ggcd_correct_divisors a 1) as Hd.
  destruct (Z.ggcd a 1) as [g [aa bb]]. simpl in Hg.
  rewrite Z.gcd_1_r in Hg. subst g. destruct Hd as [Ha Hb].
  assert (aa = a) as -> by lia. assert (bb = 1) as -> by lia. reflexivity.
Qed.

Lemma Qred_scaled a j : 0 <= j -> Qred ((a * 2 ^ j) # Z.to_pos (2 ^ j)) = a # 1.
Proof.
  intros Hj. rewrite <- (Qred_int a). apply Qred_complete.
  unfold Qeq. cbn [Qnum Qden]. rewrite Z2Pos.id by (apply Z.pow_pos_nonneg; lia).
  lia.
Qed.

(** An integer of at most 53 bits is a float. *)
Lemma binary64_int z : 0 <= z <= 2 ^ 53 -> binary64 z 1 = Some (z # 1).
Proof.
  intros [H0 H53]. unfold binary64.
  destruct (Z.eqb_spec z 0) as [->|Hz]; [reflexivity|].
  change (Z.log2 1) with 0. rewrite Z.sub_0_r.
  pose proof (Z.log2_spec z ltac:(lia)) as [Hlo Hhi].
  pose proof (Z.log2_nonneg z) as Ha.
  set (a := Z.log2 z) in *.
  assert (Ha53 : a <= 53).
  { destruct (Z_le_gt_dec a 53) as [?|Hgt]; [assumption|].
    assert (2 ^ 54 <= 2 ^ a) by (apply Z.pow_le_mono_r; lia).
    assert (2 ^ 53 < 2 ^ 54) by (apply Z.pow_lt_mono_r; lia). lia. }
  cbv zeta.
  rewrite (Z.max_l 0 (- a)), (Z.max_r 0 a) by lia.
  rewrite Z.pow_0_r, Z.mul_1_r, Z.mul_1_l.
  destruct (Z.ltb_spec z (2 ^ a)) as [?|_]; [lia|].
  rewrite (Z.max_l (a - 52) (- 1074)) by lia.
  assert (Hbig : 2 ^ 53 * 2 ^ 52 < 2 ^ 1024) by (vm_compute; reflexivity).
  destruct (Z_le_gt_dec a 52) as [Hle|Hgt].
  - rewrite (Z.max_r 0 (- (a - 52))), (Z.max_l 0 (a - 52)) by lia.
    rewrite Z.pow_0_r, Z.mul_1_l.
    assert (E : round_half_even (z * 2 ^ (- (a - 52))) 1 = z * 2 ^ (- (a - 52))).
    { pose proof (round_half_even_exact (z * 2 ^ (- (a - 52))) 1 ltac:(lia)) as E.
      by rewrite Z.mul_1_r in E. }
    rewrite E, Z.mul_1_r.
    assert (Hp : 2 ^ (- (a - 52)) <= 2 ^ 52) by (apply Z.pow_le_mono_r; lia).
    assert (Hp0 : 0 < 2 ^ (- (a - 52))) by (apply Z.pow_pos_nonneg; lia).
    destruct (Z.leb_spec (2 ^ 1024) (z * 2 ^ (- (a - 52)))) as [Hov|_]; [nia|].
    f_equal. apply Qred_scaled. lia.
  - assert (a = 53) as -> by lia. assert (z = 2 ^ 53) as -> by lia.
    vm_compute. reflexivity.
Qed.

Lemma decimal_float_int neg z :
  0 <= z <= 2 ^ 53 ->
  decimal_float neg z 0 = VFloat ((if neg then - z else z) # 1).
Proof.
  intros Hz. unfold decimal_float. cbn [Z.leb Z.compare].
  change (10 ^ 0) with 1. rewrite Z.mul_1_r, (binary64_int z Hz).
  destruct neg; [|reflexivity].
  change (- (z # 1))%Q with ((- z) # 1). by rewrite Qred_int.
Qed.

(** [float(x)] of an integer of at most 53 bits is that integer. *)
Lemma float_of_small_int z :
  Z.abs z <= 2 ^ 53 -> float_of_number (VInt z) = Ok (VFloat (z # 1)).
Proof.
  intros Hz. unfold float_of_number.
  assert (2 ^ 53 < float_overflow) by (vm_compute; reflexivity).
  destruct (Z.ltb_spec (Z.abs z) float_overflow); [|lia].
  rewrite decimal_float_int by lia. do 3 f_equal.
  destruct (Z.ltb_spec z 0); lia.
Qed.

(** *** Decimal numerals *)

Lemma chars_cons c s : chars (String c s) = c :: chars s.
Proof. reflexivity. Qed.

Lemma pretty_N_char_digit x :
  (x < 10)%N ->
  is_digit (pretty_N_char x) = true /\ digit_val (pretty_N_char x) = Z.of_N x.
Proof.
  intros H.
  assert (E : (x = 0 \/ x = 1 \/ x = 2 \/ x = 3 \/ x = 4 \/ x = 5 \/ x = 6
               \/ x = 7 \/ x = 8 \/ x = 9)%N) by lia.
  repeat (destruct E as [->|E]); try subst x; split; reflexivity.
Qed.

(** The digits [pretty] writes in front of [s] are read back as the number;
    the first of them is no zero. *)
Lemma span_digits_pretty_go (x : N) : forall s, exists k : nat,
  (x = 0%N -> k = 0%nat)
  /\ ((0 < x)%N -> (0 < k)%nat /\ 10 ^ (Z.of_nat k - 1) <= Z.of_N x)
  /\ forall acc n, span_digits acc n (chars (pretty_N_go x s))
                   = span_digits (acc * 10 ^ Z.of_nat k + Z.of_N x) (n + k)
                                 (chars s).
Proof.
  induction (N.lt_wf_0 x) as [x _ IH]. intros s.
  destruct (decide (0 < x)%N) as [Hx|Hx].
  - rewrite pretty_N_go_step by done.
    assert (Hlt : (x `div` 10 < x)%N) by (apply N.div_lt; lia).
    destruct (IH _ Hlt (String (pretty_N_char (x `mod` 10)) s))
      as (k & Hk00 & Hk0 & Hk).
    pose proof (N.div_mod x 10 ltac:(lia)) as Hdm.
    pose proof (N.mod_lt x 10 ltac:(lia)) as Hm.
    exists (S k). split; [lia|]. split.
    + intros _. split; [lia|].
      replace (Z.of_nat (S k) - 1) with (Z.of_nat k) by lia.
      destruct (decide (0 < x `div` 10)%N) as [Hq|Hq].
      * destruct (Hk0 Hq) as [Hkpos Hpow].
        set (q := (x `div` 10)%N) in *. set (r := (x `mod` 10)%N) in *.
        assert (E : 10 ^ Z.of_nat k = 10 * 10 ^ (Z.of_nat k - 1)).
        { rewrite <- Z.pow_succ_r by lia. f_equal. lia. }
        rewrite E. lia.
      * rewrite (Hk00 ltac:(lia)). simpl. lia.
    + intros acc n. rewrite Hk.
      rewrite chars_cons. cbn [span_digits].
      destruct (pretty_N_char_digit (x `mod` 10) Hm) as [Hd Hv].
      rewrite Hd, Hv.
      set (a := (x `div` 10)%N) in *. set (b := (x `mod` 10)%N) in *.
      replace (n + S k)%nat with (S (n + k)) by lia.
      f_equal.
      rewrite Nat2Z.inj_succ, Z.pow_succ_r by lia.
      set (p := 10 ^ Z.of_nat k). lia.
  - assert (x = 0%N) as -> by lia. exists 0%nat. split; [done|]. split; [lia|].
    intros acc n. rewrite pretty_N_go_0.
    replace (n + 0)%nat with n by lia.
    f_equal. simpl. lia.
Qed.

(** The numeral of [x] has a digit, and no more digits than [x] needs. *)
Lemma span_digits_pretty_N (x : N) :
  exists k, span_digits 0 0 (chars (pretty x)) = (Z.of_N x, S k, [])
            /\ forall b : Z, 0 <= b -> Z.of_N x < 10 ^ b -> Z.of_nat (S k) <= Z.max 1 b.
Proof.
  unfold pretty, pretty_N. destruct (decide (x = 0)%N) as [->|Hx].
  - exists 0%nat. split; [reflexivity|]. intros b Hb _. lia.
  - destruct (span_digits_pretty_go x "") as (k & _ & Hk & H). rewrite H.
    destruct (Hk ltac:(lia)) as [Hpos Hpow].
    destruct k as [|k]; [lia|]. exists k. split; [reflexivity|].
    intros b Hb Hlt.
    assert (Hkb : Z.of_nat (S k) - 1 < b).
    { apply (Z.pow_lt_mono_r_iff 10); lia. }
    lia.
Qed.

(** A list that [span_digits] reads to its end holds digits only. *)
Lemma span_digits_all l : forall acc n v m,
  span_digits acc n l = (v, m, []) -> Forall (fun c => is_digit c = true) l.
Proof.
  induction l as [|c l IH]; intros acc n v m H; [constructor|].
  cbn [span_digits] in H. destruct (is_digit c) eqn:E; [|discriminate].
  constructor; [assumption | eapply IH, H].
Qed.

(** What a digit is not. *)
Lemma digit_plain c :
  is_digit c = true ->
  (byte c <? 128) = true /\ is_c_space c = false /\ Ascii.eqb c "_" = false
  /\ Ascii.eqb c "-" = false /\ Ascii.eqb c "+" = false /\ lower c = c
  /\ Ascii.eqb c "i" = false /\ Ascii.eqb c "n" = false.
Proof.
  destruct c as [[] [] [] [] [] [] [] []]; intros H; vm_compute in H;
    try discriminate H; vm_compute; repeat split.
Qed.

(** A text of ASCII characters is its own characters, one byte each, and
    [float] and [int] read it as it is. *)
Lemma to_ascii_plain l :
  Forall (fun c => (byte c <? 128) = true) l -> to_ascii (utf8_chars l) = l.
Proof.
  induction l as [|c l IH]; intros H; [reflexivity|].
  apply Forall_cons in H as [Hc Hl]. cbn [utf8_chars].
  assert (Hs : seq_len c = 1%nat).
  { unfold seq_len. cbv zeta. apply Z.ltb_lt in Hc.
    destruct (Z.ltb_spec (byte c) 192); [reflexivity | lia]. }
  rewrite Hs. cbn [to_ascii]. unfold codepoint. rewrite Hc. cbv zeta. rewrite Hc.
  cbn [app]. by rewrite (IH Hl).
Qed.

Lemma c_lstrip_plain l :
  match l with c :: _ => is_c_space c = false | [] => True end -> c_lstrip l = l.
Proof. destruct l as [|c l]; [reflexivity|]. simpl. by intros ->. Qed.

Lemma drop_underscores_plain l : forall prev,
  match prev with Some p => Ascii.eqb p "_" = false | None => True end ->
  Forall (fun c => Ascii.eqb c "_" = false) l ->
  drop_underscores prev l = Some l.
Proof.
  induction l as [|c l IH]; intros prev Hp Hl.
  - simpl. destruct prev as [p|]; [by rewrite Hp | reflexivity].
  - apply Forall_cons in Hl as [Hc Hl]. cbn [drop_underscores]. rewrite Hc.
    destruct prev as [p|].
    + rewrite Hp. cbn [andb]. by rewrite (IH (Some c) Hc Hl).
    + by rewrite (IH (Some c) Hc Hl).
Qed.

(** The characters of the numeral of an integer: an optional minus sign and
    digits that read back as its absolute value. *)
Lemma numeral_chars z :
  exists ds k,
    chars (pretty z) = (if z <? 0 then ["-"%char] else []) ++ ds
    /\ span_digits 0 0 ds = (Z.abs z, S k, [])
    /\ forall b : Z, 0 <= b -> Z.abs z < 10 ^ b -> Z.of_nat (S k) <= Z.max 1 b.
Proof.
  destruct z as [|p|p].
  - exists ["0"%char], 0%nat. split; [reflexivity|]. split; [reflexivity|]. lia.
  - destruct (span_digits_pretty_N (Npos p)) as (k & Hk & Hb).
    exists (chars (pretty (Npos p))), k. split; [reflexivity|]. split; [exact Hk|].
    exact Hb.
  - destruct (span_digits_pretty_N (Npos p)) as (k & Hk & Hb).
    exists (chars (pretty (Npos p))), k. split; [|split; [exact Hk | exact Hb]].
    change (pretty (Z.neg p)) with ("-" +:+ pretty (Npos p)).
    change ("-" +:+ pretty (Npos p)) with (String "-" (pretty (Npos p))).
    reflexivity.
Qed.

(** [float] and [int] read the numeral of an integer as its sign and its
    digits. *)
Lemma numeral_pretty z ds k :
  chars (pretty z) = (if z <? 0 then ["-"%char] else []) ++ ds ->
  span_digits 0 0 ds = (Z.abs z, S k, []) ->
  numeral (pretty z) = Some ((if z <? 0 then ["-"%char] else []) ++ ds)
  /\ take_sign ((if z <? 0 then ["-"%char] else []) ++ ds) = (z <? 0, ds)
  /\ exists c ds', ds = c :: ds' /\ is_digit c = true.
Proof.
  intros Hc Hs.
  pose proof (span_digits_all _ _ _ _ _ Hs) as Hd.
  destruct ds as [|c ds']; [discriminate|].
  pose proof Hd as Hd'. apply Forall_cons in Hd' as [Hcd _].
  set (l := (if z <? 0 then ["-"%char] else []) ++ c :: ds') in *.
  assert (Hall : Forall (fun c => (byte c <? 128) = true /\ Ascii.eqb c "_" = false
                                  /\ is_c_space c = false) l).
  { unfold l. apply Forall_app. split.
    - destruct (z <? 0); repeat constructor.
    - eapply Forall_impl; [exact Hd|]. intros a Ha. apply digit_plain in Ha. tauto. }
  split; [|split].
  - unfold numeral. rewrite Hc. fold l.
    rewrite to_ascii_plain by (eapply Forall_impl; [exact Hall|]; simpl; tauto).
    rewrite drop_underscores_plain;
      [|exact I|eapply Forall_impl; [exact Hall|]; simpl; tauto].
    cbn [option_map]. f_equal. unfold c_strip.
    assert (Hends : forall l', Forall (fun c => is_c_space c = false) l' ->
                               c_lstrip l' = l').
    { intros l' Hl'. apply c_lstrip_plain. destruct l'; [exact I|].
      by apply Forall_cons in Hl' as [? _]. }
    assert (Hsp : Forall (fun c => is_c_space c = false) l)
      by (eapply Forall_impl; [exact Hall|]; simpl; tauto).
    rewrite (Hends l Hsp), (Hends (rev l)); [apply rev_involutive|].
    by apply List.Forall_rev.
  - unfold l. destruct (z <? 0); [reflexivity|]. simpl.
    apply digit_plain in Hcd. destruct Hcd as (_ & _ & _ & Hm & Hp & _).
    by rewrite Hm, Hp.
  - eauto.
Qed.

(** [int] reads the numeral of an integer as that integer, up to 4300
    digits. *)
Lemma py_int_pretty z : Z.abs z < 10 ^ 4300 -> py_int (pretty z) = Ok z.
Proof.
  intros Hz. destruct (numeral_chars z) as (ds & k & Hc & Hs & Hb).
  destruct (numeral_pretty z ds k Hc Hs) as (Hn & Ht & _).
  unfold py_int. cbv zeta. rewrite Hn, Ht. cbv beta iota. rewrite Hs.
  specialize (Hb 4300 ltac:(lia) Hz). unfold max_str_digits.
  destruct (Z.ltb_spec 4300 (Z.of_nat (S k))); [lia|].
  f_equal. destruct (Z.ltb_spec z 0); lia.
Qed.

(** [float] reads the numeral of an integer of at most 53 bits as that
    integer. *)
Lemma py_float_pretty z :
  Z.abs z <= 2 ^ 53 -> py_float (pretty z) = Some (VFloat (z # 1)).
Proof.
  intros Hz. destruct (numeral_chars z) as (ds & k & Hc & Hs & _).
  destruct (numeral_pretty z ds k Hc Hs) as (Hn & Ht & c & ds' & -> & Hcd).
  unfold py_float. rewrite Hn, Ht. cbv beta iota zeta.
  apply digit_plain in Hcd as (_ & _ & _ & _ & _ & Hlow & Hi & Hnn).
  cbn [List.map]. rewrite Hlow.
  change (text (c :: List.map lower ds')) with (String c (text (List.map lower ds'))).
  cbn [String.eqb]. rewrite Hi, Hnn. cbn [andb orb].
  unfold parse_decimal. rewrite Hs.
  cbn [Nat.add parse_exponent].
  change (0 - Z.of_nat 0) with 0.
  rewrite decimal_float_int by lia. do 3 f_equal.
  destruct (Z.ltb_spec z 0); lia.
Qed.



(** ** The run: file system, messages and exit code *)

Lemma io_bind_unfold {A B} (m : io A) (f : A -> io B) w :
  (m ≫= f) w = match m w with
               | (w', Ok a) => f a w'
               | (w', Raise e) => (w', Raise e)
               end.
Proof. reflexivity. Qed.

Lemma makedirs_spec d w w1 r :
  makedirs d w = (w1, r) ->
  stderr w1 = stderr w /\ files w1 = files w
  /\ write_refused w1 = write_refused w
  /\ (forall e, r = Raise e -> w1 = w).
Proof.
  unfold makedirs. destruct (mkdir_refused w).
  - intros H. injection H as <- <-. auto.
  - destruct (String.eqb d ""); [intros H; injection H as <- <-; auto|].
    destruct (List.find _ _); intros H; injection H as <- <-; simpl; auto.
    repeat split; auto. discriminate.
Qed.

(** The three ways [main] can go: the directory cannot be made; the table
    cannot be built; or the table is built and the file is written, fully
    or in part. *)
Lemma main_cases lib cfg today stock w :
  let path := path_join (OUTPUT_DIR cfg) (OUTFILE cfg) in
  let '(w', r) := main lib cfg today stock w in
  stderr w' = stderr w
  /\ ((exists e, fst (makedirs (OUTPUT_DIR cfg) w) = w /\
                 snd (makedirs (OUTPUT_DIR cfg) w) = Raise e
                 /\ r = Raise e /\ files w' = files w)
      \/ (exists e, snd (makedirs (OUTPUT_DIR cfg) w) = Ok tt
                    /\ build_table lib cfg today stock = Raise e
                    /\ r = Raise e /\ files w' = files w)
      \/ (exists out, snd (makedirs (OUTPUT_DIR cfg) w) = Ok tt
                      /\ build_table lib cfg today stock = Ok out
                      /\ match write_refused w with
                         | None => files w' = <[path := to_csv_text lib out]> (files w)
                         | Some (e, None) => r = Raise e /\ files w' = files w
                         | Some (e, Some part) =>
                             r = Raise e /\ files w' = <[path := part]> (files w)
                         end)).
Proof.
  unfold main. rewrite io_bind_unfold.
  destruct (makedirs (OUTPUT_DIR cfg) w) as [w1 [[]|e]] eqn:Emk;
    destruct (makedirs_spec _ _ _ _ Emk) as (Herr & Hfiles & Hwr & Hsame); simpl.
  2:{ split; [assumption|]. left. exists e. rewrite (Hsame e eq_refl). auto. }
  rewrite io_bind_unfold. unfold lift at 1.
  destruct (build_table lib cfg today stock) as [out|e] eqn:Eb.
  2:{ split; [assumption|]. right. left. exists e. auto. }
  rewrite io_bind_unfold. unfold write_file. rewrite Hwr.
  destruct (write_refused w) as [[e [part|]]|] eqn:Ew.
  - simpl. split; [assumption|]. right. right. exists out.
    rewrite Hfiles. auto.
  - split; [assumption|]. right. right. exists out. auto.
  - unfold mbind, io_bind, print, lift. cbn.
    destruct (position "일자" (columns out)) as [i|e].
    2:{ simpl. split; [assumption|]. right. right. exists out.
        rewrite Hfiles. auto. }
    destruct (series_min lib (keys i (rows out))) as [lo|e].
    2:{ simpl. split; [assumption|]. right. right. exists out.
        rewrite Hfiles. auto. }
    destruct (series_max lib (keys i (rows out))) as [hi|e].
    2:{ simpl. split; [assumption|]. right. right. exists out.
        rewrite Hfiles. auto. }
    unfold print. simpl. split; [assumption|]. right. right. exists out.
    rewrite Hfiles. auto.
Qed.

Lemma main_stderr lib cfg today stock w :
  stderr (fst (main lib cfg today stock w)) = stderr w.
Proof.
  pose proof (main_cases lib cfg today stock w) as H. simpl in H.
  destruct (main lib cfg today stock w) as [w' r]. by destruct H.
Qed.

Lemma main_build_raises lib cfg today stock w e :
  snd (makedirs (OUTPUT_DIR cfg) w) = Ok tt ->
  build_table lib cfg today stock = Raise e ->
  snd (main lib cfg today stock w) = Raise e
  /\ files (fst (main lib cfg today stock w)) = files w.
Proof.
  intros Hmk Hb. pose proof (main_cases lib cfg today stock w) as H. simpl in H.
  destruct (main lib cfg today stock w) as [w' r]. simpl.
  destruct H as (_ & [(e' & _ & He' & _)|[(e' & _ & He' & -> & Hf)|(out & _ & Ho & _)]]);
    try congruence.
  split; [congruence | assumption].
Qed.

Lemma main_write_refused lib cfg today stock w out e part :
  snd (makedirs (OUTPUT_DIR cfg) w) = Ok tt ->
  build_table lib cfg today stock = Ok out ->
  write_refused w = Some (e, part) ->
  snd (main lib cfg today stock w) = Raise e.
Proof.
  intros Hmk Hb Hw. pose proof (main_cases lib cfg today stock w) as H. simpl in H.
  destruct (main lib cfg today stock w) as [w' r]. simpl.
  destruct H as (_ & [(e' & _ & He' & _)|[(e' & _ & He' & _)|(out' & _ & Ho & H)]]);
    try congruence.
  rewrite Hw in H. destruct part; tauto.
Qed.

Lemma script_exit lib cfg today stock w :
  match snd (main lib cfg today stock w) with
  | Ok _ => script lib cfg today stock w = (fst (main lib cfg today stock w), 0)
  | Raise e =>
      script lib cfg today stock w
      = (eprint ("[ERROR] " +:+ exn_str e) (fst (main lib cfg today stock w)), 1)
  end.
Proof.
  unfold script. by destruct (main lib cfg today stock w) as [w' [u|e]].
Qed.

Lemma fetch_raises_build lib cfg today stock s e ex :
  _yyyymmdd_range today (LOOKBACK_DAYS cfg) = Ok (s, e) ->
  get_market_ohlcv stock s e (TICKER cfg) = Raise ex
  \/ get_shorting_volume_by_date stock s e (TICKER cfg) = Raise ex
  \/ get_shorting_balance_by_date stock s e (TICKER cfg) = Raise ex ->
  exists e', build_table lib cfg today stock = Raise e'.
Proof.
  intros Hr Hf.
  destruct (build_table lib cfg today stock) as [out|e'] eqn:Eb; [|eauto].
  apply build_table_Ok in Eb
    as (s' & e1 & o1 & o2 & o3 & P & SV & SB & Hr' & H1 & _ & H2 & _ & H3 & _).
  rewrite Hr in Hr'. injection Hr' as <- <-.
  destruct Hf as [Hf|[Hf|Hf]]; congruence.
Qed.

Lemma script_code lib cfg today stock w :
  snd (script lib cfg today stock w) = 0 \/ snd (script lib cfg today stock w) = 1.
Proof.
  pose proof (script_exit lib cfg today stock w) as Hs.
  destruct (snd (main lib cfg today stock w)); rewrite Hs; simpl; auto.
Qed.




(** C7. The output file is written after everything else, so a run that
    fails before (the directory cannot be made, a fetch raises, a table
    cannot be normalised or joined) ends with exit code 1 and leaves every
    file as it was; the files change only when the table was built, and then
    only the output file. *)
Theorem write_is_last lib cfg today stock w :
  (forall e, build_table lib cfg today stock = Raise e ->
     files (fst (script lib cfg today stock w)) = files w
     /\ snd (script lib cfg today stock w) = 1)
  /\ (forall e, snd (makedirs (OUTPUT_DIR cfg) w) = Raise e ->
        files (fst (script lib cfg today stock w)) = files w
        /\ snd (script lib cfg today stock w) = 1)
  /\ (forall s e ex,
        _yyyymmdd_range today (LOOKBACK_DAYS cfg) = Ok (s, e) ->
        get_market_ohlcv stock s e (TICKER cfg) = Raise ex
        \/ get_shorting_volume_by_date stock s e (TICKER cfg) = Raise ex
        \/ get_shorting_balance_by_date stock s e (TICKER cfg) = Raise ex ->
        files (fst (script lib cfg today stock w)) = files w
        /\ snd (script lib cfg today stock w) = 1)
  /\ (files (fst (script lib cfg today stock w)) = files w
      \/ exists out content,
           build_table lib cfg today stock = Ok out
           /\ files (fst (script lib cfg today stock w))
              = <[path_join (OUTPUT_DIR cfg) (OUTFILE cfg) := content]> (files w)).
Proof.
  pose proof (script_exit lib cfg today stock w) as Hs.
  pose proof (main_cases lib cfg today stock w) as Hm. simpl in Hm.
  destruct (main lib cfg today stock w) as [w' r]. simpl in Hs.
  destruct Hm as (_ & Hm).
  assert (Hfiles : files (fst (script lib cfg today stock w)) = files w').
  { destruct r; rewrite Hs; reflexivity. }
  assert (Hbuild : forall e, build_table lib cfg today stock = Raise e ->
            files (fst (script lib cfg today stock w)) = files w
            /\ snd (script lib cfg today stock w) = 1).
  { intros e He. rewrite Hfiles.
    destruct Hm as [(e' & _ & _ & -> & Hf)|[(e' & _ & _ & -> & Hf)|(out & _ & Ho & _)]];
      try congruence; rewrite Hs; auto. }
  split; [exact Hbuild|split; [|split]].
  - intros e He. rewrite Hfiles.
    destruct Hm as [(e' & _ & _ & -> & Hf)|[(e' & Hk & _)|(out & Hk & _)]];
      try congruence. rewrite Hs. auto.
  - intros s e ex Hr Hf.
    destruct (fetch_raises_build lib cfg today stock s e ex Hr Hf) as [e' He'].
    by apply (Hbuild e').
  - rewrite Hfiles.
    destruct Hm as [(e' & _ & _ & _ & Hf)|[(e' & _ & _ & _ & Hf)|(out & _ & Ho & Hw)]];
      [by left|by left|].
    destruct (write_refused w) as [[e [part|]]|].
    + right. exists out, part. tauto.
    + left. tauto.
    + right. exists out, (to_csv_text lib out). tauto.
Qed.

Lemma build_raises_exit lib cfg today stock w e :
  build_table lib cfg today stock = Raise e ->
  snd (script lib cfg today stock w) = 1.
Proof.
  intros He. pose proof (script_exit lib cfg today stock w) as Hs.
  pose proof (main_cases lib cfg today stock w) as Hm. simpl in Hm.
  destruct (main lib cfg today stock w) as [w' r]. simpl in Hs.
  destruct Hm as (_ & [(e' & _ & _ & -> & _)|[(e' & _ & _ & -> & _)|(out & _ & Ho & _)]]);
    try congruence; by rewrite Hs.
Qed.

(** ** The columns of a short-sale table *)

Lemma date_column_present cols :
  cols <> [] -> date_column cols ∈ cols.
Proof.
  intros Hne. unfold date_column. destruct (has_col "날짜" cols) eqn:E.
  - by apply has_col_true.
  - destruct cols; [congruence|]. left.
Qed.

Lemma reset_named_index_columns df F0 :
  reset_named_index df = Ok F0 -> empty df = false -> columns F0 <> [].
Proof.
  unfold reset_named_index, reset_index, empty.
  destruct (index_name df) as [name|].
  - destruct (has_col name (df_columns df)); [discriminate|].
    intros H _. by injection H as <-.
  - intros H. injection H as <-. simpl. by destruct (df_columns df).
Qed.

Lemma select_three_missing a b c F :
  a ∈ columns F -> b ∉ columns F \/ c ∉ columns F ->
  exists key, (key = b \/ key = c) /\ select [a; b; c] F = Raise (KeyError key).
Proof.
  intros Ha Hm. unfold select. cbn [mapM].
  destruct (positions a 0 (columns F)) as [|ia la] eqn:Ea.
  { apply (positions_nil _ 0) in Ea. contradiction. }
  cbn [mbind result_bind].
  destruct (positions b 0 (columns F)) as [|ib lb] eqn:Eb.
  { exists b. split; [by left | reflexivity]. }
  destruct Hm as [Hb|Hc].
  { apply (positions_nil _ 0) in Hb. congruence. }
  apply (positions_nil _ 0) in Hc. rewrite Hc.
  exists c. split; [by right | reflexivity].
Qed.

(** A non-empty short-sale table without the quantity column or without
    the ratio column makes the normalisation raise a [KeyError]. *)
Lemma normalize_short_missing lib qty ratio df F0 :
  empty df = false ->
  reset_named_index df = Ok F0 ->
  qty ∉ List.map strip (columns F0) \/ "비중" ∉ List.map strip (columns F0) ->
  exists key, (key = qty \/ key = "비중")
              /\ normalize_short lib qty ratio (PyFrame df) = Raise (KeyError key).
Proof.
  intros He Hr Hmiss. unfold normalize_short. rewrite He.
  unfold select_short. rewrite Hr. cbn [mbind result_bind]. cbv zeta.
  change (columns (rename strip F0)) with (List.map strip (columns F0)).
  set (cols := List.map strip (columns F0)) in *.
  assert (Hne : cols <> []).
  { unfold cols. intros Hnil. apply map_eq_nil in Hnil.
    by apply (reset_named_index_columns df F0). }
  assert (Hdc : (if has_col "날짜" cols then Ok "날짜"
                 else match cols with
                      | c :: _ => Ok c
                      | [] => Raise (OtherError "IndexError" "index 0 is out of bounds")
                      end) = Ok (date_column cols)).
  { unfold date_column. destruct (has_col "날짜" cols); [reflexivity|].
    destruct cols; [congruence | reflexivity]. }
  rewrite Hdc. cbn [mbind result_bind].
  destruct (select_three_missing (date_column cols) qty "비중" (rename strip F0))
    as (key & Hkey & Hsel).
  { by apply date_column_present. }
  { exact Hmiss. }
  rewrite Hsel. exists key. split; [exact Hkey | reflexivity].
Qed.

(** The three columns are found: the selection is the table of their
    cells. *)
Lemma select_short_found qty ratio df F0 id iq ir :
  reset_named_index df = Ok F0 ->
  position (date_column (List.map strip (columns F0)))
           (List.map strip (columns F0)) = Ok id ->
  position qty (List.map strip (columns F0)) = Ok iq ->
  position "비중" (List.map strip (columns F0)) = Ok ir ->
  select_short qty ratio df
  = Ok (MkFrame ["일자"; qty; ratio]
          (List.map (fun r => [cell id r; cell iq r; cell ir r]) (rows F0))).
Proof.
  intros Hr Hd Hq Hrt. unfold select_short. rewrite Hr.
  cbn [mbind result_bind]. cbv zeta.
  change (columns (rename strip F0)) with (List.map strip (columns F0)).
  set (cols := List.map strip (columns F0)) in *.
  assert (Hdc : (if has_col "날짜" cols then Ok "날짜"
                 else match cols with
                      | c :: _ => Ok c
                      | [] => Raise (OtherError "IndexError" "index 0 is out of bounds")
                      end) = Ok (date_column cols)).
  { unfold date_column. destruct (has_col "날짜" cols); [reflexivity|].
    destruct cols; [discriminate | reflexivity]. }
  rewrite Hdc. cbn [mbind result_bind].
  set (dc := date_column cols) in *.
  set (pos := fun c : string =>
                if String.eqb c dc then id
                else if String.eqb c qty then iq else ir).
  assert (Hpos : forall c, c ∈ [dc; qty; "비중"] ->
                           position c (columns (rename strip F0)) = Ok (pos c)).
  { intros c Hc. change (columns (rename strip F0)) with cols. unfold pos.
    destruct (String.eqb_spec c dc) as [->|Hn1]; [exact Hd|].
    destruct (String.eqb_spec c qty) as [->|Hn2]; [exact Hq|].
    repeat (apply elem_of_cons in Hc as [Hc|Hc]; [congruence|]).
    by apply elem_of_nil in Hc. }
  rewrite (select_unique _ _ pos Hpos). cbn [mbind result_bind].
  unfold set_columns. cbn [columns rows length Nat.eqb].
  do 2 f_equal. apply List.map_ext. intros r. cbn [List.map].
  assert (E1 : pos dc = id) by (unfold pos; by rewrite String.eqb_refl).
  assert (E2 : pos qty = iq).
  { unfold pos. destruct (String.eqb_spec qty dc) as [E|_].
    - rewrite E in Hq. congruence.
    - by rewrite String.eqb_refl. }
  assert (E3 : pos "비중" = ir).
  { unfold pos. destruct (String.eqb_spec "비중" dc) as [E|_].
    - rewrite <- E in Hd. congruence.
    - destruct (String.eqb_spec "비중" qty) as [E|_]; [|reflexivity].
      rewrite <- E in Hq. congruence. }
  by rewrite E1, E2, E3.
Qed.

(** C10. For a non-empty short-sale table the date column is the column
    named [날짜], or else the first column (which is the index when the index
    is named); the labels are compared after [strip], which removes the white
    space of Unicode around them.  When that column and the columns named by
    the quantity ([공매도] or [공매도잔고]) and [비중] are there, each once,
    exactly these three are kept, in this order, under the names [일자],
    quantity and ratio, and nothing else is selected.  A non-empty table
    that lacks the quantity or the ratio column is not taken for an empty
    one: the normalisation raises a [KeyError] and the run ends with exit
    code 1. *)
Theorem short_columns_selected lib qty ratio df :
  (forall c cols, "날짜" ∉ c :: cols -> date_column (c :: cols) = c)
  /\ (forall cols, "날짜" ∈ cols -> date_column cols = "날짜")
  /\ (forall F0 id iq ir,
        reset_named_index df = Ok F0 ->
        position (date_column (List.map strip (columns F0)))
                 (List.map strip (columns F0)) = Ok id ->
        position qty (List.map strip (columns F0)) = Ok iq ->
        position "비중" (List.map strip (columns F0)) = Ok ir ->
        select_short qty ratio df
        = Ok (MkFrame ["일자"; qty; ratio]
                (List.map (fun r => [cell id r; cell iq r; cell ir r]) (rows F0))))
  /\ (forall G, select_short qty ratio df = Ok G ->
        exists F0 id iq ir,
          reset_named_index df = Ok F0
          /\ position (date_column (List.map strip (columns F0)))
                      (List.map strip (columns F0)) = Ok id
          /\ position qty (List.map strip (columns F0)) = Ok iq
          /\ position "비중" (List.map strip (columns F0)) = Ok ir
          /\ G = MkFrame ["일자"; qty; ratio]
                   (List.map (fun r => [cell id r; cell iq r; cell ir r]) (rows F0)))
  /\ (strip (" 공매도" +:+ IDEOGRAPHIC_SPACE) = "공매도"
      /\ strip (NBSP +:+ "비중 ") = "비중"
      /\ normalize_short Fixtures.lib "공매도" "공매도비중" (PyFrame volume_padded)
         = Ok (MkFrame ["일자"; "공매도"; "공매도비중"]
                 [[VStr "2026-11-03"; VFloat (5 # 1); VFloat (1 # 4)]]))
  /\ (forall F0,
        empty df = false -> reset_named_index df = Ok F0 ->
        qty ∉ List.map strip (columns F0) \/ "비중" ∉ List.map strip (columns F0) ->
        exists key, normalize_short lib qty ratio (PyFrame df) = Raise (KeyError key))
  /\ (forall cfg today stock w s e F0,
        qty = "공매도" -> ratio = "공매도비중" ->
        _yyyymmdd_range today (LOOKBACK_DAYS cfg) = Ok (s, e) ->
        get_shorting_volume_by_date stock s e (TICKER cfg) = Ok (PyFrame df) ->
        empty df = false -> reset_named_index df = Ok F0 ->
        qty ∉ List.map strip (columns F0) \/ "비중" ∉ List.map strip (columns F0) ->
        snd (script lib cfg today stock w) = 1)
  /\ (forall cfg today stock w s e F0,
        qty = "공매도잔고" -> ratio = "공매도잔고비중" ->
        _yyyymmdd_range today (LOOKBACK_DAYS cfg) = Ok (s, e) ->
        get_shorting_balance_by_date stock s e (TICKER cfg) = Ok (PyFrame df) ->
        empty df = false -> reset_named_index df = Ok F0 ->
        qty ∉ List.map strip (columns F0) \/ "비중" ∉ List.map strip (columns F0) ->
        snd (script lib cfg today stock w) = 1).
Proof.
  split; [|split; [|split; [|split; [|split; [|split; [|split]]]]]].
  - intros c cols Hn. unfold date_column.
    apply has_col_false in Hn. by rewrite Hn.
  - intros cols Hin. unfold date_column.
    apply has_col_true in Hin. by rewrite Hin.
  - intros F0 id iq ir. apply select_short_found.
  - intros G HG. by apply select_short_Ok.
  - repeat split; vm_compute; reflexivity.
  - intros F0 He Hr Hm.
    destruct (normalize_short_missing lib qty ratio df F0 He Hr Hm) as (k & _ & Hk).
    eauto.
  - intros cfg today stock w s e F0 -> -> Hrange Hget He Hr Hm.
    destruct (normalize_short_missing lib _ "공매도비중" df F0 He Hr Hm) as (k & _ & Hk).
    destruct (build_table lib cfg today stock) as [out|e'] eqn:Eb;
      [|by eapply build_raises_exit].
    apply build_table_Ok in Eb
      as (s' & e1 & o1 & o2 & o3 & P & SV & SB & Hr' & _ & _ & H2 & HSV & _).
    rewrite Hrange in Hr'. injection Hr' as <- <-. congruence.
  - intros cfg today stock w s e F0 -> -> Hrange Hget He Hr Hm.
    destruct (normalize_short_missing lib _ "공매도잔고비중" df F0 He Hr Hm) as (k & _ & Hk).
    destruct (build_table lib cfg today stock) as [out|e'] eqn:Eb;
      [|by eapply build_raises_exit].
    apply build_table_Ok in Eb
      as (s' & e1 & o1 & o2 & o3 & P & SV & SB & Hr' & _ & _ & _ & _ & H3 & HSB & _).
    rewrite Hrange in Hr'. injection Hr' as <- <-. congruence.
Qed.

Lemma short_columns_selected_witness :
  select_short "공매도" "공매도비중" (short_volume volume_rows)
  = Ok (MkFrame ["일자"; "공매도"; "공매도비중"]
          [[VTimestamp D2; VInt 5; VStr "0.25"];
           [VTimestamp (Date 2026 10 30); VInt 8; VStr "0.5"]])
  /\ snd (script lib cfg today stock_no_qty world0) = 1.
Proof.
  destruct (short_columns_selected lib "공매도" "공매도비중" (short_volume volume_rows))
    as (_ & _ & Hsel & _).
  destruct (short_columns_selected lib "공매도" "공매도비중" volume_no_qty)
    as (_ & _ & _ & _ & _ & _ & H & _).
  split.
  - apply (Hsel (MkFrame ["날짜"; "공매도"; "매수"; "비중"]
                   [[VTimestamp D2; VInt 5; VInt 7; VStr "0.25"];
                    [VTimestamp (Date 2026 10 30); VInt 8; VInt 1; VStr "0.5"]])
                0%nat 1%nat 3%nat); reflexivity.
  - apply (H cfg today stock_no_qty world0 "20250930" "20261104" volume_no_qty_reset);
      try reflexivity.
    left. apply has_col_false. vm_compute. reflexivity.
Defined.

(** ** Dates of the short-sale tables *)

Lemma filter_dates_omap lib rs ks :
  mapM (date_text lib) (keys 0 rs) = Ok ks ->
  List.filter (fun v => negb (isna v)) ks = omap (kept_date lib) rs.
Proof.
  revert ks. induction rs as [|r rs IH]; intros ks H; simpl in H.
  - by injection H as <-.
  - inv_ok. subst ks. apply date_text_Ok in Hx as (d & Hd & ->).
    cbn [omap list_omap]. unfold kept_date at 1. rewrite Hd.
    destruct d as [d|]; simpl; by rewrite (IH _ Hx0).
Qed.

Lemma apply_col_total g c F i :
  position c (columns F) = Ok i ->
  Forall (fun v => is_ok (g v) = true) (keys i (rows F)) ->
  exists F', apply_col c g F = Ok F'.
Proof.
  intros Hi Hall. unfold apply_col. rewrite Hi. cbn [mbind result_bind].
  assert (H : exists rs, mapM (fun r => v ← g (cell i r); Ok (<[i := v]> r)) (rows F)
                         = Ok rs).
  { induction (rows F) as [|r rs IH]; [by eexists|].
    simpl in Hall. apply Forall_cons in Hall as [Hr Hrs].
    destruct (IH Hrs) as [rs' Hrs']. cbn [mapM].
    destruct (g (cell i r)) as [v|e]; [|discriminate].
    cbn [mbind result_bind]. rewrite Hrs'. by eexists. }
  destruct H as [rs ->]. by eexists.
Qed.

(** The normalisation of a short-sale table succeeds when every date
    converts (a missing date does) and every number converts. *)
Lemma normalize_short_total lib qty ratio df G :
  qty <> "일자" -> ratio <> "일자" -> qty <> ratio ->
  empty df = false ->
  select_short qty ratio df = Ok G ->
  Forall (fun v => is_ok (to_datetime lib v) = true) (keys 0 (rows G)) ->
  Forall (fun v => is_ok (_to_num v) = true) (keys 1 (rows G)) ->
  Forall (fun v => is_ok (_to_num v) = true) (keys 2 (rows G)) ->
  exists S, normalize_short lib qty ratio (PyFrame df) = Ok S.
Proof.
  intros Hq Hr Hqr He HG Hd H1 H2.
  destruct (select_short_shape _ _ _ _ HG) as (Hc & _).
  pose proof (position_date_first qty ratio Hq Hr) as P0.
  assert (P1 : position qty ["일자"; qty; ratio] = Ok 1%nat).
  { apply (position_middle qty ["일자"] [ratio]).
    - intros H. apply list_elem_of_singleton in H. congruence.
    - intros H. apply list_elem_of_singleton in H. congruence. }
  assert (P2 : position ratio ["일자"; qty; ratio] = Ok 2%nat).
  { apply (position_middle ratio ["일자"; qty] []).
    - intros H. repeat (apply elem_of_cons in H as [H|H]; [congruence|]).
      by apply elem_of_nil in H.
    - apply not_elem_of_nil. }
  unfold normalize_short. rewrite He, HG. cbn [mbind result_bind].
  destruct (apply_col_total (date_text lib) "일자" G 0) as [F1 HF1].
  { by rewrite Hc. }
  { eapply Forall_impl; [exact Hd|]. intros v. simpl. unfold date_text.
    destruct (to_datetime lib v); simpl; [intros _; reflexivity | discriminate]. }
  rewrite HF1. cbn [mbind result_bind].
  apply apply_col_Ok in HF1 as (i & Hi & Hc1 & _ & Hk1 & _); [|apply date_text_nan].
  rewrite Hc, P0 in Hi. injection Hi as <-.
  rewrite Hc in Hc1.
  cbn [_normalize_numeric]. rewrite Hc1.
  assert (Hh : forall c, c ∈ ["일자"; qty; ratio] ->
                         has_col c ["일자"; qty; ratio] = true).
  { intros c Hin. by apply has_col_true. }
  rewrite (Hh qty) by (right; left).
  destruct (apply_col_total _to_num qty F1 1) as [F2 HF2].
  { by rewrite Hc1. }
  { by rewrite (Hk1 1%nat). }
  rewrite HF2. cbn [mbind result_bind].
  apply apply_col_Ok in HF2 as (i & Hi & Hc2 & _ & Hk2 & _); [|apply to_num_nan].
  rewrite Hc1, P1 in Hi. injection Hi as <-. rewrite Hc1 in Hc2.
  rewrite Hc2, (Hh ratio) by (right; right; left).
  destruct (apply_col_total _to_num ratio F2 2) as [F3 HF3].
  { by rewrite Hc2. }
  { by rewrite (Hk2 2%nat), (Hk1 2%nat). }
  rewrite HF3. cbn [mbind result_bind].
  apply apply_col_Ok in HF3 as (i & Hi & Hc3 & _); [|apply to_num_nan].
  unfold dropna. rewrite Hc3, Hc2, P0. by eexists.
Qed.

Lemma normalize_short_frame lib qty ratio df S :
  qty <> "일자" -> ratio <> "일자" -> empty df = false ->
  normalize_short lib qty ratio (PyFrame df) = Ok S ->
  exists G ks,
    select_short qty ratio df = Ok G
    /\ mapM (date_text lib) (keys 0 (rows G)) = Ok ks
    /\ dates S = List.filter (fun v => negb (isna v)) ks.
Proof.
  intros Hq Hr He H.
  apply normalize_short_shape in H as (_ & _ & [[_ Hemp]|H]); try assumption.
  - specialize (Hemp df eq_refl). congruence.
  - destruct H as (df' & G & ks & Hdf & _ & HG & Hks & Hd).
    injection Hdf as <-. eauto.
Qed.

Lemma mapM_elem {A B} (f : A -> result B) l ks x :
  mapM f l = Ok ks -> x ∈ l -> exists y, f x = Ok y /\ y ∈ ks.
Proof.
  intros H Hx. apply mapM_Ok in H.
  induction H as [|a b l ks Hab _ IH]; [by apply elem_of_nil in Hx|].
  apply elem_of_cons in Hx as [->|Hx].
  - exists b. split; [assumption | left].
  - destruct (IH Hx) as (y & Hy & Hin). exists y. split; [assumption | by right].
Qed.

Lemma length_text l : String.length (text l) = length l.
Proof. unfold text. induction l as [|a l IH]; simpl; [reflexivity | by rewrite IH]. Qed.

Lemma strftime_dash_length d : String.length (strftime_dash d) = 10%nat.
Proof. unfold strftime_dash. rewrite length_text. reflexivity. Qed.



(** ** The header and the text of the file *)

Lemma script_files lib cfg today stock w :
  files (fst (script lib cfg today stock w))
  = files (fst (main lib cfg today stock w)).
Proof.
  unfold script. by destruct (main lib cfg today stock w) as [w' [u|e]].
Qed.

Lemma written_file lib cfg today stock w out :
  snd (makedirs (OUTPUT_DIR cfg) w) = Ok tt ->
  build_table lib cfg today stock = Ok out ->
  write_refused w = None ->
  files (fst (script lib cfg today stock w))
    !! path_join (OUTPUT_DIR cfg) (OUTFILE cfg)
  = Some (to_csv_text lib out).
Proof.
  intros Hmk Hb Hw. rewrite script_files.
  pose proof (main_cases lib cfg today stock w) as Hm. simpl in Hm.
  destruct (main lib cfg today stock w) as [w' r]. simpl.
  destruct Hm as (_ & [(e' & _ & He' & _)|[(e' & _ & He' & _)|(out' & _ & Ho & H)]]);
    try congruence.
  rewrite Hw in H. rewrite H. rewrite lookup_insert_eq. congruence.
Qed.

Lemma filter_all {A} (f : A -> bool) (l : list A) :
  (forall x, x ∈ l -> f x = true) -> List.filter f l = l.
Proof.
  induction l as [|x l IH]; intros H; simpl; [reflexivity|].
  rewrite (H x) by left. rewrite IH; [reflexivity|].
  intros y Hy. apply H. by right.
Qed.

Lemma build_table_columns lib cfg today stock out :
  build_table lib cfg today stock = Ok out ->
  exists s e df F0 rest,
    _yyyymmdd_range today (LOOKBACK_DAYS cfg) = Ok (s, e)
    /\ get_market_ohlcv stock s e (TICKER cfg) = Ok (PyFrame df)
    /\ prepare_ohlcv df = Ok F0
    /\ columns out
       = List.filter (fun c => has_col c (columns F0)) wanted_cols ++ short_names
    /\ columns out = "일자" :: rest ++ short_names
    /\ forall c, c ∈ rest -> c ∈ tail wanted_cols.
Proof.
  intros H.
  apply build_table_shape in H
    as (s & e & df & o2 & o3 & P & SV & SB & Hr & H1 & HP & _ & _ & _ & _ & ->).
  apply normalize_ohlcv_shape in HP
    as (F0 & i & ks & rest & HF0 & _ & _ & Hc & Hc' & Hrest & _).
  exists s, e, df, F0, rest. simpl. repeat (split; [assumption|]).
  split; [by rewrite Hc|]. split; [by rewrite Hc'|assumption].
Qed.

Lemma append_empty_r s : s +:+ "" = s.
Proof.
  induction s as [|a s IH]; [reflexivity|].
  change (String a (s +:+ "") = String a s). by rewrite IH.
Qed.

Lemma concat_cons_empty h l :
  String.concat "" (h :: l) = h +:+ String.concat "" l.
Proof. destruct l; simpl; [by rewrite append_empty_r | reflexivity]. Qed.

Lemma csv_text_starts lib rest rs :
  String.prefix "일자" (to_csv_text lib (MkFrame ("일자" :: rest ++ short_names) rs))
  = true.
Proof.
  unfold to_csv_text, csv_line. cbn [columns List.map].
  destruct (List.map csv_field (rest ++ short_names)) as [|x t] eqn:E.
  - apply (f_equal length) in E. rewrite List.length_map, List.length_app in E.
    simpl in E. lia.
  - cbn [join]. change (csv_field "일자") with "일자". reflexivity.
Qed.

Lemma append_assoc (a b c : string) : (a +:+ b) +:+ c = a +:+ (b +:+ c).
Proof.
  induction a as [|x a IH]; [reflexivity|].
  change (String x ((a +:+ b) +:+ c) = String x (a +:+ (b +:+ c))). by rewrite IH.
Qed.

Lemma csv_field_plain c : c ∈ wanted_cols ++ short_names -> csv_field c = c.
Proof.
  intros H. unfold wanted_cols, short_names in H. cbn [app] in H.
  repeat (apply elem_of_cons in H as [->|H]; [vm_compute; reflexivity|]).
  by apply elem_of_nil in H.
Qed.

Lemma filter_id_all {A} (f : A -> bool) (l : list A) :
  List.filter f l = l -> forall x, x ∈ l -> f x = true.
Proof.
  intros H x Hx. rewrite <- H in Hx. by apply elem_of_filter_list in Hx as [_ ?].
Qed.

(** C8, as the code has it.  The header of the written file lists [일자],
    then those of 시가, 고가, 저가, 종가, 거래량, 등락률 that the price table
    delivered, in this order, then 공매도, 공매도비중, 공매도잔고, 공매도잔고비중;
    거래대금 is never among them.  The header is the documented one exactly
    when the price table has all seven wanted columns.  The file is the
    header line and one line per row, each ended by a line feed, and it
    begins with the bytes of [일자]: no byte-order mark precedes them. *)
Theorem csv_header lib cfg today stock out :
  build_table lib cfg today stock = Ok out ->
  exists s e df F0,
    _yyyymmdd_range today (LOOKBACK_DAYS cfg) = Ok (s, e)
    /\ get_market_ohlcv stock s e (TICKER cfg) = Ok (PyFrame df)
    /\ prepare_ohlcv df = Ok F0
    /\ columns out
       = List.filter (fun c => has_col c (columns F0)) wanted_cols ++ short_names
    /\ ("거래대금" ∉ columns out)
    /\ ((forall c, c ∈ wanted_cols -> c ∈ columns F0) <-> columns out = schema)
    /\ (exists lines,
          length lines = length (rows out)
          /\ to_csv_text lib out
             = join "," (columns out) +:+ LF
               +:+ String.concat "" (List.map (fun l => l +:+ LF) lines))
    /\ String.prefix "일자" (to_csv_text lib out) = true
    /\ (forall w,
          snd (makedirs (OUTPUT_DIR cfg) w) = Ok tt -> write_refused w = None ->
          exists rest,
            files (fst (script lib cfg today stock w))
              !! path_join (OUTPUT_DIR cfg) (OUTFILE cfg)
            = Some (join "," (columns out) +:+ LF +:+ rest)).
Proof.
  intros H.
  destruct (build_table_columns _ _ _ _ _ H)
    as (s & e & df & F0 & rest & Hr & H1 & HF0 & Hc & Hc' & Hrest).
  assert (Hfields : List.map csv_field (columns out) = columns out).
  { rewrite <- (List.map_id (columns out)) at 2. apply List.map_ext_in.
    intros c Hin. apply csv_field_plain. apply list_elem_of_In in Hin.
    rewrite Hc in Hin. apply elem_of_app in Hin as [Hin|Hin].
    - apply elem_of_app. left. by apply elem_of_filter_list in Hin as [? _].
    - apply elem_of_app. by right. }
  assert (Htext : to_csv_text lib out
                  = join "," (columns out) +:+ LF
                    +:+ String.concat ""
                          (List.map (fun l => l +:+ LF)
                             (List.map (fun r => join "," (List.map (csv_cell lib) r))
                                       (rows out)))).
  { unfold to_csv_text, csv_line. rewrite Hfields, List.map_map.
    apply append_assoc. }
  exists s, e, df, F0. repeat (split; [assumption|]).
  split; [|split; [|split; [|split]]].
  - rewrite Hc'. intros Hin. apply elem_of_cons in Hin as [Hin|Hin]; [discriminate|].
    apply elem_of_app in Hin as [Hin|Hin].
    + apply Hrest in Hin. simpl in Hin.
      repeat (apply elem_of_cons in Hin as [Hin|Hin]; [discriminate|]).
      by apply elem_of_nil in Hin.
    + unfold short_names in Hin.
      repeat (apply elem_of_cons in Hin as [Hin|Hin]; [discriminate|]).
      by apply elem_of_nil in Hin.
  - split.
    + intros Hall. rewrite Hc, filter_all; [reflexivity|].
      intros c Hin. by apply has_col_true, Hall.
    + intros Hs c Hin. rewrite Hc in Hs.
      change schema with (wanted_cols ++ short_names) in Hs.
      apply app_inv_tail in Hs.
      apply has_col_true. by apply (filter_id_all _ _ Hs).
  - eexists. split; [|exact Htext]. by rewrite List.length_map.
  - destruct out as [cols rs]. simpl in Hc'. subst cols. apply csv_text_starts.
  - intros w Hmk Hw. eexists.
    rewrite (written_file lib cfg today stock w out Hmk H Hw), Htext.
    reflexivity.
Qed.

Lemma csv_header_witness :
  columns out_full = schema
  /\ exists rest,
       files (fst (script lib cfg today stock_full world0))
         !! "data/latest_market_ohlcv.csv"
       = Some ("일자,시가,고가,저가,종가,거래량,등락률,공매도,공매도비중,공매도잔고,공매도잔고비중"
               +:+ LF +:+ rest).
Proof.
  destruct (csv_header lib cfg today stock_full out_full)
    as (s & e & df & F0 & _ & _ & HF0 & _ & _ & Hs & _ & _ & Hw);
    [vm_compute; reflexivity|].
  split; [reflexivity|].
  apply (Hw world0); reflexivity.
Defined.

(** C8 fails at this input: when the price table comes without the
    change-rate column, the written header has ten names, where the schema
    the script documents (lines 8-9) and the specification have eleven. *)
Lemma header_lacks_missing_column :
  build_table lib cfg today stock_no_rate = Ok out_no_rate
  /\ columns out_no_rate
     = ["일자"; "시가"; "고가"; "저가"; "종가"; "거래량";
        "공매도"; "공매도비중"; "공매도잔고"; "공매도잔고비중"]
  /\ columns out_no_rate <> schema
  /\ files (fst (script lib cfg today stock_no_rate world0))
       !! "data/latest_market_ohlcv.csv" = Some (to_csv_text lib out_no_rate)
  /\ String.prefix
       ("일자,시가,고가,저가,종가,거래량,공매도,공매도비중,공매도잔고,공매도잔고비중" +:+ LF)
       (to_csv_text lib out_no_rate) = true.
Proof.
  split; [vm_compute; reflexivity|]. split; [reflexivity|].
  split; [discriminate|]. split; vm_compute; reflexivity.
Qed.

(** ** The calendar *)

Lemma ordinals_ok_spec fuel : forall n r,
  ordinals_ok fuel n = true -> n <= r < n + Z.of_nat fuel ->
  ymd2ord (ord2ymd r) = r
  /\ 1 <= month (ord2ymd r) <= 12 /\ 1 <= day (ord2ymd r) <= 31.
Proof.
  induction fuel as [|f IH]; intros n r H Hr; [lia|].
  cbn [ordinals_ok] in H. cbv zeta in H.
  match type of H with (if ?c then _ else _) = _ => destruct c eqn:E end;
    [|discriminate].
  destruct (Z.eq_dec r n) as [->|Hne]; [|apply (IH (n + 1)); [assumption | lia]].
  repeat (apply andb_prop in E as [E ?]). lia.
Qed.

(** The 146097 days of the first 400 years, one by one. *)
Lemma first_cycle_ok : ordinals_ok (Z.to_nat 146097) 1 = true.
Proof. vm_compute. reflexivity. Qed.

(** The calendar repeats every 400 years, which are 146097 days. *)
Lemma ord2ymd_shift n k :
  ord2ymd (n + 146097 * k)
  = Date (year (ord2ymd n) + 400 * k) (month (ord2ymd n)) (day (ord2ymd n)).
Proof.
  unfold ord2ymd.
  replace (n + 146097 * k - 1) with (n - 1 + k * 146097) by lia.
  rewrite Z.div_add, Z.mod_add by lia.
  set (n0 := (n - 1) mod 146097).
  set (n100 := n0 / 36524). set (n1 := n0 mod 36524).
  set (n4 := n1 / 1461). set (n2 := n1 mod 1461).
  set (y1 := n2 / 365). set (n3 := n2 mod 365).
  cbv zeta.
  destruct ((y1 =? 4) || (n100 =? 4)); simpl; [f_equal; lia|].
  match goal with |- (if ?c then _ else _) = _ => destruct c end;
    simpl; f_equal; lia.
Qed.

Lemma ymd2ord_shift y m d k :
  ymd2ord (Date (y + 400 * k) m d) = ymd2ord (Date y m d) + 146097 * k.
Proof.
  unfold ymd2ord, days_before_year, is_leap. simpl.
  replace (y + 400 * k - 1) with (y - 1 + 400 * k) by lia.
  replace ((y - 1 + 400 * k) / 4) with ((y - 1) / 4 + 100 * k)
    by (replace (400 * k) with (100 * k * 4) by lia; by rewrite Z.div_add by lia).
  replace ((y - 1 + 400 * k) / 100) with ((y - 1) / 100 + 4 * k)
    by (replace (400 * k) with (4 * k * 100) by lia; by rewrite Z.div_add by lia).
  replace ((y - 1 + 400 * k) / 400) with ((y - 1) / 400 + k)
    by (replace (400 * k) with (k * 400) by lia; by rewrite Z.div_add by lia).
  replace ((y + 400 * k) mod 4) with (y mod 4)
    by (replace (400 * k) with (100 * k * 4) by lia; by rewrite Z.mod_add by lia).
  replace ((y + 400 * k) mod 100) with (y mod 100)
    by (replace (400 * k) with (4 * k * 100) by lia; by rewrite Z.mod_add by lia).
  replace ((y + 400 * k) mod 400) with (y mod 400)
    by (replace (400 * k) with (k * 400) by lia; by rewrite Z.mod_add by lia).
  lia.
Qed.

(** [fromordinal] and [toordinal] are inverse, and a day number gives a
    month from 1 to 12 and a day from 1 to 31. *)
Lemma ymd2ord_ord2ymd n :
  1 <= n ->
  ymd2ord (ord2ymd n) = n
  /\ 1 <= month (ord2ymd n) <= 12 /\ 1 <= day (ord2ymd n) <= 31.
Proof.
  intros Hn.
  set (q := (n - 1) / 146097). set (r := (n - 1) mod 146097 + 1).
  assert (Hr : 1 <= r < 1 + 146097).
  { unfold r. pose proof (Z.mod_pos_bound (n - 1) 146097). lia. }
  assert (En : n = r + 146097 * q).
  { unfold r, q. pose proof (Z.div_mod (n - 1) 146097). lia. }
  destruct (ordinals_ok_spec (Z.to_nat 146097) 1 r first_cycle_ok) as (Hrt & Hm & Hd);
    [rewrite Z2Nat.id; lia|].
  clearbody q r. subst n. rewrite ord2ymd_shift. cbn [month day].
  split; [|split; assumption].
  destruct (ord2ymd r) as [y m d] eqn:E. simpl.
  rewrite ymd2ord_shift. lia.
Qed.

Lemma days_before_year_mono y : 10000 <= y -> 3652059 <= days_before_year y.
Proof. unfold days_before_year. intros H. Z.div_mod_to_equations. lia. Qed.

Lemma days_before_year_nonpos y : y <= 0 -> days_before_year y <= - 366.
Proof. unfold days_before_year. intros H. Z.div_mod_to_equations. lia. Qed.

Lemma days_before_month_bounds leap m : 1 <= m <= 12 -> 0 <= days_before_month leap m <= 335.
Proof.
  intros H. unfold days_before_month.
  assert (E : m = 1 \/ m = 2 \/ m = 3 \/ m = 4 \/ m = 5 \/ m = 6 \/ m = 7
              \/ m = 8 \/ m = 9 \/ m = 10 \/ m = 11 \/ m = 12) by lia.
  repeat (destruct E as [->|E]); try subst m; destruct leap; simpl; lia.
Qed.

(** A day number of the years 1 to 9999 gives a date [strftime] writes
    with four, two and two digits. *)
Lemma ord2ymd_valid n : 1 <= n <= max_ordinal -> valid_date (ord2ymd n).
Proof.
  intros [Hn Hmax]. destruct (ymd2ord_ord2ymd n Hn) as (Hrt & Hm & Hd).
  unfold valid_date. split; [|split; assumption].
  unfold ymd2ord in Hrt.
  pose proof (days_before_month_bounds (is_leap (year (ord2ymd n))) _ Hm) as Hb.
  unfold max_ordinal in Hmax.
  destruct (Z_lt_le_dec (year (ord2ymd n)) 10000) as [Hy|Hy].
  - split; [|assumption].
    destruct (Z_lt_le_dec (year (ord2ymd n)) 0) as [Hy0|Hy0]; [|assumption].
    pose proof (days_before_year_nonpos (year (ord2ymd n)) ltac:(lia)). lia.
  - pose proof (days_before_year_mono _ Hy). lia.
Qed.

(** ** Where the dates of the output come from *)

Lemma mapM_elem_inv {A B} (f : A -> result B) l ks y :
  mapM f l = Ok ks -> y ∈ ks -> exists x, x ∈ l /\ f x = Ok y.
Proof.
  intros H Hy. apply mapM_Ok in H.
  induction H as [|a b l ks Hab _ IH]; [by apply elem_of_nil in Hy|].
  apply elem_of_cons in Hy as [->|Hy].
  - exists a. split; [left | assumption].
  - destruct (IH Hy) as (x & Hx & Hfx). exists x. split; [by right | assumption].
Qed.

(** Every date of the result is the reformatted date of a row the provider
    returned for the price request. *)
Lemma output_dates_provenance lib cfg today stock out :
  build_table lib cfg today stock = Ok out ->
  exists s e df F0 i,
    _yyyymmdd_range today (LOOKBACK_DAYS cfg) = Ok (s, e)
    /\ get_market_ohlcv stock s e (TICKER cfg) = Ok (PyFrame df)
    /\ prepare_ohlcv df = Ok F0
    /\ position "일자" (columns F0) = Ok i
    /\ forall r, r ∈ rows out ->
         exists r0, r0 ∈ rows F0 /\ date_text lib (cell i r0) = Ok (cell 0 r).
Proof.
  intros H.
  apply build_table_shape in H
    as (s & e & df & o2 & o3 & P & SV & SB & Hr & H1 & HP & _ & _ & _ & _ & ->).
  apply normalize_ohlcv_shape in HP
    as (F0 & i & ks & rest & HF0 & Hi & Hks & _ & Hc & _ & Hl & _ & Hiff).
  exists s, e, df, F0, i. repeat (split; [assumption|]).
  intros r Hr'. simpl in Hr'.
  assert (Hk : cell 0 r ∈ keys 0 (sort_rows 0 false (joined (rows P) (rows SV) (rows SB)))).
  { unfold keys. apply list_elem_of_In, List.in_map. by apply list_elem_of_In. }
  apply dates_sorted_joined in Hk; [|by eapply price_rows_nonempty].
  apply Hiff in Hk.
  destruct (mapM_elem_inv _ _ _ _ Hks Hk) as (v & Hv & Hfv).
  unfold keys in Hv. apply list_elem_of_In, List.in_map_iff in Hv as (r0 & <- & Hr0).
  exists r0. split; [by apply list_elem_of_In | assumption].
Qed.
(** ** The left join: dates and row count *)

Lemma length_sort_rows i asc rs : length (sort_rows i asc rs) = length rs.
Proof. apply Permutation_length, sort_rows_perm. Qed.

Lemma length_keys i rs : length (keys i rs) = length rs.
Proof. apply List.length_map. Qed.

Lemma length_remove_dups_NoDup (l ks : list value) :
  NoDup l -> (forall v, v ∈ l <-> v ∈ ks) -> length l = length (remove_dups ks).
Proof.
  intros Hnd Hiff. apply Permutation_length.
  apply NoDup_Permutation; [assumption | apply NoDup_remove_dups|].
  intros v. rewrite Hiff. symmetry. apply elem_of_remove_dups.
Qed.

(** C1, as the code has it.  The join is a left join on the price dates:
    the dates of the output are exactly the dates of the normalised price
    table, which has one row per distinct date of the provider's price rows;
    a date that only a short-sale table has does not appear.  The output has
    at least one row per price date, and exactly one (so as many rows as
    there are distinct price dates) when neither short-sale table has two
    rows of one date. *)
Theorem left_join_dates lib cfg today stock out :
  build_table lib cfg today stock = Ok out ->
  exists s e df o2 o3 P SV SB F0 i ks,
    _yyyymmdd_range today (LOOKBACK_DAYS cfg) = Ok (s, e)
    /\ get_market_ohlcv stock s e (TICKER cfg) = Ok (PyFrame df)
    /\ normalize_ohlcv lib (PyFrame df) = Ok P
    /\ get_shorting_volume_by_date stock s e (TICKER cfg) = Ok o2
    /\ normalize_short lib "공매도" "공매도비중" o2 = Ok SV
    /\ get_shorting_balance_by_date stock s e (TICKER cfg) = Ok o3
    /\ normalize_short lib "공매도잔고" "공매도잔고비중" o3 = Ok SB
    /\ prepare_ohlcv df = Ok F0
    /\ position "일자" (columns F0) = Ok i
    /\ mapM (date_text lib) (keys i (rows F0)) = Ok ks
    /\ (forall v, v ∈ dates P <-> v ∈ ks)
    /\ NoDup (dates P)
    /\ length (rows P) = length (remove_dups ks)
    /\ (forall v, v ∈ dates out <-> v ∈ dates P)
    /\ (forall v, v ∈ dates SV \/ v ∈ dates SB -> v ∉ dates P -> v ∉ dates out)
    /\ (length (rows P) <= length (rows out))%nat
    /\ (NoDup (dates SV) -> NoDup (dates SB) ->
        length (rows out) = length (rows P)).
Proof.
  intros H.
  apply build_table_shape in H
    as (s & e & df & o2 & o3 & P & SV & SB & Hr & H1 & HP & H2 & HSV & H3 & HSB & ->).
  destruct (normalize_ohlcv_shape _ _ _ HP)
    as (F0 & i & ks & rest & HF0 & Hi & Hks & _ & Hc & _ & Hl & Hnd & Hiff).
  pose proof (price_rows_nonempty P rest Hc Hl) as Hne.
  exists s, e, df, o2, o3, P, SV, SB, F0, i, ks.
  repeat (split; [assumption|]).
  assert (Hd : forall v, v ∈ dates (MkFrame (columns P ++ short_names)
                 (sort_rows 0 false (joined (rows P) (rows SV) (rows SB))))
               <-> v ∈ dates P).
  { intros v. unfold dates. simpl. by apply dates_sorted_joined. }
  split.
  { rewrite <- (length_keys 0 (rows P)). by apply length_remove_dups_NoDup. }
  split; [exact Hd|]. split.
  { intros v _ Hn Hin. by apply Hn, Hd. }
  simpl. rewrite length_sort_rows. split.
  - by apply length_joined_ge.
  - intros HnV HnB.
    rewrite <- (length_keys 0 (joined _ _ _)), <- (length_keys 0 (rows P)).
    f_equal. by apply keys_joined_single.
Qed.

Lemma left_join_dates_witness :
  dates out_full = rev (dates prices3_normalized)
  /\ length (rows out_full) = length (rows prices3_normalized).
Proof.
  destruct (left_join_dates lib cfg today stock_full out_full)
    as (s & e & df & o2 & o3 & P & SV & SB & F0 & i & ks & _);
    [vm_compute; reflexivity|].
  split; reflexivity.
Defined.

(** C1, as the specification states it, fails: a second short-volume row
    for a date doubles that date's row, and the output has more rows than
    there are price dates. *)
Lemma duplicate_short_date_adds_rows :
  build_table lib cfg today stock_twice = Ok out_twice
  /\ normalize_ohlcv lib (PyFrame prices3) = Ok prices3_normalized
  /\ length (remove_dups (dates prices3_normalized)) = 3%nat
  /\ length (rows prices3_normalized) = 3%nat
  /\ length (rows out_twice) = 4%nat.
Proof. repeat split; vm_compute; reflexivity. Qed.

(** ** Dates as text: the order of the text is the order of the days *)

Lemma compare_text l l' : String.compare (text l) (text l') = lcompare l l'.
Proof.
  revert l'. induction l as [|c l IH]; intros [|c' l']; simpl; try reflexivity.
  by rewrite IH.
Qed.

Lemma lcompare_app l1 l1' l2 l2' :
  length l1 = length l1' ->
  lcompare (l1 ++ l2) (l1' ++ l2')
  = match lcompare l1 l1' with Eq => lcompare l2 l2' | ne => ne end.
Proof.
  revert l1'. induction l1 as [|c l1 IH]; intros [|c' l1'] Hl;
    try discriminate; simpl; [reflexivity|].
  destruct (Ascii.compare c c'); try reflexivity. apply IH. by injection Hl.
Qed.

Lemma digits_length w n : length (digits w n) = w.
Proof. induction w as [|w IH]; simpl; [reflexivity | by rewrite IH]. Qed.

Lemma digit_compare x y :
  0 <= x < 10 -> 0 <= y < 10 ->
  Ascii.compare (ascii_of_nat (48 + Z.to_nat x)) (ascii_of_nat (48 + Z.to_nat y))
  = (x ?= y).
Proof.
  intros Hx Hy.
  assert (Ex : x = 0 \/ x = 1 \/ x = 2 \/ x = 3 \/ x = 4 \/ x = 5 \/ x = 6
               \/ x = 7 \/ x = 8 \/ x = 9) by lia.
  assert (Ey : y = 0 \/ y = 1 \/ y = 2 \/ y = 3 \/ y = 4 \/ y = 5 \/ y = 6
               \/ y = 7 \/ y = 8 \/ y = 9) by lia.
  repeat (destruct Ex as [->|Ex]); try subst x;
    repeat (destruct Ey as [->|Ey]); try subst y; reflexivity.
Qed.

Lemma compare_high_low p da ra db rb :
  0 < p -> 0 <= ra < p -> 0 <= rb < p ->
  (ra + p * da ?= rb + p * db)
  = match da ?= db with Eq => ra ?= rb | ne => ne end.
Proof.
  intros Hp Ha Hb. destruct (da ?= db) eqn:E.
  - apply Z.compare_eq in E. subst db.
    destruct (ra ?= rb) eqn:E'.
    + apply Z.compare_eq in E'. subst. apply Z.compare_refl.
    + rewrite Z.compare_lt_iff in *. lia.
    + rewrite Z.compare_gt_iff in *. lia.
  - rewrite Z.compare_lt_iff in *. nia.
  - rewrite Z.compare_gt_iff in *. nia.
Qed.

(** Numbers written with the same number of digits compare as their
    texts do. *)
Lemma lcompare_digits w a b :
  lcompare (digits w a) (digits w b)
  = (a mod 10 ^ Z.of_nat w ?= b mod 10 ^ Z.of_nat w).
Proof.
  induction w as [|w IH].
  - simpl. by rewrite !Z.mod_1_r.
  - cbn [digits lcompare]. rewrite IH.
    assert (Hp : 0 < 10 ^ Z.of_nat w) by (apply Z.pow_pos_nonneg; lia).
    rewrite digit_compare by (apply Z.mod_pos_bound; lia).
    replace (10 ^ Z.of_nat (S w)) with (10 ^ Z.of_nat w * 10)
      by (rewrite Nat2Z.inj_succ, Z.pow_succ_r by lia; lia).
    rewrite !Z.rem_mul_r by lia.
    symmetry. apply compare_high_low; try assumption;
      apply Z.mod_pos_bound; lia.
Qed.

Lemma lcompare_digits_small w a b :
  0 <= a < 10 ^ Z.of_nat w -> 0 <= b < 10 ^ Z.of_nat w ->
  lcompare (digits w a) (digits w b) = (a ?= b).
Proof.
  intros Ha Hb. rewrite lcompare_digits. by rewrite !Z.mod_small.
Qed.

Lemma lcompare_cons_same c l l' : lcompare (c :: l) (c :: l') = lcompare l l'.
Proof. simpl. by rewrite ascii_compare_refl. Qed.

(** The text of a day is smaller exactly when the day is earlier. *)
Lemma strftime_dash_lt a b :
  valid_date a -> valid_date b ->
  String.ltb (strftime_dash a) (strftime_dash b) = true <-> date_lt a b.
Proof.
  intros (Hya & Hma & Hda) (Hyb & Hmb & Hdb).
  unfold String.ltb, strftime_dash. rewrite compare_text.
  rewrite lcompare_app by (by rewrite !digits_length).
  rewrite lcompare_digits_small by (simpl; lia).
  change (chars "-") with ["-"%char]. cbn [app].
  rewrite lcompare_cons_same.
  rewrite lcompare_app by (by rewrite !digits_length).
  rewrite lcompare_digits_small by (simpl; lia).
  cbn [app]. rewrite lcompare_cons_same.
  rewrite lcompare_digits_small by (simpl; lia).
  unfold date_lt.
  destruct (year a ?= year b) eqn:Ey;
    [destruct (month a ?= month b) eqn:Em;
       [destruct (day a ?= day b) eqn:Ed|..]|..];
    rewrite ?Z.compare_eq_iff, ?Z.compare_lt_iff, ?Z.compare_gt_iff in *;
    split; try discriminate; try reflexivity; intros; lia.
Qed.

(** ** The order of the output *)

(** C4, as the code has it.  The rows of the output are sorted by date
    descending, rows without a date last (the dates are texts YYYY-MM-DD,
    whose order is the order of the days).  Every date of the provider's price
    rows is there, however often the price table repeats it.  When neither
    short-sale table has two rows of one date, the order is strict and no
    date occurs twice, so exactly one row survives for a repeated price
    date. *)
Theorem output_sorted lib cfg today stock out :
  build_table lib cfg today stock = Ok out ->
  StronglySorted date_ge (dates out)
  /\ (forall a b, valid_date a -> valid_date b ->
        (date_gt (VStr (strftime_dash a)) (VStr (strftime_dash b)) <-> date_lt b a))
  /\ exists s e df o2 o3 SV SB F0 i ks,
       _yyyymmdd_range today (LOOKBACK_DAYS cfg) = Ok (s, e)
       /\ get_market_ohlcv stock s e (TICKER cfg) = Ok (PyFrame df)
       /\ get_shorting_volume_by_date stock s e (TICKER cfg) = Ok o2
       /\ normalize_short lib "공매도" "공매도비중" o2 = Ok SV
       /\ get_shorting_balance_by_date stock s e (TICKER cfg) = Ok o3
       /\ normalize_short lib "공매도잔고" "공매도잔고비중" o3 = Ok SB
       /\ prepare_ohlcv df = Ok F0
       /\ position "일자" (columns F0) = Ok i
       /\ mapM (date_text lib) (keys i (rows F0)) = Ok ks
       /\ (forall v, v ∈ ks <-> v ∈ dates out)
       /\ (NoDup (dates SV) -> NoDup (dates SB) ->
           StronglySorted date_gt (dates out) /\ NoDup (dates out)).
Proof.
  intros H.
  apply build_table_shape in H
    as (s & e & df & o2 & o3 & P & SV & SB & Hr & H1 & HP & H2 & HSV & H3 & HSB & ->).
  destruct (normalize_ohlcv_shape _ _ _ HP)
    as (F0 & i & ks & rest & HF0 & Hi & Hks & _ & Hc & _ & Hl & Hnd & Hiff).
  pose proof (price_rows_nonempty P rest Hc Hl) as Hne.
  pose proof (mapM_date_cells _ _ _ Hks) as Hcells.
  set (J := joined (rows P) (rows SV) (rows SB)).
  assert (HJ : Forall (fun v => date_cell v = true) (keys 0 J)).
  { apply Forall_forall. intros v Hv.
    apply (elem_of_keys_joined (rows P) (rows SV) (rows SB) v Hne), Hiff in Hv.
    rewrite Forall_forall in Hcells. by apply Hcells. }
  assert (Hsorted : StronglySorted date_ge (keys 0 (sort_rows 0 false J))).
  { by apply sorted_desc_dates. }
  unfold dates. simpl. split; [exact Hsorted|].
  split; [intros a b Ha Hb; simpl; by apply strftime_dash_lt|].
  exists s, e, df, o2, o3, SV, SB, F0, i, ks.
  repeat (split; [assumption|]). split.
  - intros v. rewrite <- Hiff. symmetry. by apply dates_sorted_joined.
  - intros HnV HnB.
    assert (Hnd' : NoDup (keys 0 (sort_rows 0 false J))).
    { rewrite (keys_perm 0 _ _ (sort_rows_perm 0 false J)).
      unfold J. by rewrite keys_joined_single. }
    split; [|exact Hnd'].
    apply strongly_sorted_strict; try assumption.
    eapply Permutation_Forall; [|exact HJ].
    symmetry. apply keys_perm, sort_rows_perm.
Qed.

Lemma output_sorted_witness :
  StronglySorted date_ge (dates out_full)
  /\ dates out_full = [VStr "2026-11-04"; VStr "2026-11-03"; VStr "2026-11-02"].
Proof.
  destruct (output_sorted lib cfg today stock_full out_full) as (H & _);
    [vm_compute; reflexivity|].
  split; [exact H | reflexivity].
Defined.

(** C4, as the specification states it, fails: with two short-volume rows
    for one date the output has that date twice, so the order is not strict
    and the dates are not unique. *)
Lemma duplicate_short_date_repeats_date :
  build_table lib cfg today stock_twice = Ok out_twice
  /\ dates out_twice
     = [VStr "2026-11-04"; VStr "2026-11-03"; VStr "2026-11-03"; VStr "2026-11-02"]
  /\ ~ NoDup (dates out_twice)
  /\ ~ StronglySorted date_gt (dates out_twice).
Proof.
  split; [vm_compute; reflexivity|]. split; [reflexivity|].
  change (dates out_twice)
    with [VStr "2026-11-04"; VStr "2026-11-03"; VStr "2026-11-03"; VStr "2026-11-02"].
  split.
  - intros H. apply NoDup_cons in H as [_ H]. apply NoDup_cons in H as [H _].
    apply H. left.
  - intros H. apply StronglySorted_inv in H as [H _].
    apply StronglySorted_inv in H as [_ H].
    apply List.Forall_inv in H. simpl in H. discriminate.
Qed.

(** ** The short-sale cells of the output *)

Lemma isna_fill0 v : isna (fill0 v) = false.
Proof. unfold fill0. by destruct v. Qed.

(** A row of the output: the cells of a price row, then the filled cells
    of a short-volume match and of a short-balance match for its date. *)
Lemma output_row_inv P SV SB r :
  Forall (fun r => length r = length (columns P)) (rows P) ->
  Forall (fun r => length r = 3%nat) (rows SV) ->
  Forall (fun r => length r = 3%nat) (rows SB) ->
  r ∈ sort_rows 0 false (joined (rows P) (rows SV) (rows SB)) ->
  exists lr x1 x2 y1 y2,
    lr ∈ rows P /\ length lr = length (columns P)
    /\ [x1; x2] ∈ short_cells (rows SV) (cell 0 lr)
    /\ [y1; y2] ∈ short_cells (rows SB) (cell 0 lr)
    /\ r = lr ++ [fill0 x1; fill0 x2; fill0 y1; fill0 y2].
Proof.
  intros HlP HlV HlB Hr.
  rewrite (sort_rows_perm 0 false _) in Hr.
  apply joined_row_inv in Hr as (lr & x & y & Hlr & Hx & Hy & ->).
  pose proof (short_cells_length (rows SV) (cell 0 lr) HlV) as HxL.
  pose proof (short_cells_length (rows SB) (cell 0 lr) HlB) as HyL.
  rewrite Forall_forall in HxL, HyL, HlP.
  pose proof (HxL x Hx) as Lx. pose proof (HyL y Hy) as Ly.
  destruct x as [|x1 [|x2 [|]]]; try discriminate Lx.
  destruct y as [|y1 [|y2 [|]]]; try discriminate Ly.
  exists lr, x1, x2, y1, y2. repeat split; auto.
Qed.

Lemma joined_no_short P :
  joined P [] []
  = List.map (fun r => r ++ [VInt 0; VInt 0; VInt 0; VInt 0]) P.
Proof.
  unfold joined. induction P as [|lr P IH]; [reflexivity|].
  cbn [flat_map List.map]. rewrite IH. reflexivity.
Qed.

Lemma normalize_short_no_data lib qty ratio o :
  no_data o -> normalize_short lib qty ratio o = Ok (empty_frame ["일자"; qty; ratio]).
Proof. destruct o as [| |df]; simpl; try reflexivity. by intros ->. Qed.

Lemma cells_tail n (lr : list value) a b c d :
  length lr = n ->
  cell n (lr ++ [a; b; c; d]) = a
  /\ cell (n + 1) (lr ++ [a; b; c; d]) = b
  /\ cell (n + 2) (lr ++ [a; b; c; d]) = c
  /\ cell (n + 3) (lr ++ [a; b; c; d]) = d.
Proof.
  intros Hn. rewrite <- (Nat.add_0_r n) at 1.
  rewrite !(cell_app_r n) by assumption. repeat split.
Qed.

Lemma string_ltb_leb a b : String.ltb a b = true -> String.leb b a = false.
Proof.
  unfold String.ltb, String.leb. rewrite (String.compare_antisym a b).
  by destruct (String.compare b a).
Qed.

(** Three rows in ascending order of date come out in the opposite order. *)
Lemma sort_three_desc a b c s1 s2 s3 :
  cell 0 a = VStr s1 -> cell 0 b = VStr s2 -> cell 0 c = VStr s3 ->
  String.ltb s1 s2 = true -> String.ltb s2 s3 = true ->
  sort_rows 0 false [a; b; c] = [c; b; a].
Proof.
  intros Ha Hb Hc H12 H23.
  pose proof (string_ltb_trans _ _ _ H12 H23) as H13.
  unfold sort_rows. cbn [foldr].
  assert (E : insert_row 0 false b (insert_row 0 false c []) = [c; b]).
  { cbn [insert_row]. unfold key_before. rewrite Hb, Hc. cbn [isna value_leb].
    by rewrite (string_ltb_leb _ _ H23). }
  rewrite E. cbn [insert_row]. unfold key_before.
  rewrite Ha, Hb, Hc. cbn [isna value_leb].
  by rewrite (string_ltb_leb _ _ H13), (string_ltb_leb _ _ H12).
Qed.

Lemma cell0_app r t s : cell 0 r = VStr s -> cell 0 (r ++ t) = VStr s.
Proof. destruct r; [discriminate | auto]. Qed.

(** C2.  In every row of the output the four short-sale columns hold a
    value and never a missing-value marker; the two columns of the
    short-volume table are 0 in a row whose date has no row in that table,
    and the two columns of the short-balance table are 0 in a row whose date
    has no row in that one (so all four are 0 when neither table has the
    date).  A short-sale result that is absent or empty is replaced by the
    empty table with the three canonical headers, without any error; with
    both results absent or empty the run gives the rows of the price table,
    sorted by date descending, each with four zeros: a price table of three
    rows with dates D1 < D2 < D3 gives three rows in the order D3, D2, D1
    with 0 in the four short-sale columns.  The example evaluates to just
    that, with exit code 0. *)
Theorem missing_short_is_zero lib cfg today stock :
  (forall out,
     build_table lib cfg today stock = Ok out ->
     exists s e df o2 o3 P SV SB,
       _yyyymmdd_range today (LOOKBACK_DAYS cfg) = Ok (s, e)
       /\ get_market_ohlcv stock s e (TICKER cfg) = Ok (PyFrame df)
       /\ normalize_ohlcv lib (PyFrame df) = Ok P
       /\ get_shorting_volume_by_date stock s e (TICKER cfg) = Ok o2
       /\ normalize_short lib "공매도" "공매도비중" o2 = Ok SV
       /\ get_shorting_balance_by_date stock s e (TICKER cfg) = Ok o3
       /\ normalize_short lib "공매도잔고" "공매도잔고비중" o3 = Ok SB
       /\ position "공매도" (columns out) = Ok (length (columns P))
       /\ position "공매도비중" (columns out) = Ok (length (columns P) + 1)%nat
       /\ position "공매도잔고" (columns out) = Ok (length (columns P) + 2)%nat
       /\ position "공매도잔고비중" (columns out) = Ok (length (columns P) + 3)%nat
       /\ forall r, r ∈ rows out ->
            isna (cell (length (columns P)) r) = false
            /\ isna (cell (length (columns P) + 1) r) = false
            /\ isna (cell (length (columns P) + 2) r) = false
            /\ isna (cell (length (columns P) + 3) r) = false
            /\ (cell 0 r ∉ dates SV ->
                cell (length (columns P)) r = VInt 0
                /\ cell (length (columns P) + 1) r = VInt 0)
            /\ (cell 0 r ∉ dates SB ->
                cell (length (columns P) + 2) r = VInt 0
                /\ cell (length (columns P) + 3) r = VInt 0))
  /\ (forall qty ratio o,
        no_data o ->
        normalize_short lib qty ratio o = Ok (empty_frame ["일자"; qty; ratio]))
  /\ (forall s e df P o2 o3,
        _yyyymmdd_range today (LOOKBACK_DAYS cfg) = Ok (s, e) ->
        get_market_ohlcv stock s e (TICKER cfg) = Ok (PyFrame df) ->
        normalize_ohlcv lib (PyFrame df) = Ok P ->
        get_shorting_volume_by_date stock s e (TICKER cfg) = Ok o2 -> no_data o2 ->
        get_shorting_balance_by_date stock s e (TICKER cfg) = Ok o3 -> no_data o3 ->
        build_table lib cfg today stock
        = Ok (MkFrame (columns P ++ short_names)
                (sort_rows 0 false
                   (List.map (fun r => r ++ [VInt 0; VInt 0; VInt 0; VInt 0])
                             (rows P)))))
  /\ (forall s e df P o2 o3 r1 r2 r3 s1 s2 s3,
        _yyyymmdd_range today (LOOKBACK_DAYS cfg) = Ok (s, e) ->
        get_market_ohlcv stock s e (TICKER cfg) = Ok (PyFrame df) ->
        normalize_ohlcv lib (PyFrame df) = Ok P ->
        get_shorting_volume_by_date stock s e (TICKER cfg) = Ok o2 -> no_data o2 ->
        get_shorting_balance_by_date stock s e (TICKER cfg) = Ok o3 -> no_data o3 ->
        rows P = [r1; r2; r3] ->
        cell 0 r1 = VStr s1 -> cell 0 r2 = VStr s2 -> cell 0 r3 = VStr s3 ->
        String.ltb s1 s2 = true -> String.ltb s2 s3 = true ->
        build_table lib cfg today stock
        = Ok (MkFrame (columns P ++ short_names)
                [r3 ++ [VInt 0; VInt 0; VInt 0; VInt 0];
                 r2 ++ [VInt 0; VInt 0; VInt 0; VInt 0];
                 r1 ++ [VInt 0; VInt 0; VInt 0; VInt 0]]))
  /\ (build_table Fixtures.lib Fixtures.cfg Fixtures.today stock_plain = Ok out_plain
      /\ dates out_plain = [VStr "2026-11-04"; VStr "2026-11-03"; VStr "2026-11-02"]
      /\ columns out_plain = schema
      /\ List.map (drop 7) (rows out_plain)
         = [[VInt 0; VInt 0; VInt 0; VInt 0]; [VInt 0; VInt 0; VInt 0; VInt 0];
            [VInt 0; VInt 0; VInt 0; VInt 0]]
      /\ snd (script Fixtures.lib Fixtures.cfg Fixtures.today stock_plain world0) = 0).
Proof.
  assert (Hplain : forall s e df P o2 o3,
    _yyyymmdd_range today (LOOKBACK_DAYS cfg) = Ok (s, e) ->
    get_market_ohlcv stock s e (TICKER cfg) = Ok (PyFrame df) ->
    normalize_ohlcv lib (PyFrame df) = Ok P ->
    get_shorting_volume_by_date stock s e (TICKER cfg) = Ok o2 -> no_data o2 ->
    get_shorting_balance_by_date stock s e (TICKER cfg) = Ok o3 -> no_data o3 ->
    build_table lib cfg today stock
    = Ok (MkFrame (columns P ++ short_names)
            (sort_rows 0 false
               (List.map (fun r => r ++ [VInt 0; VInt 0; VInt 0; VInt 0])
                         (rows P))))).
  { intros s e df P o2 o3 Hr H1 HP H2 Hn2 H3 Hn3.
    unfold build_table. rewrite Hr. cbn [mbind result_bind].
    rewrite H1. cbn [mbind result_bind]. rewrite HP. cbn [mbind result_bind].
    rewrite H2. cbn [mbind result_bind].
    rewrite (normalize_short_no_data _ _ _ _ Hn2). cbn [mbind result_bind].
    rewrite H3. cbn [mbind result_bind].
    rewrite (normalize_short_no_data _ _ _ _ Hn3). cbn [mbind result_bind].
    destruct (normalize_ohlcv_shape _ _ _ HP)
      as (F0 & i & ks & rest & _ & _ & _ & _ & Hc & Hrest & Hl & _ & _).
    rewrite (merge_fill_sort_spec P _ _ rest Hc Hrest Hl);
      [|reflexivity|by constructor|reflexivity|by constructor].
    unfold empty_frame. cbn [rows]. by rewrite joined_no_short. }
  split; [|split; [|split; [exact Hplain|split]]].
  - intros out H.
    apply build_table_shape in H
      as (s & e & df & o2 & o3 & P & SV & SB & Hr & H1 & HP & H2 & HSV & H3 & HSB & ->).
    destruct (normalize_ohlcv_shape _ _ _ HP)
      as (F0 & i & ks & rest & _ & _ & _ & _ & Hc & Hrest & Hl & _ & _).
    assert (HlV : Forall (fun r => length r = 3%nat) (rows SV)).
    { apply normalize_short_shape in HSV as (_ & HV & _); [exact HV|done|done]. }
    assert (HlB : Forall (fun r => length r = 3%nat) (rows SB)).
    { apply normalize_short_shape in HSB as (_ & HB & _); [exact HB|done|done]. }
    assert (HB : forall c, c ∈ short_names -> c ∉ columns P).
    { intros c Hcs Hin. apply (short_not_price c Hcs).
      rewrite Hc in Hin. apply elem_of_cons in Hin as [->|Hin].
      - unfold wanted_cols. left.
      - apply Hrest in Hin. unfold wanted_cols. by right. }
    exists s, e, df, o2, o3, P, SV, SB. repeat (split; [assumption|]).
    cbn [columns rows].
    split; [rewrite <- (Nat.add_0_r (length (columns P)));
            by apply position_short|].
    split; [by apply position_short|].
    split; [by apply position_short|].
    split; [by apply position_short|].
    intros r Hr'.
    apply (output_row_inv P SV SB r Hl HlV HlB) in Hr'
      as (lr & x1 & x2 & y1 & y2 & Hlr & Hlen & Hx & Hy & ->).
    destruct (cells_tail (length (columns P)) lr
                (fill0 x1) (fill0 x2) (fill0 y1) (fill0 y2) Hlen)
      as (-> & -> & -> & ->).
    rewrite !isna_fill0. repeat (split; [reflexivity|]).
    assert (H0 : cell 0 (lr ++ [fill0 x1; fill0 x2; fill0 y1; fill0 y2]) = cell 0 lr).
    { apply cell_app_l. rewrite Hlen, Hc. simpl. lia. }
    rewrite H0. split.
    + intros Hn. rewrite (short_cells_unmatched _ _ Hn) in Hx.
      apply list_elem_of_singleton in Hx. injection Hx as -> ->. auto.
    + intros Hn. rewrite (short_cells_unmatched _ _ Hn) in Hy.
      apply list_elem_of_singleton in Hy. injection Hy as -> ->. auto.
  - intros qty ratio o. apply normalize_short_no_data.
  - intros s e df P o2 o3 r1 r2 r3 s1 s2 s3 Hr H1 HP H2 Hn2 H3 Hn3
           Hrows Hk1 Hk2 Hk3 H12 H23.
    rewrite (Hplain s e df P o2 o3 Hr H1 HP H2 Hn2 H3 Hn3), Hrows.
    cbn [List.map]. do 2 f_equal.
    apply (sort_three_desc _ _ _ s1 s2 s3); try assumption; by apply cell0_app.
  - repeat split; vm_compute; reflexivity.
Qed.

(** ** The theorems at concrete inputs *)

Lemma missing_short_is_zero_witness :
  build_table lib cfg today stock_plain
  = Ok (MkFrame (columns prices3_normalized ++ short_names)
          (sort_rows 0 false
             (List.map (fun r => r ++ [VInt 0; VInt 0; VInt 0; VInt 0])
                       (rows prices3_normalized)))).
Proof.
  destruct (missing_short_is_zero lib cfg today stock_plain) as (_ & _ & H & _ & _).
  apply (H "20250930" "20261104" prices3 prices3_normalized
           PyNone (PyFrame (short_balance [])));
    try reflexivity; exact I.
Defined.

Lemma write_is_last_witness :
  files (fst (script lib cfg today stock_down world1)) = files world1
  /\ snd (script lib cfg today stock_down world1) = 1.
Proof.
  destruct (write_is_last lib cfg today stock_down world1) as (_ & _ & H & _).
  apply (H "20250930" "20261104" (OtherError "ConnectionError" "connection refused"));
    [reflexivity | left; reflexivity].
Defined.

(** ** Examples *)

Example float_of_text :
  py_float "1234" = Some (VFloat (1234 # 1))
  /\ py_float " -1_0.5e1 " = Some (VFloat (-105 # 1))
  /\ py_float ".5" = Some (VFloat (1 # 2))
  /\ py_float "-Infinity" = Some (VInf true)
  /\ py_float "NaN" = Some VNaN
  /\ py_float "1e" = None /\ py_float "." = None /\ py_float "1__0" = None
  /\ py_float "" = None /\ py_float "1,5" = None.
Proof. repeat split. Qed.

Example float_overflows : py_float "1e400" = Some (VInf false).
Proof. vm_compute. reflexivity. Qed.

Example int_of_text :
  py_int "400" = Ok 400 /\ py_int " -1_000 " = Ok (-1000) /\ is_ok (py_int "4.0") = false.
Proof. repeat split. Qed.

Example to_num_examples :
  _to_num (VStr " 12,345.50 ") = Ok (VFloat (24691 # 2))
  /\ _to_num (VInt 7) = Ok (VFloat (7 # 1))
  /\ _to_num VNone = Ok VNaN
  /\ _to_num (VTimestamp D1) = Ok VNaN
  /\ is_ok (_to_num (VInt (10 ^ 400))) = false.
Proof. repeat split; vm_compute; reflexivity. Qed.

Example days_back :
  minus_days (Date 2026 11 4) 400 = Ok (Date 2025 9 30)
  /\ minus_days (Date 2024 3 1) 1 = Ok (Date 2024 2 29)
  /\ minus_days (Date 2100 3 1) 1 = Ok (Date 2100 2 28)
  /\ minus_days (Date 2001 1 1) 1 = Ok (Date 2000 12 31)
  /\ ymd2ord (Date 1970 1 1) = 719163
  /\ ymd2ord (Date 9999 12 31) = max_ordinal
  /\ is_ok (minus_days (Date 1 1 1) 1) = false.
Proof. repeat split. Qed.

Example default_config : load_config ∅ = Ok cfg.
Proof. reflexivity. Qed.

Example bad_lookback : is_ok (load_config {["LOOKBACK_DAYS" := "a year"]}) = false.
Proof. vm_compute. reflexivity. Qed.

(** A whole run: three price rows and no short-sale data. *)
Example a_run :
  script lib cfg today stock_plain world0
  = (MkWorld
       {["data/latest_market_ohlcv.csv" :=
           "일자,시가,고가,저가,종가,거래량,등락률,공매도,공매도비중,공매도잔고,공매도잔고비중" +:+ LF
           +:+ "2026-11-04,120.0,130.0,110.0,120.0,1234.0,,0,0,0,0" +:+ LF
           +:+ "2026-11-03,110.0,120.0,100.0,110.0,1234.0,,0,0,0,0" +:+ LF
           +:+ "2026-11-02,100.0,110.0,90.0,100.0,1234.0,,0,0,0,0" +:+ LF]}
       {["data"]}
       ["[OK] saved: data/latest_market_ohlcv.csv";
        "cols = ['일자', '시가', '고가', '저가', '종가', '거래량', '등락률', '공매도', '공매도비중', '공매도잔고', '공매도잔고비중']";
        "rows = 3 (from 2026-11-02 to 2026-11-04)"]
       [] None None, 0).
Proof. vm_compute. reflexivity. Qed.

(** A run on a full disk: the file holds what was written before the
    error, and the exit code is 1. *)
Example a_failed_write :
  snd (script lib cfg today stock_full world_full_disk) = 1
  /\ stderr (fst (script lib cfg today stock_full world_full_disk))
     = ["[ERROR] No space left on device"]
  /\ files (fst (script lib cfg today stock_full world_full_disk))
       !! "data/latest_market_ohlcv.csv" = Some "일자".
Proof. repeat split; vm_compute; reflexivity. Qed.
(** * The functions one by one

    What [_to_num], the configuration, [_normalize_numeric], [main] and
    [_yyyymmdd_range] do, function by function. *)

(** ** The numeric normaliser: what it returns and when it raises *)

(** X1.  Whatever [_to_num] returns is a float ([nan], an infinity or a
    finite number), and [_to_num] leaves such a value as it is: normalising
    a cell twice gives what normalising it once gives. *)
Theorem to_num_is_float x v :
  _to_num x = Ok v -> is_float v = true /\ _to_num v = Ok v.
Proof.
  intros H. apply to_num_float in H. split; [exact H | by apply to_num_fixed].
Qed.

Lemma to_num_is_float_witness :
  is_float (VFloat (1234 # 1)) = true
  /\ _to_num (VFloat (1234 # 1)) = Ok (VFloat (1234 # 1)).
Proof. apply (to_num_is_float (VStr "1,234")). reflexivity. Defined.

(** X2.  Among the cells that are scalars (a missing value, a float, an
    integer, a text or a timestamp; a cell that is itself a list or an array
    is not considered), [_to_num] raises in one case only: the cell is an
    integer too large for a float, and [float(x)], which stands outside the
    [try], raises [OverflowError].  Every other such cell gives a result. *)
Theorem to_num_raises_only_overflow x e :
  _to_num x = Raise e
  <-> exists z, x = VInt z /\ float_overflow <= Z.abs z
                /\ e = OverflowError "int too large to convert to float".
Proof.
  split; [apply to_num_raises|].
  intros (z & -> & Hz & ->). unfold _to_num.
  cbn [isna is_number float_of_number].
  apply Z.ltb_ge in Hz. by rewrite Hz.
Qed.

(** X3.  A text that, once its commas and the white space around it are
    removed, is the decimal numeral of an integer [z] is read as the float
    [z], for every [z] a float holds exactly ([|z| <= 2^53]): thousands
    separators never change the number. *)
Theorem to_num_reads_integers s z :
  strip (remove_commas s) = pretty z -> Z.abs z <= 2 ^ 53 ->
  _to_num (VStr s) = Ok (VFloat (z # 1)).
Proof.
  intros Hs Hz. unfold _to_num. cbn [isna is_number py_str]. rewrite Hs.
  by rewrite py_float_pretty.
Qed.

Lemma to_num_reads_integers_witness :
  _to_num (VStr " -1,234,567 ") = Ok (VFloat (-1234567 # 1)).
Proof.
  apply (to_num_reads_integers " -1,234,567 " (-1234567)).
  - vm_compute. reflexivity.
  - vm_compute. discriminate.
Defined.

(** X4.  The configuration (lines 25-28): when [LOOKBACK_DAYS] is set to
    the decimal numeral of an integer [n] of at most 4300 digits, of either
    sign, the configuration loads with exactly [n] days, and the three other
    settings are the values of the environment or their defaults.  ([int]
    refuses a numeral of more than 4300 digits.) *)
Theorem lookback_days_round_trip (env : gmap string string) n :
  env !! "LOOKBACK_DAYS" = Some (pretty n) -> Z.abs n < 10 ^ 4300 ->
  load_config env
  = Ok (MkConfig (getenv env "TICKER" "092040") (getenv env "OUTPUT_DIR" "data")
                 (getenv env "OUTFILE" "latest_market_ohlcv.csv") n).
Proof.
  intros H Hn.
  assert (E : getenv env "LOOKBACK_DAYS" "400" = pretty n)
    by (unfold getenv; by rewrite H).
  unfold load_config. rewrite E, py_int_pretty by exact Hn. reflexivity.
Qed.

Lemma lookback_days_round_trip_witness :
  load_config {["LOOKBACK_DAYS" := "30"; "OUTFILE" := "x.csv"]}
  = Ok (MkConfig "092040" "data" "x.csv" 30).
Proof.
  pose proof (lookback_days_round_trip
                {["LOOKBACK_DAYS" := "30"; "OUTFILE" := "x.csv"]} 30) as H.
  vm_compute in H. vm_compute. apply H; reflexivity.
Defined.

(** ** Rows and columns by index *)

Lemma keys_lookup j rs n : keys j rs !! n = cell j <$> (rs !! n).
Proof.
  unfold keys. revert n.
  induction rs as [|r rs IH]; intros [|n]; simpl; auto.
Qed.

Lemma mapM_lookup {A B} (f : A -> result B) l l' n x y :
  mapM f l = Ok l' -> l !! n = Some x -> l' !! n = Some y -> f x = Ok y.
Proof.
  intros H Hx Hy. apply mapM_Ok in H.
  exact (Forall2_lookup_lr (fun x y => f x = Ok y) l l' n x y H Hx Hy).
Qed.

Lemma mapM_Raise {A B} (f : A -> result B) l e :
  mapM f l = Raise e -> exists x, x ∈ l /\ f x = Raise e.
Proof.
  induction l as [|x l IH]; [discriminate|].
  cbn [mapM]. destruct (f x) as [y|e'] eqn:E.
  - cbn [mbind result_bind]. destruct (mapM f l) as [ys|e''].
    + discriminate.
    + cbn [mbind result_bind]. intros H. injection H as ->.
      destruct (IH eq_refl) as (x' & Hin & Hx'). exists x'. split; [by right | assumption].
  - cbn [mbind result_bind]. intros H. injection H as ->.
    exists x. split; [left | assumption].
Qed.

Lemma mapM_to_num_fixed l l' :
  mapM _to_num l = Ok l' -> mapM _to_num l' = Ok l'.
Proof.
  intros H. apply mapM_Ok in H. apply mapM_Ok.
  induction H as [|x y l l' Hxy _ IH]; constructor; [|exact IH].
  by apply to_num_fixed, (to_num_float x).
Qed.

Lemma mapM_to_num_floats l l' :
  mapM _to_num l = Ok l' -> Forall (fun v => is_float v = true) l'.
Proof.
  intros H. apply mapM_Ok in H.
  induction H as [|x y l l' Hxy _ IH]; constructor; [|exact IH].
  by apply (to_num_float x).
Qed.

(** ** [_normalize_numeric] column by column *)

Lemma normalize_numeric_keys cols : forall F F',
  _normalize_numeric F cols = Ok F' ->
  forall j c, columns F !! j = Some c -> c ∈ cols ->
    mapM _to_num (keys j (rows F)) = Ok (keys j (rows F')).
Proof.
  induction cols as [|c0 cols IH]; intros F F' H j c Hj Hc.
  - by apply elem_of_nil in Hc.
  - simpl in H. inv_ok. rename x into F1.
    destruct (normalize_numeric_Ok _ _ _ H) as (Hc1 & _ & Hk1 & _).
    destruct (has_col c0 (columns F)) eqn:Hhas.
    + apply apply_col_Ok in Hx as (i & Hi & Hc0 & Hm & Hk0 & _);
        [|exact to_num_nan].
      pose proof (position_Ok _ _ _ Hi) as [Hil Hiu].
      destruct (decide (j = i)) as [->|Hne].
      * assert (Hfix : keys i (rows F') = keys i (rows F1)).
        { destruct (decide (c0 ∈ cols)) as [Hin|Hnin].
          - pose proof (IH _ _ H i c0) as H2. rewrite Hc0 in H2.
            specialize (H2 Hil Hin).
            rewrite (mapM_to_num_fixed _ _ Hm) in H2. congruence.
          - apply Hk1. intros c' Hc' Hl. rewrite Hc0, Hil in Hl.
            injection Hl as <-. contradiction. }
        by rewrite Hfix.
      * rewrite <- (Hk0 j Hne).
        assert (Hin : c ∈ cols).
        { apply elem_of_cons in Hc as [->|Hc]; [|exact Hc].
          exfalso. apply Hne. by apply Hiu. }
        apply (IH _ _ H j c); [by rewrite Hc0 | exact Hin].
    + injection Hx as <-. apply (IH _ _ H j c Hj).
      apply elem_of_cons in Hc as [->|Hc]; [|exact Hc]. exfalso.
      apply has_col_false in Hhas. apply Hhas.
      eapply list_elem_of_lookup_2, Hj.
Qed.

(** X5.  [_normalize_numeric] keeps the labels and the length of every
    row; the cells of a listed column are, top to bottom, [_to_num] of the
    cells they replace; a column that is not listed is left as it is. *)
Theorem normalize_numeric_cells F cols F' :
  _normalize_numeric F cols = Ok F' ->
  columns F' = columns F
  /\ List.map length (rows F') = List.map length (rows F)
  /\ (forall j c, columns F !! j = Some c -> c ∈ cols ->
        mapM _to_num (keys j (rows F)) = Ok (keys j (rows F')))
  /\ (forall j, (forall c, c ∈ cols -> columns F !! j <> Some c) ->
        keys j (rows F') = keys j (rows F)).
Proof.
  intros H. destruct (normalize_numeric_Ok _ _ _ H) as (Hc & Hl & Hk & _).
  split; [exact Hc|]. split; [exact Hl|]. split; [|exact Hk].
  by apply normalize_numeric_keys.
Qed.

Lemma normalize_numeric_cells_witness :
  columns text_table_normalized = columns text_table
  /\ keys 1 (rows text_table_normalized) = [VFloat (1234 # 1); VNaN]
  /\ keys 2 (rows text_table_normalized) = [VStr "7"; VStr "8"].
Proof.
  destruct (normalize_numeric_cells text_table ["시가"; "거래량"]
              text_table_normalized) as (Hc & _ & _ & _);
    [reflexivity|].
  split; [exact Hc|]. split; reflexivity.
Defined.

(** ** Normalising twice *)

Lemma insert_cell_id i (r : list value) : <[i := cell i r]> r = r.
Proof.
  destruct (r !! i) as [v|] eqn:E.
  - rewrite cell_lookup, E. simpl. by apply list_insert_id.
  - apply list_insert_ge. by apply lookup_ge_None.
Qed.

Lemma apply_col_fixed g c F i :
  position c (columns F) = Ok i ->
  Forall (fun v => g v = Ok v) (keys i (rows F)) ->
  apply_col c g F = Ok F.
Proof.
  intros Hi Hall. unfold apply_col. rewrite Hi. cbn [mbind result_bind].
  assert (H : mapM (fun r => v ← g (cell i r); Ok (<[i := v]> r)) (rows F)
              = Ok (rows F)).
  { induction (rows F) as [|r rs IH]; [reflexivity|].
    simpl in Hall. apply Forall_cons in Hall as [Hr Hrs]. cbn [mapM].
    rewrite Hr. cbn [mbind result_bind]. rewrite (IH Hrs).
    cbn [mbind result_bind]. by rewrite insert_cell_id. }
  rewrite H. cbn [mbind result_bind]. by destruct F.
Qed.

Lemma normalize_numeric_fixed cols F :
  (forall c, c ∈ cols -> c ∈ columns F ->
     exists i, position c (columns F) = Ok i
               /\ Forall (fun v => _to_num v = Ok v) (keys i (rows F))) ->
  _normalize_numeric F cols = Ok F.
Proof.
  induction cols as [|c cols IH]; intros H; [reflexivity|].
  cbn [_normalize_numeric].
  destruct (has_col c (columns F)) eqn:E.
  - apply has_col_true in E. destruct (H c ltac:(left) E) as (i & Hi & Hf).
    rewrite (apply_col_fixed _ c F i Hi Hf). cbn [mbind result_bind].
    apply IH. intros c' Hc'. apply H. by right.
  - cbn [mbind result_bind]. apply IH. intros c' Hc'. apply H. by right.
Qed.

(** X6.  [_normalize_numeric] is idempotent: normalising the table it
    returned, for the same labels, succeeds and changes nothing. *)
Theorem normalize_numeric_idempotent F cols F' :
  _normalize_numeric F cols = Ok F' -> _normalize_numeric F' cols = Ok F'.
Proof.
  intros H. apply normalize_numeric_fixed. intros c Hc Hin.
  destruct (normalize_numeric_Ok _ _ _ H) as (Hcols & _ & _ & Hpos).
  rewrite Hcols in *. destruct (Hpos c Hc Hin) as [i Hi]. exists i.
  split; [exact Hi|].
  pose proof (position_Ok _ _ _ Hi) as [Hl _].
  pose proof (normalize_numeric_keys _ _ _ H i c Hl Hc) as Hm.
  eapply Forall_impl; [exact (mapM_to_num_floats _ _ Hm)|].
  intros v. apply to_num_fixed.
Qed.

Lemma normalize_numeric_idempotent_witness :
  _normalize_numeric text_table_normalized ["시가"; "거래량"]
  = Ok text_table_normalized.
Proof.
  apply (normalize_numeric_idempotent text_table). reflexivity.
Defined.

(** ** How [_normalize_numeric] can fail *)

Lemma positions_from c cols : forall k i l,
  positions c k cols = i :: l -> Forall (fun j => (i < j)%nat) l.
Proof.
  induction cols as [|x cols IH]; intros k i l H; [discriminate|].
  cbn [positions] in H. destruct (String.eqb x c).
  - injection H as <- <-. apply Forall_forall. intros j Hj.
    apply elem_of_positions in Hj. lia.
  - eapply IH, H.
Qed.

(** A label that cannot be used as one series is missing or stands at two
    places. *)
Lemma position_Raise c cols e :
  position c cols = Raise e ->
  ((c ∉ cols) /\ e = KeyError c)
  \/ (exists m i j, e = ValueError m /\ i <> j
                    /\ cols !! i = Some c /\ cols !! j = Some c).
Proof.
  unfold position. destruct (positions c 0 cols) as [|i [|j l]] eqn:E;
    intros H; try discriminate; injection H as <-.
  - left. split; [by apply (positions_nil c 0) | reflexivity].
  - right. exists ("the label " +:+ c +:+ " is not unique"), i, j.
    split; [reflexivity|].
    pose proof (positions_from _ _ _ _ _ E) as Hlt.
    apply Forall_cons in Hlt as [Hlt _].
    assert (Hi : i ∈ positions c 0 cols) by (rewrite E; left).
    assert (Hj : j ∈ positions c 0 cols) by (rewrite E; right; left).
    apply elem_of_positions in Hi as [_ Hi]. apply elem_of_positions in Hj as [_ Hj].
    rewrite Nat.sub_0_r in Hi, Hj. split; [lia|]. by split.
Qed.

Lemma apply_col_Raise g c F e :
  apply_col c g F = Raise e ->
  position c (columns F) = Raise e
  \/ exists i v, position c (columns F) = Ok i /\ v ∈ keys i (rows F)
                 /\ g v = Raise e.
Proof.
  unfold apply_col. destruct (position c (columns F)) as [i|e'] eqn:Ei.
  - cbn [mbind result_bind]. intros H. right.
    destruct (mapM _ (rows F)) as [rs|e''] eqn:Em; [discriminate|].
    cbn [mbind result_bind] in H. injection H as ->.
    apply mapM_Raise in Em as (r & Hr & Hg).
    exists i, (cell i r). split; [reflexivity|]. split.
    + unfold keys. apply list_elem_of_In, List.in_map. by apply list_elem_of_In.
    + cbn beta in Hg. destruct (g (cell i r)) as [v|e1]; [discriminate Hg|].
      cbn [mbind result_bind] in Hg. congruence.
  - cbn [mbind result_bind]. intros H. left. by injection H as ->.
Qed.

Lemma normalize_numeric_Raise cols : forall F e,
  _normalize_numeric F cols = Raise e ->
  (exists c m i j, c ∈ cols /\ e = ValueError m /\ i <> j
                   /\ columns F !! i = Some c /\ columns F !! j = Some c)
  \/ (exists c i z, c ∈ cols /\ columns F !! i = Some c
                    /\ VInt z ∈ keys i (rows F) /\ float_overflow <= Z.abs z
                    /\ e = OverflowError "int too large to convert to float").
Proof.
  induction cols as [|c0 cols IH]; intros F e H; [discriminate|].
  cbn [_normalize_numeric] in H.
  destruct (has_col c0 (columns F)) eqn:Hhas.
  - destruct (apply_col c0 _to_num F) as [F1|e1] eqn:E1.
    + cbn [mbind result_bind] in H.
      apply apply_col_Ok in E1 as (i0 & Hi0 & Hc0 & Hm & Hk0 & _);
        [|exact to_num_nan].
      destruct (IH _ _ H) as [(c & m & i & j & Hc & He & Hij & Hi & Hj)
                             |(c & i & z & Hc & Hi & Hz & Hb & He)].
      * left. exists c, m, i, j. rewrite Hc0 in Hi, Hj.
        repeat split; try assumption. by right.
      * right. exists c, i, z. rewrite Hc0 in Hi.
        split; [by right|]. split; [assumption|]. split; [|by split].
        destruct (decide (i = i0)) as [->|Hne].
        -- exfalso. pose proof (mapM_to_num_floats _ _ Hm) as Hf.
           rewrite Forall_forall in Hf. by specialize (Hf _ Hz).
        -- by rewrite <- (Hk0 i Hne).
    + cbn [mbind result_bind] in H. injection H as ->.
      apply apply_col_Raise in E1 as [Hp|(i & v & Hi & Hv & Hg)].
      * apply position_Raise in Hp as [[Hn _]|(m & i & j & -> & Hij & Hi & Hj)].
        -- apply has_col_true in Hhas. contradiction.
        -- left. exists c0, m, i, j. repeat split; try assumption. left.
      * apply to_num_raises in Hg as (z & -> & Hz & ->).
        right. exists c0, i, z. apply position_Ok in Hi as [Hi _].
        repeat split; try assumption. left.
  - cbn [mbind result_bind] in H.
    destruct (IH _ _ H) as [(c & m & i & j & Hc & He & Hij & Hi & Hj)
                           |(c & i & z & Hc & Hi & Hz & Hb & He)].
    + left. exists c, m, i, j. repeat split; try assumption. by right.
    + right. exists c, i, z. repeat split; try assumption. by right.
Qed.


(** ** The run, step by step *)

Lemma makedirs_cases d w :
  (exists e, makedirs d w = (w, Raise e))
  \/ (makedirs d w = (with_dir d w, Ok tt)
      /\ mkdir_refused w = None /\ d <> ""
      /\ forall p, p ∈ path_dirs d -> files w !! p = None).
Proof.
  unfold makedirs, with_dir.
  destruct (mkdir_refused w) as [e|] eqn:Er; [left; eauto|].
  destruct (String.eqb_spec d "") as [->|Hd]; [left; eauto|].
  destruct (List.find _ (path_dirs d)) as [p|] eqn:E; [left; eauto|].
  right. split; [reflexivity|]. split; [reflexivity|]. split; [exact Hd|].
  intros p Hp. apply list_elem_of_In in Hp.
  pose proof (List.find_none _ _ E p Hp) as Hn. cbv beta in Hn.
  apply bool_decide_eq_false in Hn. by apply eq_None_not_Some.
Qed.

Lemma position_date_out lib cfg today stock out :
  build_table lib cfg today stock = Ok out ->
  position "일자" (columns out) = Ok 0%nat.
Proof.
  intros H.
  destruct (build_table_columns _ _ _ _ _ H)
    as (s & e & df & F0 & rest & _ & _ & _ & _ & Hc & Hrest).
  rewrite Hc. apply position_head. intros Hin.
  apply elem_of_app in Hin as [Hin|Hin].
  - by apply Hrest, date_not_rest in Hin.
  - unfold short_names in Hin.
    repeat (apply elem_of_cons in Hin as [Hin|Hin]; [discriminate|]).
    by apply elem_of_nil in Hin.
Qed.

(** Everything a run of [main] leaves behind, case by case. *)
Lemma main_trace lib cfg today stock w :
  let d := OUTPUT_DIR cfg in
  let path := path_join d (OUTFILE cfg) in
  let '(w', r) := main lib cfg today stock w in
  mkdir_refused w' = mkdir_refused w /\ write_refused w' = write_refused w
  /\ stderr w' = stderr w
  /\ match snd (makedirs d w) with
     | Raise e => r = Raise e /\ w' = w
     | Ok _ =>
         dirs w' = list_to_set (path_dirs d) ∪ dirs w
         /\ match build_table lib cfg today stock with
            | Raise e => r = Raise e /\ stdout w' = stdout w /\ files w' = files w
            | Ok out =>
                match write_refused w with
                | Some (e, part) =>
                    r = Raise e /\ stdout w' = stdout w
                    /\ files w' = match part with
                                  | Some p => <[path := p]> (files w)
                                  | None => files w
                                  end
                | None =>
                    files w' = <[path := to_csv_text lib out]> (files w)
                    /\ match series_min lib (dates out) with
                       | Raise e =>
                           r = Raise e
                           /\ stdout w' = stdout w ++ [saved_line cfg; cols_line out]
                       | Ok lo =>
                           match series_max lib (dates out) with
                           | Raise e =>
                               r = Raise e
                               /\ stdout w'
                                  = stdout w ++ [saved_line cfg; cols_line out]
                           | Ok hi =>
                               r = Ok tt
                               /\ stdout w'
                                  = stdout w ++ [saved_line cfg; cols_line out;
                                                 rows_line out lo hi]
                           end
                       end
                end
            end
     end.
Proof.
  cbv zeta. unfold main. rewrite io_bind_unfold.
  destruct (makedirs_cases (OUTPUT_DIR cfg) w) as [[e ->]|(-> & _ & _ & _)].
  { simpl. auto. }
  cbn [snd]. rewrite io_bind_unfold. unfold lift at 1.
  destruct (build_table lib cfg today stock) as [out|e] eqn:Eb.
  2:{ simpl. auto 10. }
  rewrite io_bind_unfold. unfold write_file.
  change (write_refused (with_dir (OUTPUT_DIR cfg) w)) with (write_refused w).
  destruct (write_refused w) as [[e [part|]]|] eqn:Ew.
  { simpl. auto 10. }
  { simpl. auto 10. }
  unfold mbind, io_bind, print, lift. cbn.
  rewrite (position_date_out _ _ _ _ _ Eb). fold (dates out).
  destruct (series_min lib (dates out)) as [lo|e].
  2:{ cbn. rewrite <- app_assoc. auto 10. }
  destruct (series_max lib (dates out)) as [hi|e].
  2:{ cbn. rewrite <- app_assoc. auto 10. }
  cbn. rewrite <- !app_assoc. auto 10.
Qed.

(** What [script] adds to the run of [main]. *)
Lemma script_world lib cfg today stock w :
  files (fst (script lib cfg today stock w))
  = files (fst (main lib cfg today stock w))
  /\ dirs (fst (script lib cfg today stock w))
     = dirs (fst (main lib cfg today stock w))
  /\ stdout (fst (script lib cfg today stock w))
     = stdout (fst (main lib cfg today stock w))
  /\ mkdir_refused (fst (script lib cfg today stock w))
     = mkdir_refused (fst (main lib cfg today stock w))
  /\ write_refused (fst (script lib cfg today stock w))
     = write_refused (fst (main lib cfg today stock w))
  /\ match snd (main lib cfg today stock w) with
     | Ok _ => snd (script lib cfg today stock w) = 0
               /\ stderr (fst (script lib cfg today stock w))
                  = stderr (fst (main lib cfg today stock w))
     | Raise e => snd (script lib cfg today stock w) = 1
                  /\ stderr (fst (script lib cfg today stock w))
                     = stderr (fst (main lib cfg today stock w))
                       ++ ["[ERROR] " +:+ exn_str e]
     end.
Proof.
  unfold script. destruct (main lib cfg today stock w) as [w' [u|e]];
    simpl; auto 10.
Qed.

(** ** The summary on standard output *)

(** X8.  The summary on standard output (lines 111-113).  A run of [main]
    that returns has printed exactly three lines after what was there: the
    path of the file, the list of the columns, and the number of rows with
    the smallest and the largest date; the exit code is then 0.  [main]
    returns when the directory can be made, the table is built, the write
    is not refused and the smallest and largest date exist.  A run that
    fails before or in the write prints nothing on standard output. *)
Theorem summary_lines lib cfg today stock w :
  (forall u, snd (main lib cfg today stock w) = Ok u ->
     exists out lo hi,
       build_table lib cfg today stock = Ok out
       /\ series_min lib (dates out) = Ok lo
       /\ series_max lib (dates out) = Ok hi
       /\ stdout (fst (script lib cfg today stock w))
          = stdout w ++ [saved_line cfg; cols_line out; rows_line out lo hi]
       /\ snd (script lib cfg today stock w) = 0)
  /\ (forall out lo hi,
        snd (makedirs (OUTPUT_DIR cfg) w) = Ok tt ->
        build_table lib cfg today stock = Ok out ->
        write_refused w = None ->
        series_min lib (dates out) = Ok lo ->
        series_max lib (dates out) = Ok hi ->
        snd (main lib cfg today stock w) = Ok tt)
  /\ (is_ok (snd (makedirs (OUTPUT_DIR cfg) w)) = false
      \/ is_ok (build_table lib cfg today stock) = false
      \/ is_Some (write_refused w) ->
      stdout (fst (script lib cfg today stock w)) = stdout w).
Proof.
  pose proof (main_trace lib cfg today stock w) as T. cbv zeta in T.
  pose proof (script_world lib cfg today stock w) as (_ & _ & Hout & _ & _ & Hexit).
  destruct (main lib cfg today stock w) as [w' r]. cbn [fst snd] in *.
  destruct T as (_ & _ & _ & T). rewrite Hout.
  split; [|split].
  - intros u ->.
    destruct (snd (makedirs (OUTPUT_DIR cfg) w)) as [[]|e]; [|by destruct T].
    destruct T as (_ & T).
    destruct (build_table lib cfg today stock) as [out|e]; [|by destruct T].
    destruct (write_refused w) as [[e part]|]; [by destruct T|].
    destruct T as (_ & T).
    destruct (series_min lib (dates out)) as [lo|e] eqn:Elo; [|by destruct T].
    destruct (series_max lib (dates out)) as [hi|e] eqn:Ehi; [|by destruct T].
    destruct T as (_ & T). destruct Hexit as (Hexit & _).
    exists out, lo, hi. auto.
  - intros out lo hi Hmk Hb Hw Hlo Hhi.
    rewrite Hmk, Hb, Hw, Hlo, Hhi in T. tauto.
  - intros Hfail.
    destruct (snd (makedirs (OUTPUT_DIR cfg) w)) as [[]|e];
      [|destruct T as (_ & ->); reflexivity].
    destruct T as (_ & T).
    destruct (build_table lib cfg today stock) as [out|e]; [|tauto].
    destruct (write_refused w) as [[e part]|]; [tauto|].
    destruct Hfail as [Hf|[Hf|Hf]]; try discriminate Hf.
    by destruct Hf.
Qed.

Lemma summary_lines_witness :
  snd (main lib cfg today stock_full world0) = Ok tt
  /\ stdout (fst (script lib cfg today stock_full world_full_disk)) = [].
Proof.
  destruct (summary_lines lib cfg today stock_full world0) as (_ & H & _).
  destruct (summary_lines lib cfg today stock_full world_full_disk)
    as (_ & _ & H').
  split.
  - apply (H out_full (VStr "2026-11-02") (VStr "2026-11-04"));
      vm_compute; reflexivity.
  - apply H'. right. right. by eexists.
Defined.

(** X9.  The summary is computed after the file is written: when the
    smallest or the largest date of the output cannot be computed (line
    113), the run ends with exit code 1 and the error on standard error,
    but the complete CSV file is on disk and the first two lines of the
    summary are printed. *)
Theorem summary_failure_keeps_file lib cfg today stock w out e :
  snd (makedirs (OUTPUT_DIR cfg) w) = Ok tt ->
  build_table lib cfg today stock = Ok out ->
  write_refused w = None ->
  series_min lib (dates out) = Raise e
  \/ (is_ok (series_min lib (dates out)) = true
      /\ series_max lib (dates out) = Raise e) ->
  snd (script lib cfg today stock w) = 1
  /\ files (fst (script lib cfg today stock w))
       !! path_join (OUTPUT_DIR cfg) (OUTFILE cfg)
     = Some (to_csv_text lib out)
  /\ stdout (fst (script lib cfg today stock w))
     = stdout w ++ [saved_line cfg; cols_line out]
  /\ stderr (fst (script lib cfg today stock w))
     = stderr w ++ ["[ERROR] " +:+ exn_str e].
Proof.
  intros Hmk Hb Hw Hfail.
  pose proof (main_trace lib cfg today stock w) as T. cbv zeta in T.
  pose proof (script_world lib cfg today stock w)
    as (Hfiles & _ & Hout & _ & _ & Hexit).
  destruct (main lib cfg today stock w) as [w' r]. cbn [fst snd] in *.
  rewrite Hmk, Hb, Hw in T. destruct T as (_ & _ & Herr & _ & Hf & T).
  rewrite Hfiles, Hout, Hf, lookup_insert_eq.
  assert (Hr : r = Raise e
               /\ stdout w' = stdout w ++ [saved_line cfg; cols_line out]).
  { destruct Hfail as [Hlo|[Hlo Hhi]].
    - by rewrite Hlo in T.
    - destruct (series_min lib (dates out)); [|discriminate]. by rewrite Hhi in T. }
  destruct Hr as [-> Hs]. destruct Hexit as [-> ->]. rewrite Herr. auto.
Qed.

Lemma summary_failure_keeps_file_witness :
  snd (script lib cfg today stock_gap world0) = 1
  /\ files (fst (script lib cfg today stock_gap world0))
       !! "data/latest_market_ohlcv.csv"
     = Some (to_csv_text lib out_gap)
  /\ stdout (fst (script lib cfg today stock_gap world0))
     = [saved_line cfg; cols_line out_gap]
  /\ stderr (fst (script lib cfg today stock_gap world0))
     = ["[ERROR] '<=' not supported between instances of 'str' and 'float'"].
Proof.
  apply (summary_failure_keeps_file lib cfg today stock_gap world0 out_gap
           (TypeError "'<=' not supported between instances of 'str' and 'float'"));
    try reflexivity.
  left. reflexivity.
Defined.

(** ** The directory and a second run *)

(** The last of the directories on the way to a path is the path itself,
    written with single slashes. *)
Lemma dirs_below_last above names :
  names <> [] ->
  exists d, last (dirs_below above names) = Some d.
Proof.
  revert above. induction names as [|n names IH]; intros above Hne; [done|].
  destruct names as [|n' names]; [by eexists|].
  destruct (IH (above +:+ n +:+ "/") ltac:(discriminate)) as [d Hd].
  exists d. cbn [dirs_below] in *. by rewrite last_cons, Hd.
Qed.

(** X10.  The output directory is made first (line 54), together with the
    directories above it that are missing: after a run whose [os.makedirs]
    succeeded the directories are those of before and the directories on the
    way to [OUTPUT_DIR] ([a] and [a/b] for [a/b]); no run removes a
    directory.  So a run whose data cannot be fetched or normalised still
    leaves these directories behind, changes no file and exits with code 1.
    An empty [OUTPUT_DIR] makes [os.makedirs] raise: the run then exits with
    code 1 and changes no file. *)
Theorem directory_made_first lib cfg today stock w :
  dirs w ⊆ dirs (fst (script lib cfg today stock w))
  /\ (snd (makedirs (OUTPUT_DIR cfg) w) = Ok tt ->
      OUTPUT_DIR cfg <> ""
      /\ dirs (fst (script lib cfg today stock w))
         = list_to_set (path_dirs (OUTPUT_DIR cfg)) ∪ dirs w)
  /\ (path_dirs "data" = ["data"] /\ path_dirs "a/b" = ["a"; "a/b"]
      /\ path_dirs "/srv/out/" = ["/srv"; "/srv/out"])
  /\ (forall e, snd (makedirs (OUTPUT_DIR cfg) w) = Ok tt ->
         build_table lib cfg today stock = Raise e ->
         (forall p, p ∈ path_dirs (OUTPUT_DIR cfg) ->
                    p ∈ dirs (fst (script lib cfg today stock w)))
         /\ files (fst (script lib cfg today stock w)) = files w
         /\ snd (script lib cfg today stock w) = 1)
  /\ (OUTPUT_DIR cfg = "" ->
      is_ok (snd (makedirs (OUTPUT_DIR cfg) w)) = false
      /\ snd (script lib cfg today stock w) = 1
      /\ files (fst (script lib cfg today stock w)) = files w).
Proof.
  pose proof (main_trace lib cfg today stock w) as T. cbv zeta in T.
  pose proof (script_world lib cfg today stock w)
    as (Hfiles & Hdirs & _ & _ & _ & Hexit).
  destruct (main lib cfg today stock w) as [w' r]. cbn [fst snd] in *.
  rewrite Hdirs, Hfiles. destruct T as (_ & _ & _ & T).
  split; [|split; [|split; [|split]]].
  - destruct (snd (makedirs (OUTPUT_DIR cfg) w)) as [[]|e].
    + destruct T as [-> _]. apply union_subseteq_r.
    + by destruct T as (_ & ->).
  - intros Hmk. rewrite Hmk in T. split; [|by destruct T].
    destruct (makedirs_cases (OUTPUT_DIR cfg) w) as [[e He]|(_ & _ & Hne & _)];
      [rewrite He in Hmk; discriminate | exact Hne].
  - repeat split; reflexivity.
  - intros e Hmk Hb. rewrite Hmk, Hb in T. destruct T as (Hd & -> & _ & Hf).
    rewrite Hd. split; [|split; [exact Hf | apply Hexit]].
    intros p Hp. apply elem_of_union. left. by apply elem_of_list_to_set.
  - intros He.
    assert (Hmk : exists e, makedirs (OUTPUT_DIR cfg) w = (w, Raise e)).
    { rewrite He. unfold makedirs. destruct (mkdir_refused w); eauto. }
    destruct Hmk as [e Hmk]. rewrite Hmk in T |- *. cbn [snd] in *.
    destruct T as (-> & ->). split; [reflexivity|]. split; [apply Hexit | reflexivity].
Qed.

Lemma directory_made_first_witness :
  (forall p, p ∈ ["data"] ->
             p ∈ dirs (fst (script lib cfg today stock_down world0)))
  /\ files (fst (script lib cfg today stock_down world0)) = files world0
  /\ snd (script lib cfg today stock_down world0) = 1.
Proof.
  destruct (directory_made_first lib cfg today stock_down world0)
    as (_ & _ & _ & H & _).
  apply (H (OtherError "ConnectionError" "connection refused")); reflexivity.
Defined.

(** X11.  A run replaces the output file and touches no other file; a
    second run on the same day with the same answers of the provider finds
    the directory ([exist_ok=True]), writes the same file again and leaves
    files and directories as the first run left them. *)
Theorem rerun_overwrites lib cfg today stock w out :
  snd (makedirs (OUTPUT_DIR cfg) w) = Ok tt ->
  build_table lib cfg today stock = Ok out ->
  write_refused w = None ->
  path_join (OUTPUT_DIR cfg) (OUTFILE cfg) <> OUTPUT_DIR cfg ->
  let w1 := fst (script lib cfg today stock w) in
  files w1 = <[path_join (OUTPUT_DIR cfg) (OUTFILE cfg) := to_csv_text lib out]>
               (files w)
  /\ files (fst (script lib cfg today stock w1)) = files w1
  /\ dirs (fst (script lib cfg today stock w1)) = dirs w1.
Proof.
  intros Hmk Hb Hw Hne w1.
  assert (H1 : files w1 = <[path_join (OUTPUT_DIR cfg) (OUTFILE cfg)
                             := to_csv_text lib out]> (files w)
               /\ dirs w1 = list_to_set (path_dirs (OUTPUT_DIR cfg)) ∪ dirs w
               /\ mkdir_refused w1 = mkdir_refused w
               /\ write_refused w1 = None).
  { unfold w1.
    pose proof (main_trace lib cfg today stock w) as T. cbv zeta in T.
    pose proof (script_world lib cfg today stock w)
      as (Hfiles & Hdirs & _ & Hm & Hwr & _).
    destruct (main lib cfg today stock w) as [w' r]. cbn [fst snd] in *.
    rewrite Hmk, Hb, Hw in T. destruct T as (Tm & Tw & _ & Td & Tf & _).
    rewrite Hfiles, Hdirs, Hm, Hwr. auto. }
  destruct H1 as (Hf1 & Hd1 & Hm1 & Hw1). split; [exact Hf1|].
  pose proof (main_trace lib cfg today stock w1) as T. cbv zeta in T.
  pose proof (script_world lib cfg today stock w1) as (Hfiles & Hdirs & _).
  destruct (main lib cfg today stock w1) as [w' r]. cbn [fst snd] in *.
  rewrite Hfiles, Hdirs. destruct T as (_ & _ & _ & T).
  destruct (snd (makedirs (OUTPUT_DIR cfg) w1)) as [[]|e].
  - rewrite Hb, Hw1 in T. destruct T as (Td & Tf & _).
    rewrite Tf, Td, Hf1, Hd1. split.
    + apply insert_insert_eq.
    + apply set_eq. intros x. rewrite !elem_of_union. tauto.
  - by destruct T as (_ & ->).
Qed.

Lemma rerun_overwrites_witness :
  files (fst (script lib cfg today stock_full
                (fst (script lib cfg today stock_full world1))))
  = files (fst (script lib cfg today stock_full world1)).
Proof.
  pose proof (rerun_overwrites lib cfg today stock_full world1 out_full) as H.
  cbv zeta in H.
  destruct H as (_ & H & _);
    [reflexivity | reflexivity | reflexivity | discriminate | exact H].
Defined.

(** ** A run without prices *)

Lemma build_raises_stderr lib cfg today stock w e :
  snd (makedirs (OUTPUT_DIR cfg) w) = Ok tt ->
  build_table lib cfg today stock = Raise e ->
  snd (script lib cfg today stock w) = 1
  /\ stderr (fst (script lib cfg today stock w))
     = stderr w ++ ["[ERROR] " +:+ exn_str e]
  /\ files (fst (script lib cfg today stock w)) = files w.
Proof.
  intros Hmk Hb.
  pose proof (main_trace lib cfg today stock w) as T. cbv zeta in T.
  pose proof (script_world lib cfg today stock w) as (Hfiles & _ & _ & _ & _ & Hexit).
  destruct (main lib cfg today stock w) as [w' r]. cbn [fst snd] in *.
  rewrite Hmk, Hb in T. destruct T as (_ & _ & Herr & _ & -> & _ & Hf).
  destruct Hexit as [-> ->]. rewrite Hfiles, Herr, Hf. auto.
Qed.

(** X12.  The price table is required, unlike the two short-sale tables
    (lines 60-64 have no guard): when the provider answers [None] for the
    prices the run ends with an [AttributeError], and when its table has no
    date column (neither [날짜] nor [일자] after the index is reset, as for
    an empty table) with [KeyError: '일자']; in both cases the exit code is
    1 and no file is written. *)
Theorem price_table_required lib cfg today stock w s e :
  _yyyymmdd_range today (LOOKBACK_DAYS cfg) = Ok (s, e) ->
  snd (makedirs (OUTPUT_DIR cfg) w) = Ok tt ->
  (get_market_ohlcv stock s e (TICKER cfg) = Ok PyNone ->
     exists m, build_table lib cfg today stock = Raise (AttributeError m)
               /\ snd (script lib cfg today stock w) = 1
               /\ files (fst (script lib cfg today stock w)) = files w)
  /\ (forall df F0,
        get_market_ohlcv stock s e (TICKER cfg) = Ok (PyFrame df) ->
        reset_named_index df = Ok F0 ->
        "날짜" ∉ columns F0 -> "일자" ∉ columns F0 ->
        build_table lib cfg today stock = Raise (KeyError "일자")
        /\ snd (script lib cfg today stock w) = 1
        /\ stderr (fst (script lib cfg today stock w))
           = stderr w ++ ["[ERROR] '일자'"]
        /\ files (fst (script lib cfg today stock w)) = files w).
Proof.
  intros Hr Hmk. split.
  - intros Hget.
    assert (Hb : build_table lib cfg today stock
                 = Raise (AttributeError "object has no attribute 'index'")).
    { unfold build_table. rewrite Hr. cbn [mbind result_bind].
      rewrite Hget. reflexivity. }
    eexists. split; [exact Hb|].
    destruct (build_raises_stderr lib cfg today stock w _ Hmk Hb) as (H1 & _ & H3).
    by split.
  - intros df F0 Hget HF0 Hn1 Hn2.
    assert (Hb : build_table lib cfg today stock = Raise (KeyError "일자")).
    { unfold build_table. rewrite Hr. cbn [mbind result_bind].
      rewrite Hget. cbn [mbind result_bind].
      unfold normalize_ohlcv, prepare_ohlcv. rewrite HF0.
      cbn [mbind result_bind]. unfold apply_col, position.
      assert (Hp : positions "일자" 0
                     (columns (rename (fun c => if String.eqb c "날짜" then "일자" else c) F0))
                   = []).
      { apply positions_nil. cbn [rename columns]. intros Hin.
        apply list_elem_of_In, List.in_map_iff in Hin as (c & Hc & Hin).
        apply list_elem_of_In in Hin.
        destruct (String.eqb c "날짜") eqn:Ec.
        - apply String.eqb_eq in Ec. subst c. contradiction.
        - subst c. contradiction. }
      rewrite Hp. reflexivity. }
    split; [exact Hb|].
    by destruct (build_raises_stderr lib cfg today stock w _ Hmk Hb) as (H1 & H2 & H3).
Qed.

Lemma price_table_required_witness :
  build_table lib cfg today stock_empty = Raise (KeyError "일자")
  /\ snd (script lib cfg today stock_empty world0) = 1
  /\ stderr (fst (script lib cfg today stock_empty world0)) = ["[ERROR] '일자'"]
  /\ files (fst (script lib cfg today stock_empty world0)) = files world0.
Proof.
  destruct (price_table_required lib cfg today stock_empty world0
              "20250930" "20261104") as (_ & H); try reflexivity.
  apply (H (MkDataFrame None [] []) (MkFrame [] [])); try reflexivity;
    apply not_elem_of_nil.
Defined.
(** ** Tables row by row *)

Lemma lookup_map {A B} (f : A -> B) l n : List.map f l !! n = f <$> (l !! n).
Proof. revert n. induction l as [|x l IH]; intros [|n]; simpl; auto. Qed.

Lemma cell_map_labels (g : string -> value) (labels : list string) k c :
  labels !! k = Some c -> cell k (List.map g labels) = g c.
Proof. intros H. by rewrite cell_lookup, lookup_map, H. Qed.

Lemma row3 (r : list value) :
  length r = 3%nat -> r = [cell 0 r; cell 1 r; cell 2 r].
Proof. destruct r as [|a [|b [|c [|]]]]; try discriminate. reflexivity. Qed.

(** A cell-wise assignment, row by row. *)
Lemma apply_col_rows g c F F' :
  g VNaN = Ok VNaN -> apply_col c g F = Ok F' ->
  exists i, position c (columns F) = Ok i /\ columns F' = columns F
    /\ Forall2 (fun r r' => g (cell i r) = Ok (cell i r')
                            /\ (forall j, j <> i -> cell j r' = cell j r)
                            /\ length r' = length r) (rows F) (rows F').
Proof.
  intros Hnan H. unfold apply_col in H.
  apply bind_Ok in H as (i & Hi & H). apply bind_Ok in H as (rs & Hrs & H).
  injection H as <-. simpl. exists i. split; [assumption|]. split; [reflexivity|].
  apply mapM_Ok in Hrs. eapply Forall2_impl; [exact Hrs|].
  intros r r' Hr. cbn beta in Hr. apply bind_Ok in Hr as (v & Hv & Hr).
  injection Hr as <-. split; [|split].
  - by rewrite (cell_insert_apply g i v r).
  - intros j Hj. by apply cell_insert_ne.
  - apply length_insert.
Qed.

(** The numeric normalisation, row by row. *)
Lemma normalize_numeric_rows cols F F' :
  _normalize_numeric F cols = Ok F' ->
  Forall2 (fun r r' => forall j,
             (forall c, columns F !! j = Some c -> c ∈ cols ->
                        _to_num (cell j r) = Ok (cell j r'))
             /\ ((forall c, c ∈ cols -> columns F !! j <> Some c) ->
                 cell j r' = cell j r))
          (rows F) (rows F').
Proof.
  intros H. destruct (normalize_numeric_Ok _ _ _ H) as (_ & Hl & Hk & _).
  apply Forall2_same_length_lookup_2.
  - apply (f_equal length) in Hl. rewrite !List.length_map in Hl. by symmetry.
  - intros n r r' Hr Hr' j. split.
    + intros c Hj Hc. pose proof (normalize_numeric_keys _ _ _ H j c Hj Hc) as Hm.
      apply (mapM_lookup _ _ _ n _ _ Hm); rewrite keys_lookup;
        [by rewrite Hr | by rewrite Hr'].
    + intros Hn. specialize (Hk j Hn).
      apply (f_equal (fun l => l !! n)) in Hk.
      rewrite !keys_lookup, Hr, Hr' in Hk. simpl in Hk. congruence.
Qed.

(** [drop_duplicates] keeps, of the rows of a key, the first one. *)
Lemma drop_dup_rows_first i rs : forall seen r,
  r ∈ drop_dup_rows i seen rs ->
  exists n, rs !! n = Some r
    /\ forall m r', (m < n)%nat -> rs !! m = Some r' -> cell i r' <> cell i r.
Proof.
  induction rs as [|r0 rs IH]; intros seen r Hr; simpl in Hr.
  - by apply elem_of_nil in Hr.
  - assert (Hns : forall seen', r ∈ drop_dup_rows i seen' rs -> cell i r ∉ seen').
    { intros seen' Hin. destruct (drop_dup_rows_spec i rs seen') as (_ & Hiff & _).
      assert (Hk : cell i r ∈ keys i (drop_dup_rows i seen' rs)).
      { unfold keys. apply list_elem_of_In, List.in_map. by apply list_elem_of_In. }
      by apply Hiff in Hk as [_ Hk]. }
    destruct (existsb (key_eqb (cell i r0)) seen) eqn:E.
    + apply existsb_key_eqb in E. destruct (IH _ _ Hr) as (n & Hn & Hfirst).
      exists (S n). split; [exact Hn|]. intros [|m] r' Hm Hr'.
      * simpl in Hr'. injection Hr' as <-. intros Heq.
        apply (Hns seen Hr). by rewrite <- Heq.
      * apply (Hfirst m r'); [lia | exact Hr'].
    + apply elem_of_cons in Hr as [->|Hr].
      * exists 0%nat. split; [reflexivity|]. intros m r' Hm. lia.
      * destruct (IH _ _ Hr) as (n & Hn & Hfirst).
        exists (S n). split; [exact Hn|]. intros [|m] r' Hm Hr'.
        -- simpl in Hr'. injection Hr' as <-. intros Heq.
           apply (Hns _ Hr). rewrite <- Heq. left.
        -- apply (Hfirst m r'); [lia | exact Hr'].
Qed.

(** ** Where the cells of the price table come from *)

Lemma normalize_ohlcv_rows lib df P :
  normalize_ohlcv lib (PyFrame df) = Ok P ->
  exists F0 i,
    prepare_ohlcv df = Ok F0 /\ position "일자" (columns F0) = Ok i
    /\ forall lr, lr ∈ rows P ->
         exists n r0,
           rows F0 !! n = Some r0
           /\ date_text lib (cell i r0) = Ok (cell 0 lr)
           /\ (forall m r1, (m < n)%nat -> rows F0 !! m = Some r1 ->
                 date_text lib (cell i r1) <> Ok (cell 0 lr))
           /\ forall k c, columns P !! k = Some c -> c <> "일자" ->
                exists j, position c (columns F0) = Ok j
                          /\ _to_num (cell j r0) = Ok (cell k lr).
Proof.
  intros H. unfold normalize_ohlcv in H. inv_ok.
  rename x into F0, x0 into F1, x1 into F2, x2 into F3, x3 into F4.
  pose proof (normalize_numeric_rows _ _ _ Hx1) as R12.
  apply apply_col_rows in Hx0 as (i & Hi & Hc1 & R01); [|apply date_text_nan].
  apply normalize_numeric_Ok in Hx1 as (Hc2 & _ & _ & Hp2).
  rewrite Hc1 in Hc2, Hp2.
  pose proof (position_Ok _ _ _ Hi) as [Hil Hiu].
  set (base := List.filter (fun c => has_col c (columns F2)) wanted_cols) in *.
  set (pos := fun c => match position c (columns F2) with
                       | Ok j => j | Raise _ => 0%nat end).
  assert (Hpos : forall c, c ∈ base -> position c (columns F2) = Ok (pos c)).
  { intros c Hc. apply elem_of_filter_list in Hc as [Hw Hh].
    apply has_col_true in Hh. unfold pos.
    apply wanted_cols_cases in Hw as [->|[Hn _]].
    - rewrite Hc2. by rewrite Hi.
    - rewrite Hc2 in *. destruct (Hp2 c Hn Hh) as [j ->]. reflexivity. }
  rewrite (select_unique base F2 pos Hpos) in Hx2. injection Hx2 as <-.
  assert (Hbase : exists rest, base = "일자" :: rest
                               /\ forall c, c ∈ rest -> c ∈ tail wanted_cols).
  { assert (Hh : has_col "일자" (columns F2) = true).
    { apply has_col_true. rewrite Hc2. eapply position_has_col, Hi. }
    unfold base. change wanted_cols with ("일자" :: tail wanted_cols).
    remember (tail wanted_cols) as six eqn:Hsix.
    cbn [List.filter]. rewrite Hh. eexists. split; [reflexivity|].
    intros c Hc. apply elem_of_filter_list in Hc as [Hc _]. exact Hc. }
  destruct Hbase as (rest & Hb & Hrest).
  assert (H0 : position "일자" base = Ok 0%nat).
  { rewrite Hb. apply position_head. intros Hin. apply Hrest in Hin.
    by apply date_not_rest. }
  unfold drop_duplicates in Hx3. simpl in Hx3. rewrite H0 in Hx3.
  simpl in Hx3. injection Hx3 as <-.
  unfold sort_values in H. simpl in H. rewrite H0 in H. simpl in H. injection H as <-.
  cbn [columns rows].
  set (h := fun r : list value => List.map (fun c => cell (pos c) r) base).
  set (sel := List.map h (rows F2)).
  assert (Hpi : pos "일자" = i).
  { assert (Hin : "일자" ∈ base) by (rewrite Hb; left).
    specialize (Hpos _ Hin). rewrite Hc2, Hi in Hpos. by injection Hpos. }
  (* a row of the provider and the row selected from it *)
  assert (Hrow : forall m r0, rows F0 !! m = Some r0 ->
            exists lr, sel !! m = Some lr
              /\ date_text lib (cell i r0) = Ok (cell 0 lr)
              /\ forall k c, base !! k = Some c -> c <> "일자" ->
                   exists j, position c (columns F0) = Ok j
                             /\ _to_num (cell j r0) = Ok (cell k lr)).
  { intros m r0 Hm.
    destruct (Forall2_lookup_l _ _ _ _ _ R01 Hm) as (r1 & Hm1 & Hd & Hsame & _).
    destruct (Forall2_lookup_l _ _ _ _ _ R12 Hm1) as (r2 & Hm2 & H12).
    exists (h r2). split; [unfold sel; by rewrite lookup_map, Hm2|]. split.
    - unfold h. rewrite (cell_map_labels _ base 0 "일자") by (by rewrite Hb).
      rewrite Hpi. destruct (H12 i) as [_ Hkeep]. rewrite Hkeep; [exact Hd|].
      intros c Hc Hl. rewrite Hc1, Hil in Hl. injection Hl as <-.
      by apply date_not_numeric.
    - intros k c Hk Hne.
      assert (Hin : c ∈ base) by (eapply list_elem_of_lookup_2, Hk).
      pose proof (Hpos c Hin) as Hj. exists (pos c). rewrite <- Hc2.
      split; [exact Hj|].
      unfold h. rewrite (cell_map_labels _ base k c Hk).
      apply elem_of_filter_list in Hin as [Hw _].
      apply wanted_cols_cases in Hw as [->|[Hnum _]]; [congruence|].
      pose proof (position_Ok _ _ _ Hj) as [Hjl _]. rewrite Hc2 in Hjl.
      destruct (H12 (pos c)) as [Hnumj _].
      rewrite <- (Hsame (pos c)).
      + apply (Hnumj c); [by rewrite Hc1 | exact Hnum].
      + intros Heq. rewrite Heq, Hil in Hjl. congruence. }
  exists F0, i. split; [assumption|]. split; [assumption|].
  intros lr Hlr. rewrite (sort_rows_perm 0 true _) in Hlr.
  apply drop_dup_rows_first in Hlr as (n & Hn & Hfirst).
  fold h in Hn, Hfirst. fold sel in Hn, Hfirst.
  assert (Hlen : length sel = length (rows F0)).
  { unfold sel. rewrite List.length_map.
    rewrite <- (Forall2_length _ _ _ R12). symmetry. apply (Forall2_length _ _ _ R01). }
  destruct (lookup_lt_is_Some_2 (rows F0) n) as [r0 Hr0].
  { rewrite <- Hlen. eapply lookup_lt_Some, Hn. }
  destruct (Hrow n r0 Hr0) as (lr' & Hn' & Hd & Hcells).
  rewrite Hn in Hn'. injection Hn' as <-.
  exists n, r0. split; [exact Hr0|]. split; [exact Hd|]. split; [|exact Hcells].
  intros m r1 Hm Hr1 Heq.
  destruct (Hrow m r1 Hr1) as (lr1 & Hm1 & Hd1 & _).
  apply (Hfirst m lr1 Hm Hm1). congruence.
Qed.

(** X13.  Where the price cells of the output come from.  Every row of the
    output is made from one row of the provider's price table: the first
    one, top to bottom, of its date.  Its date is that row's date as
    [YYYY-MM-DD] text (a missing value for a missing date), and each of its price cells (open, high, low, close,
    volume, change) is [_to_num] of that row's cell under the same label;
    the zero filling does not touch them.  A later price row of the same
    date contributes nothing. *)
Theorem price_cells_from_first_row lib cfg today stock out :
  build_table lib cfg today stock = Ok out ->
  exists s e df F0 i,
    _yyyymmdd_range today (LOOKBACK_DAYS cfg) = Ok (s, e)
    /\ get_market_ohlcv stock s e (TICKER cfg) = Ok (PyFrame df)
    /\ prepare_ohlcv df = Ok F0
    /\ position "일자" (columns F0) = Ok i
    /\ forall r, r ∈ rows out ->
         exists n r0,
           rows F0 !! n = Some r0
           /\ date_text lib (cell i r0) = Ok (cell 0 r)
           /\ (forall m r1, (m < n)%nat -> rows F0 !! m = Some r1 ->
                 date_text lib (cell i r1) <> Ok (cell 0 r))
           /\ forall k c, columns out !! k = Some c -> c ∈ tail wanted_cols ->
                exists j, position c (columns F0) = Ok j
                          /\ _to_num (cell j r0) = Ok (cell k r).
Proof.
  intros H.
  apply build_table_shape in H
    as (s & e & df & o2 & o3 & P & SV & SB & Hr & H1 & HP & _ & HSV & _ & HSB & ->).
  destruct (normalize_ohlcv_shape _ _ _ HP)
    as (F0' & i' & ks & rest & _ & _ & _ & _ & Hc & Hrest & Hl & _ & _).
  destruct (normalize_ohlcv_rows _ _ _ HP) as (F0 & i & HF0 & Hi & Hrows).
  apply normalize_short_shape in HSV as (_ & HlV & _); [|done|done].
  apply normalize_short_shape in HSB as (_ & HlB & _); [|done|done].
  exists s, e, df, F0, i. repeat (split; [assumption|]).
  intros r Hin. cbn [rows] in Hin.
  apply (output_row_inv P SV SB r Hl HlV HlB) in Hin
    as (lr & x1 & x2 & y1 & y2 & Hlr & Hlen & _ & _ & ->).
  destruct (Hrows lr Hlr) as (n & r0 & Hn & Hd & Hfirst & Hcells).
  assert (H0 : cell 0 (lr ++ [fill0 x1; fill0 x2; fill0 y1; fill0 y2]) = cell 0 lr).
  { apply cell_app_l. rewrite Hlen, Hc. simpl. lia. }
  exists n, r0. rewrite H0. repeat (split; [assumption|]).
  intros k c Hk Hw. cbn [columns] in Hk.
  assert (Hkp : columns P !! k = Some c).
  { apply lookup_app_Some in Hk as [Hk|[_ Hk]]; [exact Hk|]. exfalso.
    apply (short_not_price c); [eapply list_elem_of_lookup_2, Hk|].
    unfold wanted_cols. right. exact Hw. }
  assert (Hne : c <> "일자").
  { intros ->. by apply date_not_rest. }
  destruct (Hcells k c Hkp Hne) as (j & Hj & Hnum).
  exists j. split; [exact Hj|].
  rewrite cell_app_l; [exact Hnum|]. rewrite Hlen. eapply lookup_lt_Some, Hkp.
Qed.

Lemma price_cells_from_first_row_witness :
  exists s e df F0 i,
    _yyyymmdd_range today (LOOKBACK_DAYS cfg) = Ok (s, e)
    /\ get_market_ohlcv stock_repeat s e (TICKER cfg) = Ok (PyFrame df)
    /\ prepare_ohlcv df = Ok F0
    /\ position "일자" (columns F0) = Ok i
    /\ forall r, r ∈ rows out_repeat ->
         exists n r0,
           rows F0 !! n = Some r0
           /\ date_text lib (cell i r0) = Ok (cell 0 r)
           /\ (forall m r1, (m < n)%nat -> rows F0 !! m = Some r1 ->
                 date_text lib (cell i r1) <> Ok (cell 0 r))
           /\ forall k c, columns out_repeat !! k = Some c ->
                c ∈ tail wanted_cols ->
                exists j, position c (columns F0) = Ok j
                          /\ _to_num (cell j r0) = Ok (cell k r).
Proof.
  apply (price_cells_from_first_row lib cfg today stock_repeat out_repeat).
  vm_compute. reflexivity.
Defined.

(** Of two price rows of one date the output has the first. *)
Example first_price_row_wins :
  List.map (take 5) (rows out_repeat)
  = [[VStr "2026-11-03"; VFloat (110 # 1); VFloat (120 # 1); VFloat (100 # 1);
      VFloat (110 # 1)];
     [VStr "2026-11-02"; VFloat (100 # 1); VFloat (110 # 1); VFloat (90 # 1);
      VFloat (100 # 1)]].
Proof. vm_compute. reflexivity. Qed.

(** ** Where the cells of a short-sale table come from *)

(** X14.  Where the rows of a normalised short-sale table come from (lines
    77-80 and 92-95).  Each row of the three selected columns gives one row:
    its date as [YYYY-MM-DD] text, or a missing value, and [_to_num] of its
    quantity and of its ratio.  The rows without a date are then dropped;
    the others stay, in the provider's order and as often as the provider
    has them. *)
Theorem short_rows_from_provider lib qty ratio df G S :
  qty <> "일자" -> ratio <> "일자" -> empty df = false ->
  select_short qty ratio df = Ok G ->
  normalize_short lib qty ratio (PyFrame df) = Ok S ->
  exists N,
    Forall2 (fun g s => exists d q t,
               date_text lib (cell 0 g) = Ok d /\ _to_num (cell 1 g) = Ok q
               /\ _to_num (cell 2 g) = Ok t /\ s = [d; q; t])
            (rows G) N
    /\ rows S = List.filter (fun s => negb (isna (cell 0 s))) N.
Proof.
  intros Hq Hr He HG H. unfold normalize_short in H. rewrite He, HG in H.
  cbn [mbind result_bind] in H. inv_ok. rename x into F1, x0 into F2.
  destruct (select_short_shape _ _ _ _ HG) as (HcG & HlG).
  pose proof (position_date_first qty ratio Hq Hr) as P0.
  pose proof (normalize_numeric_rows _ _ _ Hx0) as R12.
  apply normalize_numeric_Ok in Hx0 as (Hc2 & Hl2 & _ & _).
  apply apply_col_rows in Hx as (i & Hi & Hc1 & R01); [|apply date_text_nan].
  rewrite HcG, P0 in Hi. injection Hi as <-. rewrite HcG in Hc1.
  rewrite Hc1 in Hc2.
  unfold dropna in H. rewrite Hc2, P0 in H. cbn [mbind result_bind] in H.
  injection H as <-. cbn [rows]. exists (rows F2). split; [|reflexivity].
  apply Forall2_same_length_lookup_2.
  - rewrite (Forall2_length _ _ _ R01). apply (Forall2_length _ _ _ R12).
  - intros n g s Hg Hs.
    destruct (Forall2_lookup_l _ _ _ _ _ R01 Hg) as (r1 & Hn1 & Hd & Hsame & Hlen1).
    pose proof (Forall2_lookup_lr _ _ _ _ _ _ R12 Hn1 Hs) as H12.
    assert (Hlg : length g = 3%nat).
    { rewrite Forall_forall in HlG. apply HlG. eapply list_elem_of_lookup_2, Hg. }
    assert (Hls : length s = 3%nat).
    { apply (f_equal (fun l => l !! n)) in Hl2.
      rewrite !lookup_map, Hs, Hn1 in Hl2. simpl in Hl2. congruence. }
    exists (cell 0 s), (cell 1 s), (cell 2 s).
    split; [|split; [|split; [|by apply row3]]].
    + destruct (H12 0%nat) as [_ Hkeep]. rewrite Hkeep; [exact Hd|].
      intros c Hc. rewrite Hc1. simpl. intros Hl. injection Hl as <-.
      repeat (apply elem_of_cons in Hc as [Hc|Hc]; [congruence|]).
      by apply elem_of_nil in Hc.
    + destruct (H12 1%nat) as [Hnum _]. rewrite <- (Hsame 1%nat) by lia.
      apply (Hnum qty); [by rewrite Hc1 | left].
    + destruct (H12 2%nat) as [Hnum _]. rewrite <- (Hsame 2%nat) by lia.
      apply (Hnum ratio); [by rewrite Hc1 | right; left].
Qed.

Lemma short_rows_from_provider_witness :
  exists N,
    Forall2 (fun g s => exists d q t,
               date_text lib (cell 0 g) = Ok d /\ _to_num (cell 1 g) = Ok q
               /\ _to_num (cell 2 g) = Ok t /\ s = [d; q; t])
            (rows volume_selected) N
    /\ rows volume_normalized = List.filter (fun s => negb (isna (cell 0 s))) N.
Proof.
  apply (short_rows_from_provider lib "공매도" "공매도비중"
           (short_volume volume_rows) volume_selected volume_normalized);
    done.
Defined.

(** ** The shape of the output *)

(** X15.  The table that is written is rectangular: every row has as many
    cells as there are columns, whatever the provider's tables look like,
    and there are between 5 and 11 columns (the date, the price columns the
    provider has, and the four short-sale columns). *)
Theorem output_rectangular lib cfg today stock out :
  build_table lib cfg today stock = Ok out ->
  Forall (fun r => length r = length (columns out)) (rows out)
  /\ (5 <= length (columns out) <= 11)%nat.
Proof.
  intros H.
  apply build_table_shape in H
    as (s & e & df & o2 & o3 & P & SV & SB & Hr & H1 & HP & _ & HSV & _ & HSB & ->).
  destruct (normalize_ohlcv_shape _ _ _ HP)
    as (F0 & i & ks & rest & _ & _ & _ & Hf & Hc & Hrest & Hl & _ & _).
  apply normalize_short_shape in HSV as (_ & HlV & _); [|done|done].
  apply normalize_short_shape in HSB as (_ & HlB & _); [|done|done].
  cbn [columns rows]. split.
  - apply Forall_forall. intros r Hin.
    apply (output_row_inv P SV SB r Hl HlV HlB) in Hin
      as (lr & x1 & x2 & y1 & y2 & _ & Hlen & _ & _ & ->).
    rewrite !List.length_app, Hlen. reflexivity.
  - rewrite List.length_app. change (length short_names) with 4%nat.
    assert (Hle : (length (columns P) <= 7)%nat).
    { rewrite Hf. apply (List.filter_length_le _ wanted_cols). }
    rewrite Hc in *. simpl in *. lia.
Qed.

Lemma output_rectangular_witness :
  Forall (fun r => length r = 11%nat) (rows out_full).
Proof.
  destruct (output_rectangular lib cfg today stock_full out_full) as (H & _);
    [vm_compute; reflexivity|].
  exact H.
Defined.
(** ** The calendar: day numbers and dates are in bijection *)

Lemma ordinals_calendar_spec fuel : forall n r,
  ordinals_calendar fuel n = true -> n <= r < n + Z.of_nat fuel ->
  day (ord2ymd r) <= days_in_month (is_leap (year (ord2ymd r))) (month (ord2ymd r)).
Proof.
  induction fuel as [|f IH]; intros n r H Hr; [lia|].
  cbn [ordinals_calendar] in H. cbv zeta in H.
  match type of H with (if ?c then _ else _) = _ => destruct c eqn:E end;
    [|discriminate].
  destruct (Z.eq_dec r n) as [->|Hne]; [|apply (IH (n + 1)); [assumption | lia]].
  lia.
Qed.

Lemma calendar_cycle_ok : ordinals_calendar (Z.to_nat 146097) 1 = true.
Proof. vm_compute. reflexivity. Qed.

Lemma is_leap_shift y k : is_leap (y + 400 * k) = is_leap y.
Proof.
  unfold is_leap.
  replace ((y + 400 * k) mod 4) with (y mod 4)
    by (replace (400 * k) with (100 * k * 4) by lia; by rewrite Z.mod_add by lia).
  replace ((y + 400 * k) mod 100) with (y mod 100)
    by (replace (400 * k) with (4 * k * 100) by lia; by rewrite Z.mod_add by lia).
  replace ((y + 400 * k) mod 400) with (y mod 400)
    by (replace (400 * k) with (k * 400) by lia; by rewrite Z.mod_add by lia).
  reflexivity.
Qed.

(** The date of a day number is a day of the calendar. *)
Lemma ord2ymd_calendar n :
  1 <= n <= max_ordinal -> calendar_date (ord2ymd n).
Proof.
  intros Hn. destruct (ord2ymd_valid n Hn) as (Hy & Hm & Hd).
  destruct (ymd2ord_ord2ymd n ltac:(lia)) as (Hrt & _ & _).
  split; [|split; [exact Hm|split; [lia|]]].
  - split; [|lia].
    destruct (Z_lt_le_dec (year (ord2ymd n)) 1) as [Hy0|Hy0]; [|assumption].
    exfalso. unfold ymd2ord in Hrt.
    pose proof (days_before_month_bounds (is_leap (year (ord2ymd n))) _ Hm).
    pose proof (days_before_year_nonpos (year (ord2ymd n)) ltac:(lia)). lia.
  - set (q := (n - 1) / 146097). set (r := (n - 1) mod 146097 + 1).
    assert (Hr : 1 <= r < 1 + 146097).
    { unfold r. pose proof (Z.mod_pos_bound (n - 1) 146097). lia. }
    assert (En : n = r + 146097 * q).
    { unfold r, q. pose proof (Z.div_mod (n - 1) 146097). lia. }
    pose proof (ordinals_calendar_spec (Z.to_nat 146097) 1 r calendar_cycle_ok) as Hc.
    rewrite Z2Nat.id in Hc by lia. specialize (Hc Hr).
    rewrite En, ord2ymd_shift. cbn [year month day].
    by rewrite is_leap_shift.
Qed.

Lemma year_length y :
  days_before_year (y + 1)
  = days_before_year y + 365 + (if is_leap y then 1 else 0).
Proof.
  unfold days_before_year, is_leap. cbv zeta.
  replace (y + 1 - 1) with y by lia.
  destruct (Z.eqb_spec (y mod 4) 0), (Z.eqb_spec (y mod 100) 0),
    (Z.eqb_spec (y mod 400) 0); simpl; Z.div_mod_to_equations; lia.
Qed.

Lemma days_before_year_le y y' :
  y <= y' -> days_before_year y <= days_before_year y'.
Proof. unfold days_before_year. cbv zeta. intros H. Z.div_mod_to_equations. lia. Qed.

Lemma month_end leap m m' :
  1 <= m -> m < m' -> m' <= 12 ->
  days_before_month leap m + days_in_month leap m <= days_before_month leap m'.
Proof.
  intros H1 H2 H3.
  assert (E : m = 1 \/ m = 2 \/ m = 3 \/ m = 4 \/ m = 5 \/ m = 6 \/ m = 7
              \/ m = 8 \/ m = 9 \/ m = 10 \/ m = 11) by lia.
  assert (E' : m' = 2 \/ m' = 3 \/ m' = 4 \/ m' = 5 \/ m' = 6 \/ m' = 7
               \/ m' = 8 \/ m' = 9 \/ m' = 10 \/ m' = 11 \/ m' = 12) by lia.
  repeat (destruct E as [->|E]); try subst m;
    repeat (destruct E' as [->|E']); try subst m';
    try lia; destruct leap; vm_compute; discriminate.
Qed.

Lemma year_end leap m :
  1 <= m <= 12 ->
  days_before_month leap m + days_in_month leap m
  <= 365 + (if leap then 1 else 0).
Proof.
  intros H.
  assert (E : m = 1 \/ m = 2 \/ m = 3 \/ m = 4 \/ m = 5 \/ m = 6 \/ m = 7
              \/ m = 8 \/ m = 9 \/ m = 10 \/ m = 11 \/ m = 12) by lia.
  repeat (destruct E as [->|E]); try subst m; destruct leap; vm_compute;
    discriminate.
Qed.

(** An earlier day has a smaller day number. *)
Lemma ymd2ord_lt a b :
  1 <= month a <= 12 ->
  day a <= days_in_month (is_leap (year a)) (month a) ->
  1 <= month b <= 12 -> 1 <= day b ->
  date_lt a b -> ymd2ord a < ymd2ord b.
Proof.
  intros Hma Hda Hmb Hdb Hlt. unfold ymd2ord.
  pose proof (days_before_month_bounds (is_leap (year b)) (month b) Hmb) as Hbb.
  destruct Hlt as [Hy|[Hy [Hm|[Hm Hd]]]].
  - pose proof (year_length (year a)) as Hl.
    pose proof (days_before_year_le (year a + 1) (year b) ltac:(lia)) as Hle.
    pose proof (year_end (is_leap (year a)) (month a) Hma) as He. lia.
  - rewrite Hy in *.
    pose proof (month_end (is_leap (year b)) (month a) (month b)
                  ltac:(lia) Hm ltac:(lia)) as He. lia.
  - rewrite Hy, Hm in *. lia.
Qed.

Lemma date_trichotomy a b : date_lt a b \/ a = b \/ date_lt b a.
Proof.
  destruct a as [ya ma da], b as [yb mb db]. unfold date_lt. simpl.
  destruct (Z.lt_trichotomy ya yb) as [?|[->|?]]; [tauto| |tauto].
  destruct (Z.lt_trichotomy ma mb) as [?|[->|?]]; [tauto| |tauto].
  destruct (Z.lt_trichotomy da db) as [?|[->|?]]; tauto.
Qed.

(** The day numbers order the days of the calendar as the calendar does. *)
Lemma ymd2ord_order a b :
  calendar_date a -> calendar_date b ->
  (ymd2ord a < ymd2ord b -> date_lt a b)
  /\ (ymd2ord a = ymd2ord b -> a = b).
Proof.
  intros (_ & Hma & Hda1 & Hda) (_ & Hmb & Hdb1 & Hdb).
  assert (Hab : date_lt a b -> ymd2ord a < ymd2ord b)
    by (by apply ymd2ord_lt).
  assert (Hba : date_lt b a -> ymd2ord b < ymd2ord a)
    by (by apply ymd2ord_lt).
  split; intros H; destruct (date_trichotomy a b) as [Hl|[He|Hg]];
    try assumption; try (subst; lia);
    try (specialize (Hab Hl); lia); specialize (Hba Hg); lia.
Qed.

Lemma ymd2ord_range d :
  calendar_date d -> 1 <= ymd2ord d <= max_ordinal.
Proof.
  intros ((Hy1 & Hy2) & Hm & Hd1 & Hd). unfold ymd2ord.
  pose proof (days_before_month_bounds (is_leap (year d)) (month d) Hm).
  pose proof (year_end (is_leap (year d)) (month d) Hm).
  pose proof (year_length (year d)).
  pose proof (days_before_year_le 1 (year d) ltac:(lia)) as Hlo.
  pose proof (days_before_year_le (year d + 1) 10000 ltac:(lia)) as Hhi.
  change (days_before_year 1) with 0 in Hlo.
  change (days_before_year 10000) with 3652059 in Hhi.
  unfold max_ordinal. lia.
Qed.

(** [fromordinal] undoes [toordinal]. *)
Lemma ord2ymd_ymd2ord d : calendar_date d -> ord2ymd (ymd2ord d) = d.
Proof.
  intros Hd. pose proof (ymd2ord_range d Hd) as Hr.
  pose proof (ord2ymd_calendar _ Hr) as Hc.
  destruct (ymd2ord_ord2ymd (ymd2ord d) ltac:(lia)) as (Hrt & _).
  by apply (ymd2ord_order _ _ Hc Hd).
Qed.

Lemma calendar_valid d : calendar_date d -> valid_date d.
Proof.
  intros ((Hy1 & Hy2) & Hm & Hd1 & Hd). unfold valid_date.
  split; [lia|]. split; [exact Hm|]. split; [exact Hd1|].
  assert (days_in_month (is_leap (year d)) (month d) <= 31); [|lia].
  assert (E : month d = 1 \/ month d = 2 \/ month d = 3 \/ month d = 4
              \/ month d = 5 \/ month d = 6 \/ month d = 7 \/ month d = 8
              \/ month d = 9 \/ month d = 10 \/ month d = 11 \/ month d = 12) by lia.
  repeat (destruct E as [->|E]); try rewrite E; destruct (is_leap (year d));
    vm_compute; discriminate.
Qed.

(** ** The window as text *)

(** A year of four digits is written by [%Y] as [%04d] writes it; an
    earlier year is written with fewer digits. *)
Lemma pretty_year_table :
  forallb (fun y => bool_decide (chars (pretty y) = digits 4 y)) (seqZ 1000 9000)
  = true.
Proof. vm_compute. reflexivity. Qed.

Lemma pretty_early_year_table :
  forallb (fun y => bool_decide (length (chars (pretty y)) < 4)%nat) (seqZ 1 999)
  = true.
Proof. vm_compute. reflexivity. Qed.

Lemma pretty_year y : 1000 <= y <= 9999 -> chars (pretty y) = digits 4 y.
Proof.
  intros Hy. pose proof pretty_year_table as H.
  rewrite List.forallb_forall in H.
  eapply bool_decide_eq_true, H. apply list_elem_of_In, elem_of_seqZ. lia.
Qed.

Lemma pretty_early_year y :
  1 <= y < 1000 -> (length (chars (pretty y)) < 4)%nat.
Proof.
  intros Hy. pose proof pretty_early_year_table as H.
  rewrite List.forallb_forall in H.
  eapply bool_decide_eq_true, H. apply list_elem_of_In, elem_of_seqZ. lia.
Qed.

Lemma strftime_compact_digits d :
  1000 <= year d <= 9999 ->
  strftime_compact d
  = text (digits 4 (year d) ++ digits 2 (month d) ++ digits 2 (day d)).
Proof. intros H. unfold strftime_compact. by rewrite pretty_year. Qed.

Lemma strftime_compact_length d :
  1000 <= year d <= 9999 -> String.length (strftime_compact d) = 8%nat.
Proof.
  intros H. rewrite strftime_compact_digits by assumption.
  by rewrite length_text, !length_app, !digits_length.
Qed.

Lemma strftime_compact_short d :
  1 <= year d < 1000 -> (String.length (strftime_compact d) < 8)%nat.
Proof.
  intros H. unfold strftime_compact.
  rewrite length_text, !length_app, !digits_length.
  pose proof (pretty_early_year _ H). lia.
Qed.

(** The digits of two days compare as year, month and day do. *)
Lemma lcompare_ymd a b :
  valid_date a -> valid_date b ->
  lcompare (digits 4 (year a) ++ digits 2 (month a) ++ digits 2 (day a))
           (digits 4 (year b) ++ digits 2 (month b) ++ digits 2 (day b))
  = match year a ?= year b with
    | Eq => match month a ?= month b with
            | Eq => day a ?= day b
            | c => c
            end
    | c => c
    end.
Proof.
  intros (Hya & Hma & Hda) (Hyb & Hmb & Hdb).
  rewrite lcompare_app by (by rewrite !digits_length).
  rewrite lcompare_digits_small by (simpl; lia).
  rewrite lcompare_app by (by rewrite !digits_length).
  rewrite lcompare_digits_small by (simpl; lia).
  by rewrite lcompare_digits_small by (simpl; lia).
Qed.

(** The eight digits of a day are smaller exactly when the day is earlier. *)
Lemma strftime_compact_lt a b :
  valid_date a -> valid_date b -> 1000 <= year a -> 1000 <= year b ->
  String.ltb (strftime_compact a) (strftime_compact b) = true <-> date_lt a b.
Proof.
  intros Ha Hb Hya Hyb.
  rewrite !strftime_compact_digits by (unfold valid_date in *; lia).
  unfold String.ltb. rewrite compare_text, lcompare_ymd by assumption.
  unfold date_lt.
  destruct (year a ?= year b) eqn:Ey;
    [destruct (month a ?= month b) eqn:Em;
       [destruct (day a ?= day b) eqn:Ed|..]|..];
    rewrite ?Z.compare_eq_iff, ?Z.compare_lt_iff, ?Z.compare_gt_iff in *;
    split; try discriminate; try reflexivity; intros; lia.
Qed.

(** A day that is not later has digits that are not larger. *)
Lemma digits_leb a b :
  valid_date a -> valid_date b -> ~ date_lt b a ->
  String.leb
    (text (digits 4 (year a) ++ digits 2 (month a) ++ digits 2 (day a)))
    (text (digits 4 (year b) ++ digits 2 (month b) ++ digits 2 (day b)))
  = true.
Proof.
  intros Ha Hb Hn. unfold String.leb.
  rewrite compare_text, lcompare_ymd by assumption.
  unfold date_lt in Hn.
  destruct (year a ?= year b) eqn:Ey;
    [destruct (month a ?= month b) eqn:Em;
       [destruct (day a ?= day b) eqn:Ed|..]|..];
    rewrite ?Z.compare_eq_iff, ?Z.compare_lt_iff, ?Z.compare_gt_iff in *;
    try reflexivity; exfalso; apply Hn; lia.
Qed.

Lemma digits_no_dash w n :
  List.filter (fun a => negb (Ascii.eqb a "-")) (digits w n) = digits w n.
Proof.
  induction w as [|w IH]; [reflexivity|]. cbn [digits].
  assert (Hk : (Z.to_nat ((n / 10 ^ Z.of_nat w) mod 10) < 10)%nat).
  { pose proof (Z.mod_pos_bound (n / 10 ^ Z.of_nat w) 10). lia. }
  set (k := Z.to_nat ((n / 10 ^ Z.of_nat w) mod 10)) in *.
  cbn [List.filter]. rewrite IH.
  do 10 (destruct k as [|k]; [reflexivity|]). lia.
Qed.

(** A date [YYYY-MM-DD] without its dashes is the eight digits of the day. *)
Lemma strftime_dash_digits d :
  text (List.filter (fun a => negb (Ascii.eqb a "-")) (chars (strftime_dash d)))
  = text (digits 4 (year d) ++ digits 2 (month d) ++ digits 2 (day d)).
Proof.
  unfold strftime_dash, chars at 1, text at 2.
  rewrite list_ascii_of_string_of_list_ascii.
  by rewrite !List.filter_app, !digits_no_dash.
Qed.

(** A day of the calendar that is not before the first day of the year 1000
    has a year of four digits. *)
Lemma ymd2ord_year d :
  calendar_date d -> ymd2ord (Date 1000 1 1) <= ymd2ord d -> 1000 <= year d.
Proof.
  intros Hd Hle.
  assert (Hc : calendar_date (Date 1000 1 1))
    by (vm_compute; repeat split; discriminate).
  destruct (Z.eq_dec (ymd2ord (Date 1000 1 1)) (ymd2ord d)) as [He|Hne].
  - apply (ymd2ord_order _ _ Hc Hd) in He. by subst d.
  - assert (Hlt : ymd2ord (Date 1000 1 1) < ymd2ord d) by lia.
    apply (ymd2ord_order _ _ Hc Hd) in Hlt.
    unfold date_lt in Hlt. cbn [year month day] in Hlt. lia.
Qed.

(** Day numbers in order are days in order. *)
Lemma ymd2ord_le a b :
  calendar_date a -> calendar_date b -> ymd2ord a <= ymd2ord b ->
  ~ date_lt b a /\ year a <= year b.
Proof.
  intros Ha Hb Hle.
  assert (Hn : ~ date_lt b a).
  { intros Hlt. destruct Ha as (_ & Hma & Hda1 & Hda), Hb as (_ & Hmb & Hdb1 & Hdb).
    pose proof (ymd2ord_lt b a Hmb Hdb Hma Hda1 Hlt). lia. }
  split; [exact Hn|]. unfold date_lt in Hn. lia.
Qed.

(** ** The window: when it exists, and its order *)

Lemma range_Ok today days s e :
  _yyyymmdd_range today days = Ok (s, e) ->
  Z.abs days <= 999999999 /\ 1 <= ymd2ord today - days <= max_ordinal
  /\ s = strftime_compact (ord2ymd (ymd2ord today - days))
  /\ e = strftime_compact today.
Proof.
  unfold _yyyymmdd_range, minus_days. cbv zeta.
  destruct (Z.ltb_spec 999999999 (Z.abs days)) as [Hk|Hk]; [discriminate|].
  destruct ((1 <=? ymd2ord today - days)
            && (ymd2ord today - days <=? max_ordinal)) eqn:E; [|discriminate].
  cbn [mbind result_bind]. intros H. injection H as <- <-.
  apply andb_prop in E as [E1 E2]. repeat split; lia.
Qed.

Lemma range_total today days :
  Z.abs days <= 999999999 -> 1 <= ymd2ord today - days <= max_ordinal ->
  _yyyymmdd_range today days
  = Ok (strftime_compact (ord2ymd (ymd2ord today - days)), strftime_compact today).
Proof.
  intros H1 H2. unfold _yyyymmdd_range, minus_days. cbv zeta.
  destruct (Z.ltb_spec 999999999 (Z.abs days)) as [Hk|Hk]; [lia|].
  replace ((1 <=? ymd2ord today - days)
           && (ymd2ord today - days <=? max_ordinal)) with true; [reflexivity|].
  symmetry. apply andb_true_intro. split; apply Z.leb_le; lia.
Qed.

Lemma range_Raise today days e :
  _yyyymmdd_range today days = Raise e -> exists m, e = OverflowError m.
Proof.
  unfold _yyyymmdd_range, minus_days. cbv zeta.
  destruct (999999999 <? Z.abs days).
  - cbn [mbind result_bind]. intros H. injection H as <-. eauto.
  - destruct ((1 <=? ymd2ord today - days)
              && (ymd2ord today - days <=? max_ordinal)).
    + discriminate.
    + cbn [mbind result_bind]. intros H. injection H as <-. eauto.
Qed.

Lemma build_raises_files lib cfg today stock w e :
  build_table lib cfg today stock = Raise e ->
  snd (script lib cfg today stock w) = 1
  /\ files (fst (script lib cfg today stock w)) = files w.
Proof.
  intros Hb.
  pose proof (main_trace lib cfg today stock w) as T. cbv zeta in T.
  pose proof (script_world lib cfg today stock w) as (Hfiles & _ & _ & _ & _ & Hexit).
  destruct (main lib cfg today stock w) as [w' r]. cbn [fst snd] in *.
  rewrite Hb in T. rewrite Hfiles. destruct T as (_ & _ & _ & T).
  destruct (snd (makedirs (OUTPUT_DIR cfg) w)) as [[]|e'].
  - destruct T as (_ & -> & _ & Hf). split; [apply Hexit | exact Hf].
  - destruct T as (-> & ->). split; [apply Hexit | reflexivity].
Qed.

(** X16.  When [_yyyymmdd_range] fails.  The window exists exactly when
    the number of days fits a [timedelta] and the start falls on a day of
    the years 1 to 9999; for a day of the calendar as [today], exactly when
    [days] is smaller than today's day number and not more than 3652059
    below it.  Otherwise the call raises an [OverflowError] (line 49), and
    then the run exits with code 1 and changes no file. *)
Theorem range_fails_exactly today days :
  (is_ok (_yyyymmdd_range today days) = true
   <-> Z.abs days <= 999999999 /\ 1 <= ymd2ord today - days <= max_ordinal)
  /\ (calendar_date today ->
      (is_ok (_yyyymmdd_range today days) = true
       <-> ymd2ord today - max_ordinal <= days < ymd2ord today))
  /\ (forall e, _yyyymmdd_range today days = Raise e ->
        exists m, e = OverflowError m)
  /\ (forall lib cfg stock w e,
        LOOKBACK_DAYS cfg = days -> _yyyymmdd_range today days = Raise e ->
        build_table lib cfg today stock = Raise e
        /\ snd (script lib cfg today stock w) = 1
        /\ files (fst (script lib cfg today stock w)) = files w).
Proof.
  assert (Hiff : is_ok (_yyyymmdd_range today days) = true
                 <-> Z.abs days <= 999999999
                     /\ 1 <= ymd2ord today - days <= max_ordinal).
  { split.
    - destruct (_yyyymmdd_range today days) as [[s e]|e] eqn:E; [|discriminate].
      intros _. apply range_Ok in E. tauto.
    - intros [H1 H2]. by rewrite range_total. }
  split; [exact Hiff|]. split; [|split].
  - intros Hc. pose proof (ymd2ord_range today Hc) as Hr.
    unfold max_ordinal in *. rewrite Hiff. lia.
  - apply range_Raise.
  - intros lib cfg stock w e Hd He.
    assert (Hb : build_table lib cfg today stock = Raise e).
    { unfold build_table. rewrite Hd, He. reflexivity. }
    split; [exact Hb|]. by apply (build_raises_files lib cfg today stock w e).
Qed.

Lemma range_fails_exactly_witness :
  snd (script lib (MkConfig "092040" "data" "out.csv" 1000000) today
         stock_full world1) = 1
  /\ files (fst (script lib (MkConfig "092040" "data" "out.csv" 1000000) today
                   stock_full world1)) = files world1.
Proof.
  destruct (range_fails_exactly today 1000000) as (_ & _ & _ & H).
  apply (H lib (MkConfig "092040" "data" "out.csv" 1000000) stock_full world1
           (OverflowError "date value out of range")); reflexivity.
Defined.

(** ** The window of the three requests *)

(** C9, as the code has it.  With no LOOKBACK_DAYS in the environment the
    look-back is 400 days.  The window is (start, end) with end the day of
    the run and start the day that lies the look-back in calendar days
    before it, each written as year, month of two digits and day of two
    digits: eight digits YYYYMMDD for a year of four digits, fewer for a
    start before the year 1000, which [%Y] does not pad.  The three provider
    calls are made with this window and the ticker, and the result depends
    on the provider through these three answers only.  The script itself
    does not filter by date: every date of the output is the reformatted
    date of a row the provider returned for the price request, so the dates
    of the output lie in the window whenever the dates of those rows do. *)
Theorem fetch_window lib cfg today stock :
  (forall env : gmap string string,
     env !! "LOOKBACK_DAYS" = None ->
     exists c, load_config env = Ok c /\ LOOKBACK_DAYS c = 400)
  /\ (forall s e,
        _yyyymmdd_range today (LOOKBACK_DAYS cfg) = Ok (s, e) ->
        exists start,
          minus_days today (LOOKBACK_DAYS cfg) = Ok start
          /\ start = ord2ymd (ymd2ord today - LOOKBACK_DAYS cfg)
          /\ ymd2ord start = ymd2ord today - LOOKBACK_DAYS cfg
          /\ calendar_date start
          /\ s = strftime_compact start /\ e = strftime_compact today
          /\ (1000 <= year start ->
              s = text (digits 4 (year start) ++ digits 2 (month start)
                        ++ digits 2 (day start))
              /\ String.length s = 8%nat)
          /\ (1000 <= year today <= 9999 ->
              e = text (digits 4 (year today) ++ digits 2 (month today)
                        ++ digits 2 (day today))
              /\ String.length e = 8%nat)
          /\ (year start < 1000 -> (String.length s < 8)%nat))
  /\ (forall out,
        build_table lib cfg today stock = Ok out ->
        exists s e o1 o2 o3,
          _yyyymmdd_range today (LOOKBACK_DAYS cfg) = Ok (s, e)
          /\ get_market_ohlcv stock s e (TICKER cfg) = Ok o1
          /\ get_shorting_volume_by_date stock s e (TICKER cfg) = Ok o2
          /\ get_shorting_balance_by_date stock s e (TICKER cfg) = Ok o3)
  /\ (forall s e stock',
        _yyyymmdd_range today (LOOKBACK_DAYS cfg) = Ok (s, e) ->
        get_market_ohlcv stock' s e (TICKER cfg)
        = get_market_ohlcv stock s e (TICKER cfg) ->
        get_shorting_volume_by_date stock' s e (TICKER cfg)
        = get_shorting_volume_by_date stock s e (TICKER cfg) ->
        get_shorting_balance_by_date stock' s e (TICKER cfg)
        = get_shorting_balance_by_date stock s e (TICKER cfg) ->
        build_table lib cfg today stock' = build_table lib cfg today stock)
  /\ (forall out,
        build_table lib cfg today stock = Ok out ->
        exists s e df F0 i,
          _yyyymmdd_range today (LOOKBACK_DAYS cfg) = Ok (s, e)
          /\ get_market_ohlcv stock s e (TICKER cfg) = Ok (PyFrame df)
          /\ prepare_ohlcv df = Ok F0
          /\ position "일자" (columns F0) = Ok i
          /\ forall r, r ∈ rows out ->
               exists r0, r0 ∈ rows F0 /\ date_text lib (cell i r0) = Ok (cell 0 r))
  /\ (forall out s e df F0 i,
        build_table lib cfg today stock = Ok out ->
        _yyyymmdd_range today (LOOKBACK_DAYS cfg) = Ok (s, e) ->
        get_market_ohlcv stock s e (TICKER cfg) = Ok (PyFrame df) ->
        prepare_ohlcv df = Ok F0 ->
        position "일자" (columns F0) = Ok i ->
        calendar_date today ->
        ymd2ord (Date 1000 1 1) <= ymd2ord today - LOOKBACK_DAYS cfg ->
        (forall r0, r0 ∈ rows F0 ->
           exists d, to_datetime lib (cell i r0) = Ok (Some d)
                     /\ calendar_date d
                     /\ ymd2ord today - LOOKBACK_DAYS cfg <= ymd2ord d
                        <= ymd2ord today) ->
        forall r, r ∈ rows out -> in_window s e (cell 0 r) = true).
Proof.
  split; [|split; [|split; [|split; [|split]]]].
  - intros env Henv. unfold load_config, getenv. rewrite Henv. simpl.
    eexists. split; reflexivity.
  - intros s e H. pose proof (range_Ok _ _ _ _ H) as (_ & Hn & Hs & He).
    pose proof (ord2ymd_calendar _ Hn) as Hc.
    destruct (ymd2ord_ord2ymd (ymd2ord today - LOOKBACK_DAYS cfg) ltac:(lia))
      as (Hrt & _).
    exists (ord2ymd (ymd2ord today - LOOKBACK_DAYS cfg)).
    set (start := ord2ymd (ymd2ord today - LOOKBACK_DAYS cfg)) in *.
    split.
    { unfold _yyyymmdd_range in H. cbv zeta in H.
      destruct (minus_days today (LOOKBACK_DAYS cfg)) as [d|x] eqn:Em;
        [|discriminate].
      cbn [mbind result_bind] in H. f_equal.
      injection H as H _. rewrite Hs in H.
      unfold minus_days in Em. cbv zeta in Em.
      destruct (999999999 <? Z.abs (LOOKBACK_DAYS cfg)); [discriminate|].
      destruct ((1 <=? ymd2ord today - LOOKBACK_DAYS cfg)
                && (ymd2ord today - LOOKBACK_DAYS cfg <=? max_ordinal));
        [|discriminate].
      by injection Em as <-. }
    repeat (split; [done|]). split; [|split].
    + intros Hy. destruct Hc as ((_ & Hy9) & _). subst s.
      split; [apply strftime_compact_digits | apply strftime_compact_length]; lia.
    + intros Hy. subst e.
      split; [apply strftime_compact_digits | apply strftime_compact_length]; lia.
    + intros Hy. destruct Hc as ((Hy1 & _) & _). subst s.
      apply strftime_compact_short. lia.
  - intros out H.
    apply build_table_shape in H
      as (s & e & df & o2 & o3 & P & SV & SB & Hr & H1 & _ & H2 & _ & H3 & _).
    exists s, e, (PyFrame df), o2, o3. auto.
  - intros s e stock' Hr H1 H2 H3. unfold build_table.
    rewrite Hr. cbn [mbind result_bind]. by rewrite H1, H2, H3.
  - intros out H. by apply output_dates_provenance.
  - intros out s e df F0 i H Hr H1 HF Hi Hct Hlo Hrows r Hin.
    destruct (output_dates_provenance _ _ _ _ _ H)
      as (s' & e' & df' & F0' & i' & Hr' & H1' & HF' & Hi' & Hprov).
    rewrite Hr in Hr'. injection Hr' as <- <-.
    rewrite H1 in H1'. injection H1' as <-.
    rewrite HF in HF'. injection HF' as <-.
    rewrite Hi in Hi'. injection Hi' as <-.
    destruct (Hprov r Hin) as (r0 & Hr0 & Hdt).
    destruct (Hrows r0 Hr0) as (d & Hd & Hcd & Hdlo & Hdhi).
    unfold date_text in Hdt. rewrite Hd in Hdt.
    cbn [mbind result_bind dt_strftime] in Hdt.
    injection Hdt as <-.
    apply range_Ok in Hr as (_ & Hn & -> & ->).
    pose proof (ord2ymd_calendar _ Hn) as Hcs.
    destruct (ymd2ord_ord2ymd (ymd2ord today - LOOKBACK_DAYS cfg) ltac:(lia))
      as (Hrt & _).
    set (start := ord2ymd (ymd2ord today - LOOKBACK_DAYS cfg)) in *.
    assert (Hys : 1000 <= year start) by (apply ymd2ord_year; [assumption | lia]).
    destruct (ymd2ord_le start d Hcs Hcd ltac:(lia)) as (Hsd & Hysd).
    destruct (ymd2ord_le d today Hcd Hct Hdhi) as (Hdt & Hydt).
    pose proof (calendar_valid _ Hcs) as Hvs.
    pose proof (calendar_valid _ Hcd) as Hvd.
    pose proof (calendar_valid _ Hct) as Hvt.
    unfold in_window. cbv zeta. rewrite strftime_dash_digits.
    rewrite !strftime_compact_digits by (unfold valid_date in *; lia).
    apply andb_true_intro. split; by apply digits_leb.
Qed.

Lemma fetch_window_witness :
  Forall (fun r => in_window "20250930" "20261104" (cell 0 r) = true)
         (rows out_full).
Proof.
  destruct (fetch_window lib cfg today stock_full) as (_ & _ & _ & _ & _ & H).
  apply Forall_forall.
  apply (H out_full "20250930" "20261104" prices3
           (table_of (prepare_ohlcv prices3)) 0%nat).
  - reflexivity.
  - reflexivity.
  - reflexivity.
  - reflexivity.
  - reflexivity.
  - vm_compute. repeat split; discriminate.
  - vm_compute. discriminate.
  - intros r0 Hr0. vm_compute in Hr0.
    repeat (apply elem_of_cons in Hr0 as [->|Hr0]);
      [| | |by apply elem_of_nil in Hr0];
      (eexists; split; [reflexivity|]; vm_compute; repeat split; discriminate).
Defined.

(** C9, as the specification states it, fails: with a look-back of 400000
    days the start of the window lies in the year 931, and it is written
    with seven digits, not as YYYYMMDD. *)
Lemma window_start_seven_digits :
  load_config {["LOOKBACK_DAYS" := "400000"]}
  = Ok (MkConfig "092040" "data" "latest_market_ohlcv.csv" 400000)
  /\ _yyyymmdd_range today 400000 = Ok ("9310906", "20261104")
  /\ minus_days today 400000 = Ok (Date 931 9 6)
  /\ String.length "9310906" = 7%nat.
Proof. repeat split; vm_compute; reflexivity. Qed.

(** X17.  The order of the window.  For a day of the calendar as [today],
    of a year of four digits, and a start that is not before 1 January 1000,
    the two texts [_yyyymmdd_range] returns are the eight digits of a day of
    the calendar [days] days before today and of today.  With a positive
    number of days the start is the smaller text, with zero days the two
    are equal, and with a negative number ([LOOKBACK_DAYS] may be negative)
    the start is the larger text: the window is then given to the provider
    backwards.  A start before the year 1000 is written with fewer digits,
    and the order of the texts is then not that of the days: 400000 days
    before 4 November 2026 the start is [9310906], the larger text. *)
Theorem window_order today days s e :
  calendar_date today -> 1000 <= year today ->
  ymd2ord (Date 1000 1 1) <= ymd2ord today - days ->
  _yyyymmdd_range today days = Ok (s, e) ->
  (0 < days -> String.ltb s e = true)
  /\ (days = 0 -> s = e)
  /\ (days < 0 -> String.ltb e s = true)
  /\ String.length s = 8%nat /\ String.length e = 8%nat
  /\ (exists start,
        calendar_date start /\ 1000 <= year start
        /\ ymd2ord start = ymd2ord today - days
        /\ s = strftime_compact start /\ e = strftime_compact today)
  /\ (_yyyymmdd_range (Date 2026 11 4) 400000 = Ok ("9310906", "20261104")
      /\ String.ltb "20261104" "9310906" = true).
Proof.
  intros Hc Hyt Hlo H. apply range_Ok in H as (_ & Hn & -> & ->).
  pose proof (ord2ymd_calendar _ Hn) as Hs.
  destruct (ymd2ord_ord2ymd (ymd2ord today - days) ltac:(lia)) as (Hrt & _).
  set (start := ord2ymd (ymd2ord today - days)) in *.
  pose proof (calendar_valid _ Hc) as Hvt. pose proof (calendar_valid _ Hs) as Hvs.
  assert (Hys : 1000 <= year start) by (apply ymd2ord_year; [assumption | lia]).
  split; [|split; [|split; [|split; [|split; [|split]]]]].
  - intros Hd. apply strftime_compact_lt; try assumption.
    apply (ymd2ord_order _ _ Hs Hc). lia.
  - intros Hd. f_equal. apply (ymd2ord_order _ _ Hs Hc). lia.
  - intros Hd. apply strftime_compact_lt; try assumption.
    apply (ymd2ord_order _ _ Hc Hs). lia.
  - apply strftime_compact_length. unfold valid_date in Hvs. lia.
  - apply strftime_compact_length. unfold valid_date in Hvt. lia.
  - exists start. auto.
  - split; vm_compute; reflexivity.
Qed.

Lemma window_order_witness :
  String.ltb "20250930" "20261104" = true.
Proof.
  destruct (window_order today 400 "20250930" "20261104") as (H & _).
  - vm_compute. repeat split; discriminate.
  - vm_compute. discriminate.
  - vm_compute. discriminate.
  - reflexivity.
  - apply H. reflexivity.
Defined.
